(** * VerifyAi: the adjudication core, embedded from the Python sources

    The development follows the four stages of [app/agents]:
    - [ForensicTechnicalAgent] (forensic_agent.py), the signal analyzer;
    - [CrossReferenceEngine] (cross_reference.py), the weighted aggregator;
    - [RedTeamAgent] (red_team_agent.py), the adversarial critique pass with
      its class-level history log;
    - [Orchestrator] (orchestrator.py), the final-verdict rule.

    Conventions of the embedding.
    - A Python [float] is an exact rational of [Q]; equalities between
      scores are stated with [==].  [round(x, n)] rounds half to even on
      the exact value.  Binary floating point can fall on the other side of
      a threshold when the exact value sits on it or within a rounding error
      of it ([0.9 - 0.6 > 0.3] holds in the sources' arithmetic); the
      statements are therefore relative to the scores that the stages
      return, or are made where the margin exceeds the rounding error.
    - A Python [str] is a [string] (its UTF-8 bytes); the Hebrew tags of the
      source are kept verbatim.  Substring tests on bytes and on code points
      agree because UTF-8 is self-synchronising; a slice counts characters,
      not bytes.
    - Dictionaries with a fixed key set become records.  An opinion is a
      record of the four keys [agent_type], [confidence_score], [findings]
      and [anomalies = {"items": [...]}]: the forensic agent and the
      fall-backs of the vision providers build exactly that, so the [.get]
      fall-backs on those keys are not reachable.  A vision provider that
      received a reply passes on what the reply holds; the record describes
      the replies whose confidence is a number and whose anomalies are a
      list of objects, and says nothing of a run on any other reply.
    - Free text that no stage ever inspects (the description of an anomaly,
      the wording and impact of a challenge, the issue of a blind spot) is
      left out of the records.  The texts that a stage assembles (the
      aggregator's reasoning, the critique's recommendations and summary)
      are kept as the list of their sentences, each a sequence of fragments:
      literal text and the values substituted into it.
    - An exception is a value [Raise e] of the [result] type; the calls into
      Pillow that the sources make are fields of the [Image] record and of
      the [Pillow] environment, with their failures. *)

From Stdlib Require Import ZArith QArith Qround Qabs String Ascii List Bool Lia Lqa.
Import ListNotations.

Open Scope Q_scope.
Open Scope string_scope.
Open Scope list_scope.

(** ** Python primitives *)

Module Py.

(** The exceptions of the embedding: a division by zero, and whatever a
    library call raises (Pillow on a file it cannot read, the HTTP client of
    a vision provider). *)
Inductive exn : Type :=
| ZeroDivisionError
| LibraryError.

Inductive result (A : Type) : Type :=
| Ok (a : A)
| Raise (e : exn).
Arguments Ok {A} a.
Arguments Raise {A} e.

Definition bind {A B} (m : result A) (k : A -> result B) : result B :=
  match m with
  | Ok a => k a
  | Raise e => Raise e
  end.

(** [x < y] on floats. *)
Definition ltb (x y : Q) : bool := negb (Qle_bool y x).
Definition leb (x y : Q) : bool := Qle_bool x y.

(** [max(a, b)] keeps its first argument unless the second is greater,
    [min(a, b)] unless the second is smaller. *)
Definition max (a b : Q) : Q := if ltb a b then b else a.
Definition min (a b : Q) : Q := if ltb b a then b else a.

(** [x / y], raising on a zero divisor. *)
Definition div (x y : Q) : result Q :=
  if Qeq_bool y 0 then Raise ZeroDivisionError else Ok (x / y).

(** Rounding to the nearest integer, ties to the even neighbour. *)
Definition round_half_even (x : Q) : Z :=
  let f := Qfloor x in
  let d := x - inject_Z f in
  if ltb d (1 # 2) then f
  else if ltb (1 # 2) d then (f + 1)%Z
  else if Z.even f then f else (f + 1)%Z.

Definition pow10 (n : nat) : positive := Z.to_pos (10 ^ Z.of_nat n).

(** [round(x, n)] *)
Definition round (x : Q) (n : nat) : Q :=
  round_half_even (x * inject_Z (Zpos (pow10 n))) # pow10 n.

(** [sum(xs)] *)
Definition sum (xs : list Q) : Q := fold_left Qplus xs 0.

(** [needle in haystack] for strings. *)
Fixpoint contains (needle haystack : string) : bool :=
  if String.prefix needle haystack then true
  else match haystack with
       | EmptyString => false
       | String _ rest => contains needle rest
       end.

Definition lower_ascii (c : ascii) : ascii :=
  let n := nat_of_ascii c in
  if (65 <=? n)%nat && (n <=? 90)%nat then ascii_of_nat (n + 32) else c.

(** [s.lower()]; only the ASCII letters matter for the ASCII needles the
    sources search for. *)
Fixpoint lower (s : string) : string :=
  match s with
  | EmptyString => EmptyString
  | String c rest => String (lower_ascii c) (lower rest)
  end.

(** A byte that continues a UTF-8 sequence, [10xxxxxx]. *)
Definition is_continuation (c : ascii) : bool :=
  let n := nat_of_ascii c in
  (128 <=? n)%nat && (n <? 192)%nat.

(** [s[:n]]: the first [n] characters of [s], a character being the byte
    that opens a UTF-8 sequence with the continuation bytes after it. *)
Fixpoint slice_to (n : nat) (s : string) : string :=
  match s with
  | EmptyString => EmptyString
  | String c rest =>
      if is_continuation c then String c (slice_to n rest)
      else match n with
           | O => EmptyString
           | S n' => String c (slice_to n' rest)
           end
  end.

(** [sep.join(parts)] *)
Fixpoint join (sep : string) (parts : list string) : string :=
  match parts with
  | [] => ""
  | [p] => p
  | p :: rest => p ++ sep ++ join sep rest
  end.

(** [x in xs] for a list or tuple of strings. *)
Definition mem (x : string) (xs : list string) : bool :=
  existsb (String.eqb x) xs.

(** A [dict] with string keys, in insertion order: [d[k] = v] overwrites in
    place or appends; [d.get(k, dflt)]. *)
Fixpoint dict_set {V} (d : list (string * V)) (k : string) (v : V)
  : list (string * V) :=
  match d with
  | [] => [(k, v)]
  | (k', v') :: rest =>
      if String.eqb k' k then (k', v) :: rest
      else (k', v') :: dict_set rest k v
  end.

Fixpoint dict_get {V} (d : list (string * V)) (k : string) (dflt : V) : V :=
  match d with
  | [] => dflt
  | (k', v') :: rest => if String.eqb k' k then v' else dict_get rest k dflt
  end.

End Py.

Notation "x <- m ;; k" := (Py.bind m (fun x => k))
  (at level 61, m at next level, right associativity).

(** ** The records exchanged between the stages *)

(** An anomaly dictionary: [type], [severity], optional [location]. *)
Record Anomaly : Type := mkAnomaly {
  a_type : string;
  a_severity : string;
  a_location : option (Z * Z)
}.

(** The two entries of [findings] that a later stage reads (the
    AI-generation provider sets them); the rest of the payload is opaque. *)
Record Findings : Type := mkFindings {
  is_ai_generated : bool;
  likely_tool : option string
}.

Definition no_findings : Findings := mkFindings false None.

(** What every provider's [analyze] returns. *)
Record AgentResult : Type := mkAgentResult {
  agent_type : string;
  confidence_score : Q;
  findings : Findings;
  anomalies : list Anomaly
}.

Inductive Verdict : Type := authentic | forged | inconclusive.

Definition Verdict_eqb (a b : Verdict) : bool :=
  match a, b with
  | authentic, authentic | forged, forged | inconclusive, inconclusive => true
  | _, _ => false
  end.

(** A formatted string: literal text and the values put into its holes. *)
Inductive Fragment : Type :=
| Text (s : string)
| Int (n : Z)
| Percent1 (x : Q)
| Fixed1 (x : Q).

Record AnomalySummary : Type := mkAnomalySummary {
  s_total : nat;
  s_high : nat;
  s_medium : nat;
  s_low : Z
}.

(** [reasoning] holds the sentences that the source joins with a space;
    [anomaly_summary] is absent from the result for an empty input. *)
Record CrossReferenceResult : Type := mkCrossReferenceResult {
  combined_score : Q;
  final_verdict : Verdict;
  reasoning : list (list Fragment);
  anomaly_summary : option AnomalySummary
}.

(** ** cross_reference.py *)

Record CrossReferenceEngine : Type := mkCrossReferenceEngine {
  WEIGHTS : list (string * Q);
  CONFIDENCE_THRESHOLD : Q
}.

Module CrossReference.

Definition engine : CrossReferenceEngine :=
  {| WEIGHTS := [("forensic_technical", 0.35); ("physical", 0.25);
                 ("contextual", 0.20); ("ai_generation", 0.20)];
     CONFIDENCE_THRESHOLD := 0.75 |}.

(** The scoring loop: the pair [(weighted_sum, total_weight)] after the
    opinions are folded in. *)
Fixpoint accumulate (self : CrossReferenceEngine) (agent_results : list AgentResult)
         (weighted_sum total_weight : Q) : Q * Q :=
  match agent_results with
  | [] => (weighted_sum, total_weight)
  | result :: rest =>
      let weight := Py.dict_get (WEIGHTS self) (agent_type result) 0.1 in
      let score := confidence_score result in
      accumulate self rest (weighted_sum + score * weight) (total_weight + weight)
  end.

(** The loop that extends [all_anomalies] with the items of each opinion. *)
Fixpoint collect_anomalies (agent_results : list AgentResult) (all_anomalies : list Anomaly)
  : list Anomaly :=
  match agent_results with
  | [] => all_anomalies
  | result :: rest => collect_anomalies rest (all_anomalies ++ anomalies result)
  end.

Definition count_severity (sev : string) (l : list Anomaly) : nat :=
  length (filter (fun a => String.eqb (a_severity a) sev) l).

Definition decide_verdict (self : CrossReferenceEngine) (high_count : nat) (combined : Q)
  : Verdict :=
  if (3 <=? high_count)%nat || ((2 <=? high_count)%nat && Py.ltb combined 0.5)
  then forged
  else if Py.leb (CONFIDENCE_THRESHOLD self) combined && (high_count =? 0)%nat
  then authentic
  else inconclusive.

Definition agent_names : list (string * string) :=
  [("forensic_technical", "פורנזי-טכני"); ("physical", "פיזיקלי");
   ("contextual", "הקשרי"); ("ai_generation", "זיהוי AI")].

Definition ai_generation_parts (agent_results : list AgentResult) : list (list Fragment) :=
  flat_map (fun result =>
    if String.eqb (agent_type result) "ai_generation" && is_ai_generated (findings result)
    then [[Text "התמונה זוהתה כנוצרת על ידי AI (כלי: ";
           Text (match likely_tool (findings result) with
                 | Some tool => tool
                 | None => "לא ידוע"
                 end);
           Text ")."]]
    else []) agent_results.

Definition analyze (self : CrossReferenceEngine) (agent_results : list AgentResult)
  : Py.result CrossReferenceResult :=
  match agent_results with
  | [] =>
      Py.Ok {| combined_score := 0.5;
               final_verdict := inconclusive;
               reasoning := [[Text "לא התקבלו ממצאים מסוכנים."]];
               anomaly_summary := None |}
  | _ =>
      let '(weighted_sum, total_weight) := accumulate self agent_results 0 0 in
      combined <- (if Py.ltb 0 total_weight
                   then q <- Py.div weighted_sum total_weight ;; Py.Ok (Py.round q 3)
                   else Py.Ok 0.5) ;;
      let all_anomalies := collect_anomalies agent_results [] in
      let high_count := count_severity "high" all_anomalies in
      let medium_count := count_severity "medium" all_anomalies in
      let total_count := length all_anomalies in
      let verdict := decide_verdict self high_count combined in
      let low_confidence_agents :=
        map agent_type
            (filter (fun r => Py.ltb (confidence_score r) 0.6) agent_results) in
      let names := map (fun a => Py.dict_get agent_names a a) low_confidence_agents in
      let reasoning_parts :=
        [ [Text "הופעלו "; Int (Z.of_nat (length agent_results));
           Text " סוכני ניתוח. ציון ביטחון משוקלל: "; Percent1 combined; Text "."];
          [Text "זוהו "; Int (Z.of_nat total_count); Text " אנומליות: ";
           Int (Z.of_nat high_count); Text " בחומרה גבוהה, ";
           Int (Z.of_nat medium_count); Text " בחומרה בינונית."] ]
        ++ (match low_confidence_agents with
            | [] => []
            | _ => [[Text "ציון נמוך בסוכנים: "; Text (Py.join ", " names); Text "."]]
            end)
        ++ ai_generation_parts agent_results
        ++ (if Verdict_eqb verdict inconclusive
            then [[Text "מומלץ לשלב מומחה אנושי (HITL) לאימות הממצאים."]]
            else []) in
      Py.Ok {| combined_score := combined;
               final_verdict := verdict;
               reasoning := reasoning_parts;
               anomaly_summary :=
                 Some {| s_total := total_count;
                         s_high := high_count;
                         s_medium := medium_count;
                         s_low := Z.of_nat total_count - Z.of_nat high_count
                                  - Z.of_nat medium_count |} |}
  end.

End CrossReference.


(** ** Pillow, as far as the sources call it *)

Definition bytes : Type := list Byte.byte.

(** The error-level statistics that [_analyze_ela] takes from numpy: the
    standard deviation of the difference image and the mean of each cell of
    the 4x4 grid, row by row.  [region_means = None] stands for a grid whose
    cells are empty (an image under four pixels in one direction), where
    every mean is NaN and every comparison with it is false. *)
Record ElaStats : Type := mkElaStats {
  std_error : Q;
  region_means : option (list Q)
}.

(** An opened image.
    - [format] is [img.format], which may be [None];
    - [has_getexif] is [hasattr(img, '_getexif')];
    - [_getexif] is the outcome of [img._getexif()] with its tags named and
      its values stringified: it raises, or it yields the entries in order
      ([[]] for [None] and for an empty dictionary, both falsy);
    - [quantization] holds the tables of [img.quantization] in order, [[]]
      when the attribute is missing or empty;
    - [ela] is the outcome of the [try] block of [_analyze_ela], [None] when
      re-encoding or differencing raised. *)
Record Image : Type := mkImage {
  format : option string;
  mode : string;
  width : Z;
  height : Z;
  has_getexif : bool;
  _getexif : Py.result (list (string * string));
  quantization : list (list Z);
  ela : option ElaStats
}.

(** [Image.open(io.BytesIO(file_bytes))], which raises on input it cannot
    identify. *)
Record Pillow : Type := mkPillow {
  Image_open : bytes -> Py.result Image
}.

Definition format_is (img : Image) (name : string) : bool :=
  match format img with
  | Some f => String.eqb f name
  | None => false
  end.

(** [len(file_bytes)] *)
Definition len_bytes (file_bytes : bytes) : Q := inject_Z (Z.of_nat (length file_bytes)).

(** ** forensic_agent.py *)

(** Each of the four checks returns its anomalies and a dictionary of
    findings (for the dimensions: width, height and megapixels).  The
    findings of this agent are stored and never read by a later stage; the
    checks are embedded as the anomalies they return, each with its type,
    severity and location. *)

Module ForensicTechnicalAgent.

Definition AGENT_TYPE : string := "forensic_technical".

Definition _anomaly (type_ severity : string) (location : option (Z * Z)) : Anomaly :=
  {| a_type := type_; a_severity := severity; a_location := location |}.

Definition _result (confidence : Q) (anomalies : list Anomaly) : AgentResult :=
  {| agent_type := AGENT_TYPE;
     confidence_score := confidence;
     findings := no_findings;
     anomalies := anomalies |}.

(** The loop that fills [exif_data]: values are cut to 200 characters. *)
Definition build_exif_data (raw_exif : list (string * string)) : list (string * string) :=
  fold_left (fun d kv => Py.dict_set d (fst kv) (Py.slice_to 200 (snd kv)))
            raw_exif [].

Definition editing_tools : list string :=
  ["photoshop"; "gimp"; "lightroom"; "snapseed"; "picsart"; "canva"].

Definition _analyze_exif (img : Image) : Py.result (list Anomaly) :=
  exif_data <-
    (if has_getexif img
     then raw_exif <- _getexif img ;; Py.Ok (build_exif_data raw_exif)
     else Py.Ok []) ;;
  match exif_data with
  | [] => Py.Ok [_anomaly "מטאדטה" "medium" (Some (90, 10)%Z)]
  | _ =>
      let software := Py.dict_get exif_data "Software" "" in
      let software_anomalies :=
        if existsb (fun tool => Py.contains (Py.lower tool) (Py.lower software))
                   editing_tools
           && negb (String.eqb software "")
        then [_anomaly "תוכנת עריכה" "medium" (Some (85, 8)%Z)]
        else [] in
      let date_original := Py.dict_get exif_data "DateTimeOriginal" "" in
      let date_modified := Py.dict_get exif_data "DateTime" "" in
      let date_anomalies :=
        if negb (String.eqb date_original "") && negb (String.eqb date_modified "")
           && negb (String.eqb date_original date_modified)
        then [_anomaly "תאריכים" "high" (Some (80, 15)%Z)]
        else [] in
      Py.Ok (software_anomalies ++ date_anomalies)
  end.

(** [np.mean] of a list of numbers. *)
Definition mean (xs : list Q) : Q := Py.sum xs / inject_Z (Z.of_nat (length xs)).

(** The anomalies of the regions whose mean exceeds both 2.5 times the mean
    of the sixteen means and 15; region [i] is at row [i / 4], column
    [i mod 4]. *)
Definition region_anomalies (means : list Q) : list Anomaly :=
  let overall_mean := mean means in
  flat_map (fun im : nat * Q =>
    let '(i, m) := im in
    let row := Z.of_nat (i / 4) in
    let col := Z.of_nat (i mod 4) in
    if Py.ltb (overall_mean * 2.5) m && Py.ltb 15 m
    then [_anomaly "ELA" "high" (Some (col * 25 + 12, row * 25 + 12)%Z)]
    else []) (combine (seq 0 (length means)) means).

Definition _analyze_ela (img : Image) : list Anomaly :=
  match ela img with
  | None => []
  | Some stats =>
      (match region_means stats with
       | Some means => region_anomalies means
       | None => []
       end)
      ++ (if Py.ltb 20 (std_error stats)
          then [_anomaly "ELA כללי" "medium" (Some (50, 50)%Z)]
          else [])
  end.

(** The square of [np.std(table_values)]: the mean squared deviation. *)
Definition variance (table_values : list Z) : Q :=
  let xs := map inject_Z table_values in
  let m := mean xs in
  mean (map (fun x => (x - m) * (x - m)) xs).

(** [np.std(table_values) > 25], decided on the square: a standard deviation
    is not negative, so it exceeds 25 exactly when the variance exceeds 625. *)
Definition q_std_exceeds_25 (table_values : list Z) : bool :=
  match table_values with
  | [] => false
  | _ => Py.ltb 625 (variance table_values)
  end.

Definition _analyze_compression (file_bytes : bytes) (img : Image) : list Anomaly :=
  let double_compression :=
    if format_is img "JPEG"
    then match quantization img with
         | table_values :: _ =>
             if q_std_exceeds_25 table_values
             then [_anomaly "דחיסה כפולה" "medium" (Some (50, 85)%Z)]
             else []
         | [] => []
         end
    else [] in
  let pixels := (width img * height img)%Z in
  let ratio :=
    if (0 <? pixels)%Z
    then if Py.ltb (len_bytes file_bytes / inject_Z pixels) 0.1 && format_is img "JPEG"
         then [_anomaly "דחיסה" "low" (Some (15, 90)%Z)]
         else []
    else [] in
  double_compression ++ ratio.

Definition ai_dimensions : list (Z * Z) :=
  [(512, 512); (768, 768); (1024, 1024); (1024, 1792); (1792, 1024);
   (512, 768); (768, 512); (1024, 768); (768, 1024)]%Z.

Definition _analyze_dimensions (img : Image) : list Anomaly :=
  if existsb (fun d => (fst d =? width img)%Z && (snd d =? height img)%Z) ai_dimensions
  then [_anomaly "מימדים" "medium" (Some (10, 10)%Z)]
  else [].

Definition severity_scores : list (string * Q) :=
  [("high", 0.15); ("medium", 0.08); ("low", 0.03)].

Definition _calculate_confidence (anomalies : list Anomaly) : Q :=
  match anomalies with
  | [] => 0.92
  | _ =>
      let total_penalty :=
        Py.sum (map (fun a => Py.dict_get severity_scores (a_severity a) 0) anomalies) in
      Py.max 0.15 (Py.round (0.92 - total_penalty) 2)
  end.

Definition analyze (pil : Pillow) (file_bytes : bytes) (filename : string)
  : Py.result AgentResult :=
  match Image_open pil file_bytes with
  | Py.Raise _ => Py.Ok (_result 0.5 [_anomaly "format" "medium" None])
  | Py.Ok img =>
      exif_anomalies <- _analyze_exif img ;;
      let ela_anomalies := _analyze_ela img in
      let comp_anomalies := _analyze_compression file_bytes img in
      let dim_anomalies := _analyze_dimensions img in
      let anomalies := exif_anomalies ++ ela_anomalies ++ comp_anomalies ++ dim_anomalies in
      Py.Ok (_result (_calculate_confidence anomalies) anomalies)
  end.

End ForensicTechnicalAgent.


(** ** red_team_agent.py *)

Record Challenge : Type := mkChallenge {
  c_type : string;
  c_target_agent : option string;
  c_target_anomaly : option string;
  c_severity : string
}.

Record BlindSpot : Type := mkBlindSpot {
  b_agent : string;
  b_risk : string
}.

Inductive ThreatLevel : Type := low | medium | high.

Definition ThreatLevel_str (t : ThreatLevel) : string :=
  match t with
  | low => "low"
  | medium => "medium"
  | high => "high"
  end.

Record LogEntry : Type := mkLogEntry {
  timestamp : string;
  file_hash : string;
  challenges_count : nat;
  blind_spots_count : nat;
  e_confidence_adjustment : Q;
  verdict_challenged : bool
}.

Record CritiqueResult : Type := mkCritiqueResult {
  r_agent_type : string;
  challenges : list Challenge;
  blind_spots : list BlindSpot;
  recommendations : list (list Fragment);
  confidence_adjustment : Q;
  threat_level : ThreatLevel;
  learning_log_size : nat;
  summary : list (list Fragment)
}.

(** The class object.  [learning_log] is bound once, in the class body, to
    one list; the class has no [__init__] and no method assigns
    [self.learning_log], so on every instance the attribute resolves to this
    list and [append] mutates it in place. *)
Record RedTeamAgent_class : Type := mkRedTeamAgent_class {
  learning_log : list LogEntry
}.

(** An instance, [RedTeamAgent()]: an identity with no attributes of its
    own. *)
Inductive RedTeamAgent : Type := RedTeamAgent_instance (id : nat).

(** What [challenge] reads from its host besides its arguments: Pillow, and
    [hashlib.sha256(b).hexdigest()]. *)
Record Host : Type := mkHost {
  pillow : Pillow;
  sha256_hexdigest : bytes -> string
}.

Module RedTeam.

Definition AGENT_TYPE : string := "red_team".

(** [self.learning_log] *)
Definition get_learning_log (cls : RedTeamAgent_class) (self : RedTeamAgent)
  : list LogEntry := learning_log cls.

(** [self.learning_log.append(entry)] *)
Definition append_learning_log (cls : RedTeamAgent_class) (self : RedTeamAgent)
           (entry : LogEntry) : RedTeamAgent_class :=
  {| learning_log := learning_log cls ++ [entry] |}.

Definition _check_false_positives (pil : Pillow) (results : list AgentResult)
           (file_bytes : bytes) : list Challenge * option Q :=
  match find (fun r => String.eqb (agent_type r) "forensic_technical") results with
  | None => ([], None)
  | Some forensic =>
      let items := anomalies forensic in
      let ela_anomalies := filter (fun a => Py.contains "ELA" (a_type a)) items in
      let '(ela_challenges, adjustment) :=
        match ela_anomalies with
        | [] => ([], None)
        | _ =>
            match Image_open pil file_bytes with
            | Py.Raise _ => ([], None)
            | Py.Ok img =>
                if format_is img "JPEG"
                then
                  let pixels := (width img * height img)%Z in
                  let bpp := if (0 <? pixels)%Z
                             then len_bytes file_bytes / inject_Z pixels
                             else 0 in
                  if Py.ltb bpp 0.3
                  then ([ {| c_type := "false_positive_risk";
                             c_target_agent := Some "forensic_technical";
                             c_target_anomaly := Some "ELA";
                             c_severity := "medium" |} ],
                        Some 0.05)
                  else ([], None)
                else ([], None)
            end
        end in
      let meta_anomalies := filter (fun a => Py.contains "מטאדטה" (a_type a)) items in
      let meta_challenges :=
        match meta_anomalies with
        | [] => []
        | _ => [ {| c_type := "false_positive_risk";
                    c_target_agent := Some "forensic_technical";
                    c_target_anomaly := Some "metadata";
                    c_severity := "low" |} ]
        end in
      (ela_challenges ++ meta_challenges, adjustment)
  end.

Definition is_empty {A} (l : list A) : bool :=
  match l with [] => true | _ => false end.

Definition _check_false_negatives (results : list AgentResult) (file_bytes : bytes)
  : list BlindSpot :=
  let quiet :=
    flat_map (fun r =>
      if is_empty (anomalies r) && Py.ltb 0.8 (confidence_score r)
      then [ {| b_agent := agent_type r; b_risk := "false_negative" |} ]
      else []) results in
  let agent_types := map agent_type results in
  let all_anomaly_types := flat_map (fun r => map a_type (anomalies r)) results in
  let clone :=
    if negb (Py.contains "clone_detection" (Py.lower (Py.join " " all_anomaly_types)))
    then [ {| b_agent := "system"; b_risk := "missing_capability" |} ]
    else [] in
  let gan :=
    if negb (Py.mem "ai_generation" agent_types)
    then [ {| b_agent := "system"; b_risk := "missing_agent" |} ]
    else [] in
  quiet ++ clone ++ gan.

(** [max(values)] and [min(values)] of a non-empty sequence. *)
Definition max_list (x : Q) (xs : list Q) : Q := fold_left Py.max xs x.
Definition min_list (x : Q) (xs : list Q) : Q := fold_left Py.min xs x.

Definition build_scores (results : list AgentResult) : list (string * Q) :=
  fold_left (fun d r => Py.dict_set d (agent_type r) (confidence_score r)) results [].

Definition _check_cross_consistency (results : list AgentResult)
  : list Challenge * option Q :=
  let scores := build_scores results in
  let '(gap_challenges, adjustment) :=
    match map snd scores with
    | v :: ((_ :: _) as vs) =>
        let max_s := max_list v vs in
        let min_s := min_list v vs in
        let gap := max_s - min_s in
        if Py.ltb 0.3 gap
        then ([ {| c_type := "consistency_gap";
                   c_target_agent := None;
                   c_target_anomaly := None;
                   c_severity := "high" |} ],
              Some (-0.03))
        else ([], None)
    | _ => ([], None)
    end in
  let forensic_score := Py.dict_get scores "forensic_technical" 0.5 in
  let contextual_score := Py.dict_get scores "contextual" 0.5 in
  let disagreement :=
    if Py.ltb 0.25 (Qabs (forensic_score - contextual_score))
    then [ {| c_type := "cross_disagreement";
              c_target_agent := None;
              c_target_anomaly := None;
              c_severity := "medium" |} ]
    else [] in
  (gap_challenges ++ disagreement, adjustment).

Definition _check_edge_cases (pil : Pillow) (file_bytes : bytes) (results : list AgentResult)
  : list Challenge * list (list Fragment) :=
  match Image_open pil file_bytes with
  | Py.Ok img =>
      let low_res :=
        if (width img <? 200)%Z || (height img <? 200)%Z
        then [ {| c_type := "low_resolution";
                  c_target_agent := None;
                  c_target_anomaly := None;
                  c_severity := "high" |} ]
        else [] in
      let huge :=
        if (5000 <? width img)%Z || (5000 <? height img)%Z
        then [[Text "תמונה ברזולוציה גבוהה מאוד — שקול לבדוק חיתוך/קרופ מתמונה מקורית גדולה יותר."]]
        else [] in
      let gray :=
        if Py.mem (mode img) ["L"; "LA"]
        then [ {| c_type := "grayscale";
                  c_target_agent := None;
                  c_target_anomaly := None;
                  c_severity := "medium" |} ]
        else [] in
      (low_res ++ gray, huge)
  | Py.Raise _ =>
      ([ {| c_type := "parse_error";
            c_target_agent := None;
            c_target_anomaly := None;
            c_severity := "low" |} ], [])
  end.

Definition total_high (results : list AgentResult) : nat :=
  length (flat_map (fun r => filter (fun a => String.eqb (a_severity a) "high")
                                    (anomalies r)) results).

Definition _challenge_verdict (cross_ref : CrossReferenceResult) (results : list AgentResult)
  : list Challenge :=
  let verdict := final_verdict cross_ref in
  let score := combined_score cross_ref in
  (if Verdict_eqb verdict authentic && (0 <? total_high results)%nat
   then [ {| c_type := "verdict_challenge";
             c_target_agent := None;
             c_target_anomaly := None;
             c_severity := "high" |} ]
   else [])
  ++ (if Verdict_eqb verdict forged && Py.ltb 0.7 score
      then [ {| c_type := "verdict_challenge";
                c_target_agent := None;
                c_target_anomaly := None;
                c_severity := "medium" |} ]
      else []).

(** [log[-5:]] *)
Definition last5 (log : list LogEntry) : list LogEntry :=
  skipn (length log - 5) log.

Definition _generate_recommendations (cls : RedTeamAgent_class) (self : RedTeamAgent)
           (challenges : list Challenge) (blind_spots : list BlindSpot)
           (results : list AgentResult) : list (list Fragment) :=
  let high_challenges := filter (fun c => String.eqb (c_severity c) "high") challenges in
  (if is_empty high_challenges then []
   else [[Text "נמצאו אתגרים ברמה גבוהה — מומלץ לשלב מומחה HITL לאימות."]])
  ++ (if (2 <=? length blind_spots)%nat
      then [[Text "זוהו מספר נקודות עיוורות. שקול להרחיב את סט הסוכנים (clone detection, frequency analysis)."]]
      else [])
  ++ (if (5 <=? length (get_learning_log cls self))%nat
      then
        let recent := last5 (get_learning_log cls self) in
        let avg_challenges :=
          inject_Z (Z.of_nat (fold_left Nat.add (map challenges_count recent) 0%nat)) / 5 in
        if Py.ltb 3 avg_challenges
        then [[Text "ב-5 הניתוחים האחרונים נמצאו בממוצע "; Fixed1 avg_challenges;
               Text " אתגרים — המערכת עשויה להיות רגישה מדי (over-sensitive)."]]
        else []
      else []).

Definition count_high (challenges : list Challenge) : nat :=
  length (filter (fun c => String.eqb (c_severity c) "high") challenges).

Definition _calc_threat_level (challenges : list Challenge) (blind_spots : list BlindSpot)
  : ThreatLevel :=
  let high_n := count_high challenges in
  let total := (length challenges + length blind_spots)%nat in
  if (2 <=? high_n)%nat || (5 <=? total)%nat then high
  else if (1 <=? high_n)%nat || (3 <=? total)%nat then medium
  else low.

Definition _build_summary (challenges : list Challenge) (blind_spots : list BlindSpot)
           (recs : list (list Fragment)) (threat : ThreatLevel) : list (list Fragment) :=
  [ [Text "צוות אדום זיהה "; Int (Z.of_nat (length challenges)); Text " אתגרים ו-";
     Int (Z.of_nat (length blind_spots)); Text " נקודות עיוורות."];
    [Text "רמת איום: "; Text (ThreatLevel_str threat); Text "."] ]
  ++ (if is_empty recs then []
      else [[Text "הומלצו "; Int (Z.of_nat (length recs)); Text " שיפורים."]]).

(** [if x:] on an adjustment that is [None] or a float. *)
Definition truthy (adjustment : option Q) : bool :=
  match adjustment with
  | Some q => negb (Qeq_bool q 0)
  | None => false
  end.

(** The list [confidence_adjustments] as [challenge] fills it. *)
Definition proposed (adjustment : option Q) : list Q :=
  match adjustment with
  | Some q => if truthy adjustment then [q] else []
  | None => []
  end.

(** [challenge], threading the class object; [now] is
    [datetime.utcnow().isoformat()] at the call. *)
Definition challenge (host : Host) (now : string)
           (cls : RedTeamAgent_class) (self : RedTeamAgent)
           (file_bytes : bytes) (filename : string)
           (agent_results : list AgentResult) (cross_reference : CrossReferenceResult)
  : CritiqueResult * RedTeamAgent_class :=
  let fp_checks := _check_false_positives (pillow host) agent_results file_bytes in
  let fn_checks := _check_false_negatives agent_results file_bytes in
  let consistency := _check_cross_consistency agent_results in
  let edge := _check_edge_cases (pillow host) file_bytes agent_results in
  let meta := _challenge_verdict cross_reference agent_results in
  let challenges := fst fp_checks ++ fst consistency ++ fst edge ++ meta in
  let blind_spots := fn_checks in
  let confidence_adjustments := proposed (snd fp_checks) ++ proposed (snd consistency) in
  let adj :=
    match confidence_adjustments with
    | [] => 0
    | _ => Py.sum confidence_adjustments
           / inject_Z (Z.of_nat (length confidence_adjustments))
    end in
  let recommendations :=
    snd edge ++ _generate_recommendations cls self challenges blind_spots agent_results in
  let entry :=
    {| timestamp := now;
       file_hash := String.substring 0 16 (sha256_hexdigest host file_bytes);
       challenges_count := length challenges;
       blind_spots_count := length blind_spots;
       e_confidence_adjustment := Py.round adj 3;
       verdict_challenged := negb (is_empty meta) |} in
  let cls' := append_learning_log cls self entry in
  let threat := _calc_threat_level challenges blind_spots in
  ({| r_agent_type := AGENT_TYPE;
      challenges := challenges;
      blind_spots := blind_spots;
      recommendations := recommendations;
      confidence_adjustment := Py.round adj 3;
      threat_level := threat;
      learning_log_size := length (get_learning_log cls' self);
      summary := _build_summary challenges blind_spots recommendations threat |},
   cls').

End RedTeam.


(** ** orchestrator.py *)

Inductive Agent : Type := the_forensic | the_physical | the_contextual | the_ai_gen.

(** The three providers of vision_agents.py call an external model; each is
    taken as the function its [analyze] computes, failures included. *)
Record VisionAgents : Type := mkVisionAgents {
  physical_analyze : bytes -> string -> Py.result AgentResult;
  contextual_analyze : bytes -> string -> Py.result AgentResult;
  ai_gen_analyze : bytes -> string -> Py.result AgentResult
}.

Record FinalVerdict : Type := mkFinalVerdict {
  verdict : Verdict;
  confidence : Q;
  hitl_required : bool
}.

Record Analysis : Type := mkAnalysis {
  out_agent_results : list AgentResult;
  out_cross_reference : CrossReferenceResult;
  out_red_team : CritiqueResult;
  out_verdict : Verdict;
  out_confidence_score : Q;
  out_hitl_required : bool
}.

Module Orchestrator.

Definition _select_agents (media_type : string) : list Agent :=
  if String.eqb media_type "image"
  then [the_forensic; the_physical; the_contextual; the_ai_gen]
  else if String.eqb media_type "video"
  then [the_forensic; the_physical; the_contextual]
  else if String.eqb media_type "audio"
  then [the_forensic]
  else if String.eqb media_type "document"
  then [the_forensic; the_contextual]
  else [the_forensic].

Definition run_agent (host : Host) (vision : VisionAgents) (agent : Agent)
           (file_bytes : bytes) (filename : string) : Py.result AgentResult :=
  match agent with
  | the_forensic => ForensicTechnicalAgent.analyze (pillow host) file_bytes filename
  | the_physical => physical_analyze vision file_bytes filename
  | the_contextual => contextual_analyze vision file_bytes filename
  | the_ai_gen => ai_gen_analyze vision file_bytes filename
  end.

(** [[r for r in raw_results if isinstance(r, dict)]] after
    [gather(..., return_exceptions=True)]. *)
Definition keep_dicts (raw_results : list (Py.result AgentResult)) : list AgentResult :=
  flat_map (fun r => match r with Py.Ok d => [d] | Py.Raise _ => [] end) raw_results.

(** [max(0.05, min(0.99, base_score + adj))] *)
Definition adjusted_score (cross_ref : CrossReferenceResult) (red_team : CritiqueResult) : Q :=
  Py.max 0.05 (Py.min 0.99 (combined_score cross_ref + confidence_adjustment red_team)).

Definition is_verdict_challenge (c : Challenge) : bool :=
  String.eqb (c_type c) "verdict_challenge".

Definition _final_verdict (cross_ref : CrossReferenceResult) (red_team : CritiqueResult)
  : FinalVerdict :=
  let base_verdict := final_verdict cross_ref in
  let score := adjusted_score cross_ref red_team in
  let threat := threat_level red_team in
  let high_challenges := filter is_verdict_challenge (challenges red_team) in
  let adjusted_verdict :=
    if negb (RedTeam.is_empty high_challenges)
       && (Verdict_eqb base_verdict authentic || Verdict_eqb base_verdict forged)
    then inconclusive
    else if Py.leb 0.75 score && Verdict_eqb base_verdict authentic
    then authentic
    else if Verdict_eqb base_verdict forged
    then forged
    else inconclusive in
  let hitl :=
    Verdict_eqb adjusted_verdict inconclusive
    || match threat with high | medium => true | low => false end
    || (2 <=? length (blind_spots red_team))%nat in
  {| verdict := adjusted_verdict;
     confidence := Py.round score 3;
     hitl_required := hitl |}.

(** Stages 2 to 4 of [analyze], from the opinions that stage 1 kept. *)
Definition adjudicate (host : Host) (now : string)
           (cls : RedTeamAgent_class) (red_team : RedTeamAgent)
           (file_bytes : bytes) (filename : string) (agent_results : list AgentResult)
  : Py.result (Analysis * RedTeamAgent_class) :=
  initial_cross <- CrossReference.analyze CrossReference.engine agent_results ;;
  let '(red_team_result, cls') :=
    RedTeam.challenge host now cls red_team file_bytes filename agent_results initial_cross in
  let final := _final_verdict initial_cross red_team_result in
  Py.Ok ({| out_agent_results := agent_results;
            out_cross_reference := initial_cross;
            out_red_team := red_team_result;
            out_verdict := verdict final;
            out_confidence_score := confidence final;
            out_hitl_required := hitl_required final |},
         cls').

Definition analyze (host : Host) (vision : VisionAgents) (now : string)
           (cls : RedTeamAgent_class) (red_team : RedTeamAgent)
           (file_bytes : bytes) (filename : string) (media_type : string)
  : Py.result (Analysis * RedTeamAgent_class) :=
  let agents := _select_agents media_type in
  let raw_results := map (fun agent => run_agent host vision agent file_bytes filename) agents in
  let agent_results := keep_dicts raw_results in
  adjudicate host now cls red_team file_bytes filename agent_results.

End Orchestrator.


(** ** Notions the statements use *)

(** The anomalies of a list whose severity is "high". *)
Fixpoint high_anomalies (items : list Anomaly) : nat :=
  match items with
  | [] => 0
  | a :: rest =>
      if String.eqb (a_severity a) "high" then S (high_anomalies rest)
      else high_anomalies rest
  end.

(** The high-severity anomalies of an opinion set, counted opinion by
    opinion. *)
Fixpoint high_count_of (agent_results : list AgentResult) : nat :=
  match agent_results with
  | [] => 0
  | r :: rest => (high_anomalies (anomalies r) + high_count_of rest)%nat
  end.

(** The summed weight of an opinion set under an engine's table. *)
Definition total_weight_of (self : CrossReferenceEngine) (agent_results : list AgentResult) : Q :=
  snd (CrossReference.accumulate self agent_results 0 0).

(** Three opinions, one high-severity anomaly each. *)
Definition three_high_opinions : list AgentResult :=
  [ {| agent_type := "forensic_technical"; confidence_score := 0.9;
       findings := no_findings;
       anomalies := [ {| a_type := "ELA"; a_severity := "high"; a_location := None |} ] |};
    {| agent_type := "physical"; confidence_score := 0.9;
       findings := no_findings;
       anomalies := [ {| a_type := "shadows"; a_severity := "high"; a_location := None |} ] |};
    {| agent_type := "contextual"; confidence_score := 0.9;
       findings := no_findings;
       anomalies := [ {| a_type := "period"; a_severity := "high"; a_location := None |} ] |} ].

(** An engine whose table gives the forensic source no weight. *)
Definition zero_weight_engine : CrossReferenceEngine :=
  {| WEIGHTS := [("forensic_technical", 0)]; CONFIDENCE_THRESHOLD := 0.75 |}.

Definition lone_forensic (confidence : Q) : list AgentResult :=
  [ {| agent_type := "forensic_technical"; confidence_score := confidence;
       findings := no_findings; anomalies := [] |} ].

(** The three severities of the data model. *)
Definition known_severity (a : Anomaly) : Prop :=
  a_severity a = "high" \/ a_severity a = "medium" \/ a_severity a = "low".

(** The penalty sum of the scoring law: 0.15 for each high, 0.08 for each
    medium and 0.03 for each low anomaly. *)
Definition penalty_sum (anomalies : list Anomaly) : Q :=
  0.15 * inject_Z (Z.of_nat (CrossReference.count_severity "high" anomalies))
  + 0.08 * inject_Z (Z.of_nat (CrossReference.count_severity "medium" anomalies))
  + 0.03 * inject_Z (Z.of_nat (CrossReference.count_severity "low" anomalies)).

Definition double_compression_anomaly : Anomaly :=
  {| a_type := "דחיסה כפולה"; a_severity := "medium"; a_location := Some (50, 85)%Z |}.

Definition dimension_anomaly : Anomaly :=
  {| a_type := "מימדים"; a_severity := "medium"; a_location := Some (10, 10)%Z |}.

(** A quantization table of 64 values, half 10 and half 70: mean 40,
    standard deviation 30. *)
Definition table_std_30 : list Z := repeat 10%Z 32 ++ repeat 70%Z 32.

(** A 1024x1024 JPEG with camera metadata, a flat error level and that
    table. *)
Definition square_jpeg : Image :=
  {| format := Some "JPEG";
     mode := "RGB";
     width := 1024;
     height := 1024;
     has_getexif := true;
     _getexif := Py.Ok [("Make", "Canon"); ("DateTimeOriginal", "2024:01:01 10:00:00")];
     quantization := [table_std_30; table_std_30];
     ela := Some {| std_error := 2; region_means := Some (repeat 1 16) |} |}.

(** A file of 200000 bytes, about 0.19 bytes per pixel at 1024x1024. *)
Definition square_jpeg_bytes : bytes := repeat Byte.x00 (Z.to_nat 200000).

Definition opens_as (img : Image) : Pillow :=
  {| Image_open := fun _ => Py.Ok img |}.

(** Pillow opens lazily: a file whose header is readable opens, and the
    metadata block is parsed only by [_getexif], which raises when the block
    is malformed. *)
Definition broken_exif_jpeg : Image :=
  {| format := Some "JPEG";
     mode := "RGB";
     width := 640;
     height := 480;
     has_getexif := true;
     _getexif := Py.Raise Py.LibraryError;
     quantization := [];
     ela := None |}.

Definition rejects_all : Pillow :=
  {| Image_open := fun _ => Py.Raise Py.LibraryError |}.

(** The challenges of a list whose severity is "high". *)
Fixpoint high_challenges (challenges : list Challenge) : nat :=
  match challenges with
  | [] => 0
  | c :: rest =>
      if String.eqb (c_severity c) "high" then S (high_challenges rest)
      else high_challenges rest
  end.

(** The order low < medium < high on threat levels. *)
Definition threat_rank (t : ThreatLevel) : nat :=
  match t with
  | low => 0
  | medium => 1
  | high => 2
  end.

(** The adjustments that the challenge modules propose on a run, in module
    order; only the false-positive and the cross-consistency module can
    propose one. *)
Definition module_proposals (host : Host) (agent_results : list AgentResult)
           (file_bytes : bytes) : list Q :=
  flat_map (fun o : option Q => match o with Some q => [q] | None => [] end)
           [ snd (RedTeam._check_false_positives (pillow host) agent_results file_bytes);
             snd (RedTeam._check_cross_consistency agent_results) ].

Definition has_verdict_challenge (red_team : CritiqueResult) : Prop :=
  exists c, In c (challenges red_team) /\ c_type c = "verdict_challenge".

Definition has_high_anomaly (agent_results : list AgentResult) : Prop :=
  exists r a, In r agent_results /\ In a (anomalies r) /\ a_severity a = "high".

(** A host whose Pillow opens every file as the given image. *)
Definition host_opening (img : Image) : Host :=
  {| pillow := opens_as img; sha256_hexdigest := fun _ => "e3b0c44298fc1c149afbf4c8996fb92427ae41e4649b934ca495991b7852b855" |}.

Definition plain_challenge (type_ severity : string) : Challenge :=
  {| c_type := type_; c_target_agent := None; c_target_anomaly := None;
     c_severity := severity |}.

(** A critique with no challenge, two blind spots and no adjustment; its
    threat level is the one [_calc_threat_level] gives these counts. *)
Definition two_blind_spots_critique : CritiqueResult :=
  {| r_agent_type := "red_team";
     challenges := [];
     blind_spots := [ {| b_agent := "system"; b_risk := "missing_capability" |};
                      {| b_agent := "system"; b_risk := "missing_agent" |} ];
     recommendations := [];
     confidence_adjustment := 0;
     threat_level := low;
     learning_log_size := 1;
     summary := [] |}.

(** The aggregator's result on the lone forensic opinion of confidence
    0.95. *)
Definition lone_forensic_cross : CrossReferenceResult :=
  {| combined_score := Py.round 0.95 3;
     final_verdict := authentic;
     reasoning :=
       [ [Text "הופעלו "; Int 1; Text " סוכני ניתוח. ציון ביטחון משוקלל: ";
          Percent1 (Py.round 0.95 3); Text "."];
         [Text "זוהו "; Int 0; Text " אנומליות: "; Int 0; Text " בחומרה גבוהה, ";
          Int 0; Text " בחומרה בינונית."] ];
     anomaly_summary := Some {| s_total := 0; s_high := 0; s_medium := 0; s_low := 0 |} |}.

(** The blind spots that the critique reports on that opinion. *)
Definition lone_forensic_blind_spots : list BlindSpot :=
  [ {| b_agent := "forensic_technical"; b_risk := "false_negative" |};
    {| b_agent := "system"; b_risk := "missing_capability" |};
    {| b_agent := "system"; b_risk := "missing_agent" |} ].

(** A result that calls a set of opinions authentic although one of them
    carries a high-severity anomaly. *)
Definition authentic_cross : CrossReferenceResult :=
  {| combined_score := 0.9; final_verdict := authentic;
     reasoning := []; anomaly_summary := None |}.

Definition dates_anomaly : Anomaly :=
  {| a_type := "תאריכים"; a_severity := "high"; a_location := Some (80, 15)%Z |}.

Definition forensic_with_dates : AgentResult :=
  {| agent_type := "forensic_technical"; confidence_score := 0.9;
     findings := no_findings; anomalies := [dates_anomaly] |}.

Definition one_high_opinion : list AgentResult := [forensic_with_dates].

Definition no_log : RedTeamAgent_class := {| learning_log := [] |}.

(** Vision providers that all fail, as when the external service is down. *)
Definition vision_down : VisionAgents :=
  {| physical_analyze := fun _ _ => Py.Raise Py.LibraryError;
     contextual_analyze := fun _ _ => Py.Raise Py.LibraryError;
     ai_gen_analyze := fun _ _ => Py.Raise Py.LibraryError |}.

Definition host_rejecting : Host :=
  {| pillow := rejects_all; sha256_hexdigest := fun _ => "0123456789abcdef0123456789abcdef" |}.

(** One call of [challenge]: the instance it goes through and its
    arguments. *)
Record Call : Type := mkCall {
  call_host : Host;
  call_now : string;
  call_self : RedTeamAgent;
  call_file_bytes : bytes;
  call_filename : string;
  call_agent_results : list AgentResult;
  call_cross_reference : CrossReferenceResult
}.

(** The class object after a sequence of calls. *)
Fixpoint run_calls (cls : RedTeamAgent_class) (calls : list Call) : RedTeamAgent_class :=
  match calls with
  | [] => cls
  | c :: rest =>
      run_calls (snd (RedTeam.challenge (call_host c) (call_now c) cls (call_self c)
                                        (call_file_bytes c) (call_filename c)
                                        (call_agent_results c) (call_cross_reference c)))
                rest
  end.


(** ** vision_agents.py *)

(** The parsed reply of the external model, as far as the providers read
    it: each key may be missing; [p_is_ai_generated] is the truth value of
    [parsed.get("is_ai_generated")].  The record describes the replies in
    the format that the prompts ask for: a number under a confidence key, a
    list of objects under [anomalies] and under [indicators].  A provider
    does not check the reply: it passes on any other value as it is (and
    the AI-generation provider raises when it is to insert into indicators
    that are not a list), which this record does not describe. *)
Record Parsed : Type := mkParsed {
  p_confidence_score : option Q;
  p_anomalies : option (list Anomaly);
  p_is_ai_generated : bool;
  p_likely_tool : option string;
  p_confidence : option Q;
  p_indicators : option (list Anomaly)
}.

(** What [_call_vision_api] followed by [_parse_json_response] hands an
    agent: an exception (the HTTP call failed, or the reply parsed to
    something that is not an object), nothing usable (no API key, an empty
    or unparsable reply, an empty object), or a parsed object. *)
Record VisionApi : Type := mkVisionApi {
  vision_reply : Agent -> bytes -> Py.result (option Parsed)
}.

Module Vision.

(** [d.get(key, dflt)] on a key that may be missing. *)
Definition get_or {A} (o : option A) (dflt : A) : A :=
  match o with
  | Some x => x
  | None => dflt
  end.

Definition physical_mock : AgentResult :=
  {| agent_type := "physical";
     confidence_score := 0.68;
     findings := no_findings;
     anomalies :=
       [ {| a_type := "צללים"; a_severity := "high"; a_location := Some (50, 60)%Z |};
         {| a_type := "פרספקטיבה"; a_severity := "medium"; a_location := Some (25, 75)%Z |} ] |}.

Definition contextual_mock : AgentResult :=
  {| agent_type := "contextual";
     confidence_score := 0.65;
     findings := no_findings;
     anomalies :=
       [ {| a_type := "תקופה"; a_severity := "medium"; a_location := Some (60, 40)%Z |} ] |}.

Definition ai_generation_mock : AgentResult :=
  {| agent_type := "ai_generation";
     confidence_score := 0.70;
     findings := {| is_ai_generated := false; likely_tool := Some "unknown" |};
     anomalies :=
       [ {| a_type := "בדיקת AI"; a_severity := "low"; a_location := Some (50, 50)%Z |} ] |}.

(** [PhysicalAgent.analyze] *)
Definition physical_analyze (api : VisionApi) (file_bytes : bytes) (filename : string)
  : Py.result AgentResult :=
  reply <- vision_reply api the_physical file_bytes ;;
  match reply with
  | Some parsed =>
      Py.Ok {| agent_type := "physical";
               confidence_score := get_or (p_confidence_score parsed) 0.7;
               findings := no_findings;
               anomalies := get_or (p_anomalies parsed) [] |}
  | None => Py.Ok physical_mock
  end.

(** [ContextualAgent.analyze] *)
Definition contextual_analyze (api : VisionApi) (file_bytes : bytes) (filename : string)
  : Py.result AgentResult :=
  reply <- vision_reply api the_contextual file_bytes ;;
  match reply with
  | Some parsed =>
      Py.Ok {| agent_type := "contextual";
               confidence_score := get_or (p_confidence_score parsed) 0.7;
               findings := no_findings;
               anomalies := get_or (p_anomalies parsed) [] |}
  | None => Py.Ok contextual_mock
  end.

Definition ai_generated_anomaly : Anomaly :=
  {| a_type := "AI Generated"; a_severity := "high"; a_location := Some (50, 50)%Z |}.

(** [AIGenerationAgent.analyze] *)
Definition ai_gen_analyze (api : VisionApi) (file_bytes : bytes) (filename : string)
  : Py.result AgentResult :=
  reply <- vision_reply api the_ai_gen file_bytes ;;
  match reply with
  | Some parsed =>
      let indicators := get_or (p_indicators parsed) [] in
      let anomalies :=
        if p_is_ai_generated parsed then ai_generated_anomaly :: indicators
        else indicators in
      Py.Ok {| agent_type := "ai_generation";
               confidence_score := get_or (p_confidence parsed) 0.7;
               findings := {| is_ai_generated := p_is_ai_generated parsed;
                              likely_tool := Some (get_or (p_likely_tool parsed) "unknown") |};
               anomalies := anomalies |}
  | None => Py.Ok ai_generation_mock
  end.

(** The three providers as the orchestrator holds them. *)
Definition agents (api : VisionApi) : VisionAgents :=
  mkVisionAgents (physical_analyze api) (contextual_analyze api) (ai_gen_analyze api).

End Vision.

(** ** routes.py, the stored critique record *)

Module Routes.

(** The confidence stored with the critique of a run,
    [1.0 - abs(rt.get("confidence_adjustment", 0))]. *)
Definition red_team_confidence (rt : CritiqueResult) : Q :=
  1 - Qabs (confidence_adjustment rt).

End Routes.

(** ** Further notions the statements use *)

(** The anomalies whose severity is neither high nor medium. *)
Definition other_count (l : list Anomaly) : nat :=
  length (filter (fun a => negb (String.eqb (a_severity a) "high")
                           && negb (String.eqb (a_severity a) "medium")) l).


(** A deployment without API keys: every vision call comes back empty. *)
Definition no_api_keys : VisionApi :=
  {| vision_reply := fun _ _ => Py.Ok None |}.

(** [c in s] for a character. *)
Fixpoint has_char (c : ascii) (s : string) : bool :=
  match s with
  | EmptyString => false
  | String c' rest => Ascii.eqb c' c || has_char c rest
  end.

Definition percent (z : Z) : Prop := (0 <= z <= 100)%Z.

(** Every located anomaly lies inside the image, in percent. *)
Definition located_inside (a : Anomaly) : Prop :=
  match a_location a with
  | Some (x, y) => percent x /\ percent y
  | None => True
  end.

(** The opinions an aggregated verdict was computed from carry the
    high-severity anomaly of a provider that declared the image synthetic. *)
Definition declared_synthetic : Parsed :=
  {| p_confidence_score := None; p_anomalies := None;
     p_is_ai_generated := true; p_likely_tool := Some "Midjourney";
     p_confidence := Some 0.97; p_indicators := None |}.

(** The penalty total that [_calculate_confidence] subtracts, for any
    severities. *)
Definition total_penalty (l : list Anomaly) : Q :=
  Py.sum (map (fun a => Py.dict_get ForensicTechnicalAgent.severity_scores (a_severity a) 0) l).

(** Sixteen region means of which six stand out. *)
Definition six_hot_regions : list Q := repeat 100 6 ++ repeat 0 10.

Definition hot_regions_image : Image :=
  {| format := Some "PNG";
     mode := "RGB";
     width := 800;
     height := 600;
     has_getexif := false;
     _getexif := Py.Ok [];
     quantization := [];
     ela := Some {| std_error := 30; region_means := Some six_hot_regions |} |}.

(** A portrait image and the same image turned by a quarter. *)
Definition portrait_image : Image :=
  {| format := Some "PNG"; mode := "RGB"; width := 512; height := 768;
     has_getexif := false; _getexif := Py.Ok []; quantization := []; ela := None |}.

Definition landscape_image : Image :=
  {| format := Some "PNG"; mode := "RGB"; width := 768; height := 512;
     has_getexif := false; _getexif := Py.Ok []; quantization := []; ela := None |}.

(** The entries of a list that exceed a threshold. *)
Definition count_above (t : Q) (l : list Q) : nat :=
  length (filter (fun m => Py.ltb t m) l).

(** A log entry with a given number of challenges. *)
Definition entry_with (n : nat) : LogEntry :=
  {| timestamp := "2024-01-01T00:00:00"; file_hash := "0123456789abcdef";
     challenges_count := n; blind_spots_count := 0;
     e_confidence_adjustment := 0; verdict_challenged := false |}.

(** Five busy runs. *)
Definition busy_history : list LogEntry := repeat (entry_with 4) 5.



(** The confidence of the last opinion of a given kind, if there is one. *)
Fixpoint last_score (kind : string) (results : list AgentResult) : option Q :=
  match results with
  | [] => None
  | r :: rest =>
      match last_score kind rest with
      | Some s => Some s
      | None => if String.eqb (agent_type r) kind then Some (confidence_score r) else None
      end
  end.

(** The score that the consistency check uses for a kind: the last opinion
    of that kind, and 0.5 when there is none. *)
Definition score_or_default (kind : string) (results : list AgentResult) : Q :=
  match last_score kind results with
  | Some s => s
  | None => 0.5
  end.

(** A vision API whose AI-generation reply declares the image synthetic and
    whose other replies are empty. *)
Definition api_declaring_synthetic : VisionApi :=
  {| vision_reply := fun agent _ =>
       match agent with
       | the_ai_gen => Py.Ok (Some declared_synthetic)
       | _ => Py.Ok None
       end |}.

(** The opinion that the AI-generation provider builds from that reply. *)
Definition declared_synthetic_opinion : AgentResult :=
  {| agent_type := "ai_generation";
     confidence_score := 0.97;
     findings := {| is_ai_generated := true; likely_tool := Some "Midjourney" |};
     anomalies := [Vision.ai_generated_anomaly] |}.


Definition missing_agent_spot : BlindSpot :=
  {| b_agent := "system"; b_risk := "missing_agent" |}.

Definition missing_capability_spot : BlindSpot :=
  {| b_agent := "system"; b_risk := "missing_capability" |}.



(** * Properties *)

(** ** Comparisons and rounding *)

Lemma ltb_lt (x y : Q) : Py.ltb x y = true <-> x < y.
Proof.
  unfold Py.ltb. rewrite negb_true_iff. split; intro H.
  - apply Qnot_le_lt. intro Hle. apply Qle_bool_iff in Hle. congruence.
  - destruct (Qle_bool y x) eqn:E; [|reflexivity].
    apply Qle_bool_iff in E. exfalso. apply (Qlt_not_le _ _ H E).
Qed.

Lemma ltb_ge (x y : Q) : Py.ltb x y = false <-> y <= x.
Proof.
  unfold Py.ltb. rewrite negb_false_iff. apply Qle_bool_iff.
Qed.

Lemma leb_le (x y : Q) : Py.leb x y = true <-> x <= y.
Proof. apply Qle_bool_iff. Qed.

Lemma leb_nle (x y : Q) : Py.leb x y = false -> ~ x <= y.
Proof. intros E H. apply leb_le in H. congruence. Qed.

Lemma max_lower (a b : Q) : a <= Py.max a b.
Proof.
  unfold Py.max. destruct (Py.ltb a b) eqn:E.
  - apply ltb_lt in E. apply Qlt_le_weak, E.
  - apply Qle_refl.
Qed.

Lemma max_upper (a b c : Q) : a <= c -> b <= c -> Py.max a b <= c.
Proof. unfold Py.max. destruct (Py.ltb a b); auto. Qed.

Lemma min_upper (a b : Q) : Py.min a b <= a.
Proof.
  unfold Py.min. destruct (Py.ltb b a) eqn:E.
  - apply ltb_lt in E. apply Qlt_le_weak, E.
  - apply Qle_refl.
Qed.

Lemma min_lower (a b c : Q) : c <= a -> c <= b -> c <= Py.min a b.
Proof. unfold Py.min. destruct (Py.ltb b a); auto. Qed.

Lemma round_half_even_cases (x : Q) :
  Py.round_half_even x = Qfloor x \/
  (Py.round_half_even x = (Qfloor x + 1)%Z /\ inject_Z (Qfloor x) < x).
Proof.
  unfold Py.round_half_even.
  destruct (Py.ltb (x - inject_Z (Qfloor x)) (1 # 2)) eqn:E1; [now left|].
  apply ltb_ge in E1.
  destruct (Py.ltb (1 # 2) (x - inject_Z (Qfloor x))) eqn:E2.
  - right. split; [reflexivity | lra].
  - destruct (Z.even (Qfloor x)); [now left|].
    right. split; [reflexivity | lra].
Qed.

(** An integer below [x] is below its rounding, an integer above [x] is
    above it. *)
Lemma round_half_even_ge (x : Q) (z : Z) :
  inject_Z z <= x -> (z <= Py.round_half_even x)%Z.
Proof.
  intro H. assert (Hf : (z <= Qfloor x)%Z).
  { rewrite <- (Qfloor_Z z). apply Qfloor_resp_le, H. }
  destruct (round_half_even_cases x) as [-> | [-> _]]; lia.
Qed.

Lemma round_half_even_le (x : Q) (z : Z) :
  x <= inject_Z z -> (Py.round_half_even x <= z)%Z.
Proof.
  intro H. assert (Hf : (Qfloor x <= z)%Z).
  { rewrite <- (Qfloor_Z z). apply Qfloor_resp_le, H. }
  destruct (round_half_even_cases x) as [-> | [-> Hlt]]; [exact Hf|].
  assert (Hlt' : inject_Z (Qfloor x) < inject_Z z) by lra.
  rewrite <- Zlt_Qlt in Hlt'. lia.
Qed.

Lemma round_half_even_Z (z : Z) : Py.round_half_even (inject_Z z) = z.
Proof.
  apply Z.le_antisymm.
  - apply round_half_even_le, Qle_refl.
  - apply round_half_even_ge, Qle_refl.
Qed.

Lemma scaled (z : Z) (p : positive) : (z # p) * inject_Z (Zpos p) == inject_Z z.
Proof.
  unfold Qeq, Qmult, inject_Z. simpl. lia.
Qed.

(** Rounding to [n] digits keeps a value between two bounds that have at
    most [n] digits themselves. *)
Lemma round_between (x : Q) (n : nat) (lo hi : Z) :
  lo # Py.pow10 n <= x -> x <= hi # Py.pow10 n ->
  lo # Py.pow10 n <= Py.round x n /\ Py.round x n <= hi # Py.pow10 n.
Proof.
  intros Hlo Hhi. unfold Py.round.
  set (p := Py.pow10 n) in *.
  assert (Hp : 0 < inject_Z (Zpos p)) by (unfold Qlt; simpl; lia).
  split.
  - assert (H : (lo <= Py.round_half_even (x * inject_Z (Z.pos p)))%Z).
    { apply round_half_even_ge. rewrite <- (scaled lo p).
      apply Qmult_le_compat_r; [exact Hlo | apply Qlt_le_weak, Hp]. }
    unfold Qle. simpl. nia.
  - assert (H : (Py.round_half_even (x * inject_Z (Z.pos p)) <= hi)%Z).
    { apply round_half_even_le. rewrite <- (scaled hi p).
      apply Qmult_le_compat_r; [exact Hhi | apply Qlt_le_weak, Hp]. }
    unfold Qle. simpl. nia.
Qed.

(** A value with at most [n] digits is its own rounding. *)
Lemma round_exact (x : Q) (n : nat) (z : Z) :
  x == z # Py.pow10 n -> Py.round x n == z # Py.pow10 n.
Proof.
  intro H.
  destruct (round_between x n z z) as [H1 H2]; try (rewrite H; apply Qle_refl).
  apply Qle_antisym; assumption.
Qed.

Example round_ties_to_even :
  Py.round 0.125 2 == 0.12 /\ Py.round 0.375 2 == 0.38 /\ Py.round (-0.0305) 3 == -0.03.
Proof. repeat split. Qed.

(** ** The aggregator *)

Lemma dict_get_pos (d : list (string * Q)) (k : string) (dflt : Q) :
  Forall (fun kv => 0 < snd kv) d -> 0 < dflt -> 0 < Py.dict_get d k dflt.
Proof.
  intros Hd Hdflt. induction Hd as [|[k' v'] rest Hv _ IH]; simpl.
  - exact Hdflt.
  - destruct (String.eqb k' k); [exact Hv | exact IH].
Qed.

Lemma default_weight_pos (k : string) :
  0 < Py.dict_get (WEIGHTS CrossReference.engine) k 0.1.
Proof.
  apply dict_get_pos; [|reflexivity].
  repeat constructor.
Qed.

(** The loop keeps [0 <= weighted_sum <= total_weight] and lets the total
    only grow, when weights are not negative and scores lie in [0, 1]. *)
Lemma accumulate_bounds (self : CrossReferenceEngine) (agent_results : list AgentResult) :
  (forall k, 0 <= Py.dict_get (WEIGHTS self) k 0.1) ->
  Forall (fun r => 0 <= confidence_score r /\ confidence_score r <= 1) agent_results ->
  forall ws tw, 0 <= ws -> ws <= tw ->
  let '(ws', tw') := CrossReference.accumulate self agent_results ws tw in
  0 <= ws' /\ ws' <= tw' /\ tw <= tw'.
Proof.
  intros Hw Hall. induction Hall as [|r rest [Hr0 Hr1] _ IH]; intros ws tw H0 H1; simpl.
  - repeat split; try assumption. apply Qle_refl.
  - specialize (Hw (agent_type r)).
    set (w := Py.dict_get (WEIGHTS self) (agent_type r) 0.1) in *.
    assert (Hp0 : 0 <= confidence_score r * w) by (apply Qmult_le_0_compat; assumption).
    assert (Hp1 : confidence_score r * w <= w).
    { setoid_replace w with (1 * w) at 2 by ring.
      apply Qmult_le_compat_r; assumption. }
    specialize (IH (ws + confidence_score r * w) (tw + w)).
    destruct (CrossReference.accumulate self rest _ _) as [ws' tw'].
    destruct IH as (A & B & C); [lra | lra |].
    repeat split; [assumption | assumption | lra].
Qed.

Lemma accumulate_total_grows (agent_results : list AgentResult) :
  forall ws tw,
  tw <= snd (CrossReference.accumulate CrossReference.engine agent_results ws tw).
Proof.
  induction agent_results as [|r rest IH]; intros ws tw; cbn [CrossReference.accumulate].
  - apply Qle_refl.
  - pose proof (default_weight_pos (agent_type r)) as Hw.
    eapply Qle_trans; [|apply IH]. lra.
Qed.

Lemma accumulate_total_pos (r : AgentResult) (rest : list AgentResult) :
  0 < snd (CrossReference.accumulate CrossReference.engine (r :: rest) 0 0).
Proof.
  cbn [CrossReference.accumulate].
  pose proof (default_weight_pos (agent_type r)) as Hw.
  eapply Qlt_le_trans; [|apply accumulate_total_grows]. lra.
Qed.

Lemma count_severity_app (sev : string) (l1 l2 : list Anomaly) :
  CrossReference.count_severity sev (l1 ++ l2)
  = (CrossReference.count_severity sev l1 + CrossReference.count_severity sev l2)%nat.
Proof.
  unfold CrossReference.count_severity. now rewrite filter_app, length_app.
Qed.

Lemma collect_anomalies_count (sev : string) (agent_results : list AgentResult) :
  forall acc,
  CrossReference.count_severity sev (CrossReference.collect_anomalies agent_results acc)
  = (CrossReference.count_severity sev acc
     + list_sum (map (fun r => CrossReference.count_severity sev (anomalies r))
                     agent_results))%nat.
Proof.
  induction agent_results as [|r rest IH]; intro acc; simpl.
  - lia.
  - rewrite IH, count_severity_app. lia.
Qed.

(** What [analyze] returns on a non-empty list, field by field. *)
Lemma analyze_nonempty (self : CrossReferenceEngine) (agent_results : list AgentResult) :
  agent_results <> [] ->
  forall combined,
  (let '(ws, tw) := CrossReference.accumulate self agent_results 0 0 in
   if Py.ltb 0 tw then q <- Py.div ws tw ;; Py.Ok (Py.round q 3) else Py.Ok 0.5)
  = Py.Ok combined ->
  exists r,
    CrossReference.analyze self agent_results = Py.Ok r
    /\ combined_score r = combined
    /\ final_verdict r
       = CrossReference.decide_verdict self
           (CrossReference.count_severity "high"
              (CrossReference.collect_anomalies agent_results []))
           combined.
Proof.
  intros Hne combined Hc. destruct agent_results as [|r0 rest]; [congruence|].
  unfold CrossReference.analyze.
  destruct (CrossReference.accumulate self (r0 :: rest) 0 0) as [ws tw].
  rewrite Hc. cbn [Py.bind].
  eexists. split; [reflexivity|]. split; reflexivity.
Qed.

(** With a positive total weight the score is the rounded quotient. *)
Lemma combined_of_engine (agent_results : list AgentResult) :
  agent_results <> [] ->
  let '(ws, tw) := CrossReference.accumulate CrossReference.engine agent_results 0 0 in
  0 < tw /\
  (if Py.ltb 0 tw then q <- Py.div ws tw ;; Py.Ok (Py.round q 3) else Py.Ok 0.5)
  = Py.Ok (Py.round (ws / tw) 3).
Proof.
  intro Hne. destruct agent_results as [|r0 rest]; [congruence|].
  pose proof (accumulate_total_pos r0 rest) as Hpos.
  destruct (CrossReference.accumulate CrossReference.engine (r0 :: rest) 0 0) as [ws tw].
  simpl in Hpos. split; [exact Hpos|].
  assert (E : Py.ltb 0 tw = true) by (apply ltb_lt; exact Hpos). rewrite E.
  unfold Py.div.
  destruct (Qeq_bool tw 0) eqn:E0.
  - apply Qeq_bool_iff in E0. lra.
  - reflexivity.
Qed.

(** The aggregator's counter, a filter on the flattened list, finds the
    anomalies whose severity is "high". *)
Lemma high_anomalies_count (items : list Anomaly) :
  high_anomalies items = CrossReference.count_severity "high" items.
Proof.
  unfold CrossReference.count_severity.
  induction items as [|a rest IH]; [reflexivity|].
  cbn [high_anomalies filter].
  destruct (String.eqb (a_severity a) "high"); cbn [length]; now rewrite IH.
Qed.

Lemma high_count_of_sum (agent_results : list AgentResult) :
  high_count_of agent_results
  = list_sum (map (fun r => CrossReference.count_severity "high" (anomalies r))
                  agent_results).
Proof.
  induction agent_results as [|r rest IH]; cbn [high_count_of map list_sum];
    [reflexivity|].
  now rewrite IH, high_anomalies_count.
Qed.

Lemma high_count_collect (agent_results : list AgentResult) :
  CrossReference.count_severity "high" (CrossReference.collect_anomalies agent_results [])
  = high_count_of agent_results.
Proof. rewrite high_count_of_sum. now rewrite collect_anomalies_count. Qed.

Lemma decide_verdict_rule (h : nat) (s : Q) :
  let v := CrossReference.decide_verdict CrossReference.engine h s in
  let forged_rule := (3 <= h)%nat \/ ((2 <= h)%nat /\ s < 0.5) in
  let authentic_rule := 0.75 <= s /\ h = 0%nat in
  (forged_rule -> v = forged)
  /\ (~ forged_rule -> authentic_rule -> v = authentic)
  /\ (~ forged_rule -> ~ authentic_rule -> v = inconclusive).
Proof.
  unfold CrossReference.decide_verdict. cbn [CONFIDENCE_THRESHOLD CrossReference.engine].
  cbv zeta.
  destruct (Nat.leb_spec 3 h) as [E3|E3];
  destruct (Nat.leb_spec 2 h) as [E2|E2];
  destruct (Nat.eqb_spec h 0) as [E0|E0];
  destruct (Py.ltb s 0.5) eqn:Es;
  (apply ltb_lt in Es || apply ltb_ge in Es);
  destruct (Py.leb 0.75 s) eqn:Ea;
  (apply leb_le in Ea || apply leb_nle in Ea);
  cbn [orb andb];
  repeat split; intros; try reflexivity; exfalso;
  intuition (try lia; try lra).
Qed.

(** C3: on a non-empty opinion set the aggregator returns, and its verdict is
    the first rule that matches: forged when the high-severity count is at
    least 3, or at least 2 with a combined score under 0.5; else authentic
    when the score is at least 0.75 with no high-severity anomaly; else
    inconclusive.  Three or more high-severity anomalies give forged whatever
    the score. *)
Theorem C3_verdict_rule (agent_results : list AgentResult) :
  agent_results <> [] ->
  exists r,
    CrossReference.analyze CrossReference.engine agent_results = Py.Ok r
    /\ (let h := high_count_of agent_results in
        let s := combined_score r in
        let forged_rule := (3 <= h)%nat \/ ((2 <= h)%nat /\ s < 0.5) in
        let authentic_rule := 0.75 <= s /\ h = 0%nat in
        (forged_rule -> final_verdict r = forged)
        /\ (~ forged_rule -> authentic_rule -> final_verdict r = authentic)
        /\ (~ forged_rule -> ~ authentic_rule -> final_verdict r = inconclusive)
        /\ ((3 <= h)%nat -> final_verdict r = forged)).
Proof.
  intro Hne.
  pose proof (combined_of_engine agent_results Hne) as Hc.
  pose proof (analyze_nonempty CrossReference.engine agent_results Hne) as Ha.
  destruct (CrossReference.accumulate CrossReference.engine agent_results 0 0) as [ws tw].
  destruct Hc as [_ Hc].
  destruct (Ha _ Hc) as (r & Hr & Hs & Hv).
  exists r. split; [exact Hr|].
  rewrite high_count_collect in Hv.
  cbv zeta. rewrite Hv, Hs.
  destruct (decide_verdict_rule (high_count_of agent_results) (Py.round (ws / tw) 3))
    as (F & A & I).
  repeat split; try assumption.
  intro H3. apply F. now left.
Qed.

Lemma C3_verdict_rule_witness :
  exists r,
    CrossReference.analyze CrossReference.engine three_high_opinions = Py.Ok r
    /\ final_verdict r = forged.
Proof.
  destruct (C3_verdict_rule three_high_opinions ltac:(discriminate))
    as (r & Hr & _ & _ & _ & H3).
  exists r. split; [exact Hr|]. apply H3. vm_compute. lia.
Defined.

(** C8: on an empty opinion sequence the aggregator returns a score of 0.5,
    the verdict inconclusive and the reasoning that no findings were
    received from the agents; it does not fail. *)
Theorem C8_empty_input (self : CrossReferenceEngine) :
  exists r,
    CrossReference.analyze self [] = Py.Ok r
    /\ combined_score r = 0.5
    /\ final_verdict r = inconclusive
    /\ reasoning r = [[Text "לא התקבלו ממצאים מסוכנים."]].
Proof.
  eexists. split; [reflexivity|]. repeat split.
Qed.

Lemma analyze_returns (self : CrossReferenceEngine) (agent_results : list AgentResult) :
  exists r,
    CrossReference.analyze self agent_results = Py.Ok r
    /\ (agent_results <> [] -> ~ 0 < total_weight_of self agent_results ->
        combined_score r = 0.5).
Proof.
  destruct agent_results as [|r0 rest].
  - eexists. split; [reflexivity|]. congruence.
  - pose proof (analyze_nonempty self (r0 :: rest) ltac:(discriminate)) as Ha.
    unfold total_weight_of.
    destruct (CrossReference.accumulate self (r0 :: rest) 0 0) as [ws tw].
    cbn [snd].
    destruct (Py.ltb 0 tw) eqn:E.
    + apply ltb_lt in E.
      assert (E0 : Qeq_bool tw 0 = false).
      { destruct (Qeq_bool tw 0) eqn:E0; [|reflexivity].
        apply Qeq_bool_iff in E0. lra. }
      destruct (Ha (Py.round (ws / tw) 3)) as (r & Hr & _).
      { unfold Py.div. rewrite E0. reflexivity. }
      exists r. split; [exact Hr|]. intros _ Hn. contradiction.
    + destruct (Ha 0.5 eq_refl) as (r & Hr & Hs & _).
      exists r. split; [exact Hr|]. intros _ _. exact Hs.
Qed.

(** C9: when every confidence lies in [0, 1] the aggregator returns a
    combined score in [0, 1]; and under any weight table it returns without
    dividing by zero, the score being 0.5 when the summed weight is 0. *)
Theorem C9_combined_score_range :
  (forall agent_results,
     Forall (fun r => 0 <= confidence_score r /\ confidence_score r <= 1) agent_results ->
     exists r,
       CrossReference.analyze CrossReference.engine agent_results = Py.Ok r
       /\ 0 <= combined_score r /\ combined_score r <= 1)
  /\ (forall self agent_results,
        exists r,
          CrossReference.analyze self agent_results = Py.Ok r
          /\ (agent_results <> [] -> total_weight_of self agent_results == 0 ->
              combined_score r = 0.5)).
Proof.
  split.
  - intros agent_results Hall.
    destruct agent_results as [|r0 rest].
    + eexists. split; [reflexivity|]. cbn. split; discriminate.
    + set (rs := r0 :: rest) in *.
      assert (Hne : rs <> []) by discriminate.
      pose proof (combined_of_engine rs Hne) as Hc.
      pose proof (analyze_nonempty CrossReference.engine rs Hne) as Ha.
      pose proof (accumulate_bounds CrossReference.engine rs
                    (fun k => Qlt_le_weak _ _ (default_weight_pos k)) Hall 0 0
                    (Qle_refl 0) (Qle_refl 0)) as Hb.
      destruct (CrossReference.accumulate CrossReference.engine rs 0 0) as [ws tw].
      destruct Hc as [Hpos Hc]. destruct Hb as (B0 & B1 & _).
      destruct (Ha _ Hc) as (r & Hr & Hs & _).
      exists r. split; [exact Hr|]. rewrite Hs.
      destruct (round_between (ws / tw) 3 0 1000) as [R0 R1].
      * apply Qle_shift_div_l; [exact Hpos|].
        setoid_replace ((0 # Py.pow10 3) * tw) with 0 by (unfold Qeq; simpl; lia).
        exact B0.
      * apply Qle_shift_div_r; [exact Hpos|].
        setoid_replace ((1000 # Py.pow10 3) * tw) with tw; [exact B1|].
        change (1000 # Py.pow10 3) with (1000 # 1000). field.
      * split.
        -- eapply Qle_trans; [|exact R0]. discriminate.
        -- eapply Qle_trans; [exact R1|]. discriminate.
  - intros self agent_results.
    destruct (analyze_returns self agent_results) as (r & Hr & H0).
    exists r. split; [exact Hr|]. intros Hne Hz. apply H0; [exact Hne|]. lra.
Qed.

Lemma C9_combined_score_range_witness :
  (exists r,
     CrossReference.analyze CrossReference.engine three_high_opinions = Py.Ok r
     /\ 0 <= combined_score r /\ combined_score r <= 1)
  /\ (exists r,
        CrossReference.analyze zero_weight_engine (lone_forensic 0.9) = Py.Ok r
        /\ combined_score r = 0.5).
Proof.
  split.
  - apply (proj1 C9_combined_score_range).
    unfold three_high_opinions.
    repeat constructor; cbn; discriminate.
  - destruct (proj2 C9_combined_score_range zero_weight_engine (lone_forensic 0.9))
      as (r & Hr & H0).
    exists r. split; [exact Hr|].
    apply H0; [discriminate | reflexivity].
Defined.

(** ** The signal analyzer *)

Lemma sum_from (xs : list Q) (a : Q) : fold_left Qplus xs a == a + Py.sum xs.
Proof.
  unfold Py.sum. revert a. induction xs as [|x xs IH]; intro a; simpl.
  - ring.
  - rewrite IH, (IH (0 + x)). ring.
Qed.

Lemma sum_cons (x : Q) (xs : list Q) : Py.sum (x :: xs) == x + Py.sum xs.
Proof. unfold Py.sum at 1. simpl. rewrite sum_from. ring. Qed.

Lemma penalty_sum_cons (a : Anomaly) (l : list Anomaly) :
  known_severity a ->
  penalty_sum (a :: l)
  == Py.dict_get ForensicTechnicalAgent.severity_scores (a_severity a) 0 + penalty_sum l.
Proof.
  unfold penalty_sum, CrossReference.count_severity.
  intros [H | [H | H]]; cbn [filter]; rewrite H; cbn [String.eqb Ascii.eqb Bool.eqb];
    cbn [length Py.dict_get ForensicTechnicalAgent.severity_scores];
    rewrite ?Nat2Z.inj_succ; unfold Z.succ; rewrite ?inject_Z_plus;
    cbn [String.eqb Ascii.eqb Bool.eqb]; ring.
Qed.

Lemma total_penalty_is_penalty_sum (l : list Anomaly) :
  Forall known_severity l ->
  Py.sum (map (fun a => Py.dict_get ForensicTechnicalAgent.severity_scores (a_severity a) 0) l)
  == penalty_sum l.
Proof.
  induction 1 as [|a l Ha _ IH].
  - reflexivity.
  - cbn [map]. rewrite sum_cons, IH, penalty_sum_cons by exact Ha. reflexivity.
Qed.

(** The penalty sum is a whole number of hundredths. *)
Lemma penalty_sum_hundredths (l : list Anomaly) :
  exists k : Z, 0.92 - penalty_sum l == k # Py.pow10 2.
Proof.
  exists (92 - (15 * Z.of_nat (CrossReference.count_severity "high" l)
                + 8 * Z.of_nat (CrossReference.count_severity "medium" l)
                + 3 * Z.of_nat (CrossReference.count_severity "low" l)))%Z.
  unfold penalty_sum. change (Py.pow10 2) with 100%positive.
  generalize (Z.of_nat (CrossReference.count_severity "high" l)),
             (Z.of_nat (CrossReference.count_severity "medium" l)),
             (Z.of_nat (CrossReference.count_severity "low" l)).
  intros h m lo.
  unfold Qeq, Qminus, Qplus, Qmult, Qopp, inject_Z. cbn [Qnum Qden]. lia.
Qed.

Lemma calculate_confidence_nonempty (l : list Anomaly) :
  l <> [] -> Forall known_severity l ->
  (0.15 <= 0.92 - penalty_sum l ->
   ForensicTechnicalAgent._calculate_confidence l == 0.92 - penalty_sum l)
  /\ (0.92 - penalty_sum l <= 0.15 ->
      ForensicTechnicalAgent._calculate_confidence l == 0.15).
Proof.
  intros Hne Hk. destruct l as [|a l]; [congruence|].
  unfold ForensicTechnicalAgent._calculate_confidence.
  set (total := Py.sum _).
  assert (Ht : total == penalty_sum (a :: l)) by (apply total_penalty_is_penalty_sum, Hk).
  destruct (penalty_sum_hundredths (a :: l)) as [k Hkk].
  assert (Hr : Py.round (0.92 - total) 2 == 0.92 - penalty_sum (a :: l)).
  { rewrite Hkk. apply round_exact. rewrite Ht. exact Hkk. }
  unfold Py.max.
  destruct (Py.ltb 0.15 (Py.round (0.92 - total) 2)) eqn:E;
    [apply ltb_lt in E | apply ltb_ge in E]; rewrite Hr in E; split; intro H.
  - exact Hr.
  - lra.
  - lra.
  - reflexivity.
Qed.

Lemma analyze_dimensions_match (img : Image) :
  width img = 1024%Z -> height img = 1024%Z ->
  ForensicTechnicalAgent._analyze_dimensions img = [dimension_anomaly].
Proof.
  intros Hw Hh. unfold ForensicTechnicalAgent._analyze_dimensions. rewrite Hw, Hh.
  reflexivity.
Qed.

Lemma analyze_compression_double (file_bytes : bytes) (img : Image)
      (table : list Z) (rest : list (list Z)) :
  format img = Some "JPEG" ->
  quantization img = table :: rest -> table <> [] ->
  ForensicTechnicalAgent.variance table == 900 ->
  width img = 1024%Z -> height img = 1024%Z ->
  0.1 <= len_bytes file_bytes / inject_Z (1024 * 1024) ->
  ForensicTechnicalAgent._analyze_compression file_bytes img = [double_compression_anomaly].
Proof.
  intros Hf Hq Hne Hv Hw Hh Hb.
  unfold ForensicTechnicalAgent._analyze_compression, format_is.
  rewrite Hf, Hq, Hw, Hh. cbn [String.eqb Ascii.eqb Bool.eqb andb].
  unfold ForensicTechnicalAgent.q_std_exceeds_25.
  destruct table as [|t0 table]; [congruence|].
  assert (E : Py.ltb 625 (ForensicTechnicalAgent.variance (t0 :: table)) = true).
  { apply ltb_lt. rewrite Hv. reflexivity. }
  rewrite E.
  change (0 <? 1024 * 1024)%Z with true. cbv iota.
  assert (E2 : Py.ltb (len_bytes file_bytes / inject_Z (1024 * 1024)) 0.1 = false).
  { apply ltb_ge. exact Hb. }
  rewrite E2. reflexivity.
Qed.

Lemma known_high (t : string) (loc : option (Z * Z)) :
  known_severity (ForensicTechnicalAgent._anomaly t "high" loc).
Proof. left. reflexivity. Qed.

Lemma known_medium (t : string) (loc : option (Z * Z)) :
  known_severity (ForensicTechnicalAgent._anomaly t "medium" loc).
Proof. right. left. reflexivity. Qed.

Lemma known_low (t : string) (loc : option (Z * Z)) :
  known_severity (ForensicTechnicalAgent._anomaly t "low" loc).
Proof. right. right. reflexivity. Qed.

Ltac known_severities :=
  repeat first [ apply Forall_nil
               | apply Forall_app; split
               | apply Forall_cons
               | apply known_high | apply known_medium | apply known_low ].

Lemma analyze_exif_known (img : Image) (l : list Anomaly) :
  ForensicTechnicalAgent._analyze_exif img = Py.Ok l -> Forall known_severity l.
Proof.
  unfold ForensicTechnicalAgent._analyze_exif.
  destruct (if has_getexif img then _ else _) as [exif_data|e]; cbn [Py.bind];
    [|discriminate].
  destruct exif_data as [|kv rest].
  - intros [= <-]. known_severities.
  - intros [= <-].
    repeat match goal with
           | |- context [if ?b then _ else _] => destruct b
           end; known_severities.
Qed.

Lemma region_anomalies_known (means : list Q) :
  Forall known_severity (ForensicTechnicalAgent.region_anomalies means).
Proof.
  unfold ForensicTechnicalAgent.region_anomalies. apply Forall_forall. intros a Ha.
  apply in_flat_map in Ha. destruct Ha as ([i m] & _ & Ha).
  destruct (Py.ltb _ m && Py.ltb 15 m); [|destruct Ha].
  destruct Ha as [<- | []]. apply known_high.
Qed.

Lemma analyze_ela_known (img : Image) :
  Forall known_severity (ForensicTechnicalAgent._analyze_ela img).
Proof.
  unfold ForensicTechnicalAgent._analyze_ela.
  destruct (ela img) as [stats|]; [|constructor].
  apply Forall_app. split.
  - destruct (region_means stats); [apply region_anomalies_known | constructor].
  - destruct (Py.ltb 20 (std_error stats)); known_severities.
Qed.

Lemma analyze_compression_known (file_bytes : bytes) (img : Image) :
  Forall known_severity (ForensicTechnicalAgent._analyze_compression file_bytes img).
Proof.
  unfold ForensicTechnicalAgent._analyze_compression.
  apply Forall_app. split.
  - destruct (format_is img "JPEG"); [|constructor].
    destruct (quantization img) as [|t ts]; [constructor|].
    destruct (ForensicTechnicalAgent.q_std_exceeds_25 t); known_severities.
  - destruct (0 <? width img * height img)%Z; [|constructor].
    destruct (Py.ltb _ 0.1 && format_is img "JPEG"); known_severities.
Qed.

Lemma analyze_dimensions_known (img : Image) :
  Forall known_severity (ForensicTechnicalAgent._analyze_dimensions img).
Proof.
  unfold ForensicTechnicalAgent._analyze_dimensions.
  destruct (existsb _ _); known_severities.
Qed.

(** On a file that opens, the opinion's confidence is the scoring law
    applied to its own anomalies, whose severities are the three known
    ones. *)
Lemma analyze_scores_by_law (pil : Pillow) (file_bytes : bytes) (filename : string)
      (img : Image) (r : AgentResult) :
  Image_open pil file_bytes = Py.Ok img ->
  ForensicTechnicalAgent.analyze pil file_bytes filename = Py.Ok r ->
  Forall known_severity (anomalies r)
  /\ confidence_score r = ForensicTechnicalAgent._calculate_confidence (anomalies r).
Proof.
  intros Ho. unfold ForensicTechnicalAgent.analyze. rewrite Ho.
  destruct (ForensicTechnicalAgent._analyze_exif img) as [exif_anomalies|e] eqn:He;
    cbn [Py.bind]; [|discriminate].
  intros [= <-]. cbn [anomalies confidence_score ForensicTechnicalAgent._result].
  split; [|reflexivity].
  apply Forall_app. split; [exact (analyze_exif_known img _ He)|].
  apply Forall_app. split; [apply analyze_ela_known|].
  apply Forall_app. split; [apply analyze_compression_known|].
  apply analyze_dimensions_known.
Qed.

(** C4: the analyzer's confidence is 0.92 on an empty anomaly list and
    otherwise 0.92 minus the penalty sum (0.15 per high, 0.08 per medium,
    0.03 per low anomaly), floored at 0.15; every opinion on a file that
    opens is scored by this law on its own anomalies.  A 1024x1024 JPEG whose first
    quantization table has standard deviation 30 (variance 900), and which
    shows nothing else, yields exactly the double-compression and the
    dimension anomaly, both medium, and confidence 0.76. *)
Theorem C4_signal_confidence :
  ForensicTechnicalAgent._calculate_confidence [] = 0.92
  /\ (forall anomalies,
        anomalies <> [] -> Forall known_severity anomalies ->
        (0.15 <= 0.92 - penalty_sum anomalies ->
         ForensicTechnicalAgent._calculate_confidence anomalies
         == 0.92 - penalty_sum anomalies)
        /\ (0.92 - penalty_sum anomalies <= 0.15 ->
            ForensicTechnicalAgent._calculate_confidence anomalies == 0.15))
  /\ (forall pil file_bytes filename img r,
        Image_open pil file_bytes = Py.Ok img ->
        ForensicTechnicalAgent.analyze pil file_bytes filename = Py.Ok r ->
        Forall known_severity (anomalies r)
        /\ confidence_score r = ForensicTechnicalAgent._calculate_confidence (anomalies r))
  /\ (forall pil file_bytes filename img table rest,
        Image_open pil file_bytes = Py.Ok img ->
        width img = 1024%Z -> height img = 1024%Z ->
        format img = Some "JPEG" ->
        quantization img = table :: rest -> table <> [] ->
        ForensicTechnicalAgent.variance table == 30 * 30 ->
        ForensicTechnicalAgent._analyze_exif img = Py.Ok [] ->
        ForensicTechnicalAgent._analyze_ela img = [] ->
        0.1 <= len_bytes file_bytes / inject_Z (1024 * 1024) ->
        exists r,
          ForensicTechnicalAgent.analyze pil file_bytes filename = Py.Ok r
          /\ anomalies r = [double_compression_anomaly; dimension_anomaly]
          /\ confidence_score r == 0.76).
Proof.
  split; [reflexivity|]. split; [|split].
  - intros anomalies Hne Hk. apply calculate_confidence_nonempty; assumption.
  - intros pil file_bytes filename img r Ho Ha.
    exact (analyze_scores_by_law pil file_bytes filename img r Ho Ha).
  - intros pil file_bytes filename img table rest Ho Hw Hh Hf Hq Hne Hv He Hela Hb.
    unfold ForensicTechnicalAgent.analyze. rewrite Ho, He. cbn [Py.bind].
    rewrite Hela.
    rewrite (analyze_compression_double file_bytes img table rest)
      by (try assumption; rewrite Hv; reflexivity).
    rewrite (analyze_dimensions_match img) by assumption.
    cbn [app]. eexists. split; [reflexivity|]. split; [reflexivity|].
    cbn [confidence_score ForensicTechnicalAgent._result].
    destruct (calculate_confidence_nonempty
                [double_compression_anomaly; dimension_anomaly]) as [H _].
    + discriminate.
    + repeat constructor; right; left; reflexivity.
    + rewrite H; [reflexivity | vm_compute; discriminate].
Qed.

Lemma C4_signal_confidence_witness :
  (ForensicTechnicalAgent._calculate_confidence
     [double_compression_anomaly; dimension_anomaly; dimension_anomaly]
   == 0.92 - penalty_sum [double_compression_anomaly; dimension_anomaly; dimension_anomaly])
  /\ (exists r,
        ForensicTechnicalAgent.analyze (opens_as square_jpeg) square_jpeg_bytes "photo.jpg"
        = Py.Ok r
        /\ anomalies r = [double_compression_anomaly; dimension_anomaly]
        /\ confidence_score r == 0.76).
Proof.
  destruct C4_signal_confidence as (_ & Hlaw & _ & Hscene). split.
  - apply Hlaw.
    + discriminate.
    + repeat constructor; right; left; reflexivity.
    + vm_compute. discriminate.
  - apply (Hscene (opens_as square_jpeg) square_jpeg_bytes "photo.jpg" square_jpeg
                  table_std_30 [table_std_30]).
    + reflexivity.
    + reflexivity.
    + reflexivity.
    + reflexivity.
    + reflexivity.
    + discriminate.
    + vm_compute. reflexivity.
    + reflexivity.
    + vm_compute. reflexivity.
    + vm_compute. discriminate.
Defined.

(** On input that Pillow cannot open, [analyze] returns the degraded
    opinion: confidence 0.5 and the single medium anomaly of type format. *)
Lemma analyze_undecodable (pil : Pillow) (file_bytes : bytes) (filename : string) (e : Py.exn) :
  Image_open pil file_bytes = Py.Raise e ->
  ForensicTechnicalAgent.analyze pil file_bytes filename
  = Py.Ok {| agent_type := "forensic_technical";
             confidence_score := 0.5;
             findings := no_findings;
             anomalies := [ {| a_type := "format"; a_severity := "medium";
                               a_location := None |} ] |}.
Proof.
  intro H. unfold ForensicTechnicalAgent.analyze. rewrite H. reflexivity.
Qed.

(** [analyze] raises exactly when the file opens and reading its metadata
    raises: that call stands outside every [try]. *)
Lemma analyze_raises_iff (pil : Pillow) (file_bytes : bytes) (filename : string) (e : Py.exn) :
  ForensicTechnicalAgent.analyze pil file_bytes filename = Py.Raise e
  <-> exists img, Image_open pil file_bytes = Py.Ok img
                  /\ has_getexif img = true /\ _getexif img = Py.Raise e.
Proof.
  unfold ForensicTechnicalAgent.analyze, ForensicTechnicalAgent._analyze_exif. split.
  - destruct (Image_open pil file_bytes) as [img|e0]; [|discriminate].
    intro H. exists img. split; [reflexivity|].
    destruct (has_getexif img).
    + destruct (_getexif img) as [raw|e1].
      * cbn [Py.bind] in H.
        destruct (ForensicTechnicalAgent.build_exif_data raw); discriminate.
      * cbn [Py.bind] in H. split; [reflexivity | congruence].
    + cbn [Py.bind] in H. discriminate.
  - intros (img & Ho & Hh & Hg). rewrite Ho, Hh, Hg. reflexivity.
Qed.

(** C5: a file that opens but whose metadata block cannot be parsed makes
    [analyze] raise instead of returning an opinion, while a file that does
    not open yields the degraded opinion. *)
Theorem C5_analyze_raises_on_unreadable_metadata :
  ForensicTechnicalAgent.analyze (opens_as broken_exif_jpeg) [] "broken.jpg"
  = Py.Raise Py.LibraryError
  /\ ForensicTechnicalAgent.analyze rejects_all [] "noise.bin"
     = Py.Ok {| agent_type := "forensic_technical";
                confidence_score := 0.5;
                findings := no_findings;
                anomalies := [ {| a_type := "format"; a_severity := "medium";
                                  a_location := None |} ] |}.
Proof. split; reflexivity. Qed.

(** ** The critique engine *)

(** The counter of [_calc_threat_level], a filter on the severity, finds the
    challenges whose severity is "high". *)
Lemma count_high_is_high_challenges (challenges : list Challenge) :
  RedTeam.count_high challenges = high_challenges challenges.
Proof.
  unfold RedTeam.count_high.
  induction challenges as [|c rest IH]; [reflexivity|].
  cbn [high_challenges filter].
  destruct (String.eqb (c_severity c) "high"); cbn [length]; now rewrite IH.
Qed.

Lemma calc_threat_level_rule (challenges : list Challenge) (blind_spots : list BlindSpot) :
  let h := high_challenges challenges in
  let total := (length challenges + length blind_spots)%nat in
  let level := RedTeam._calc_threat_level challenges blind_spots in
  let high_rule := (2 <= h \/ 5 <= total)%nat in
  let medium_rule := (1 <= h \/ 3 <= total)%nat in
  (high_rule -> level = high)
  /\ (~ high_rule -> medium_rule -> level = medium)
  /\ (~ high_rule -> ~ medium_rule -> level = low).
Proof.
  unfold RedTeam._calc_threat_level. cbv zeta.
  rewrite count_high_is_high_challenges.
  destruct (Nat.leb_spec 2 (high_challenges challenges));
  destruct (Nat.leb_spec 5 (length challenges + length blind_spots));
  destruct (Nat.leb_spec 1 (high_challenges challenges));
  destruct (Nat.leb_spec 3 (length challenges + length blind_spots));
  cbn [orb]; repeat split; intros; try reflexivity; exfalso; intuition lia.
Qed.

Lemma calc_threat_level_monotone
      (challenges challenges' : list Challenge) (blind_spots blind_spots' : list BlindSpot) :
  (high_challenges challenges <= high_challenges challenges')%nat ->
  (length challenges + length blind_spots <= length challenges' + length blind_spots')%nat ->
  (threat_rank (RedTeam._calc_threat_level challenges blind_spots)
   <= threat_rank (RedTeam._calc_threat_level challenges' blind_spots'))%nat.
Proof.
  intros Hh Ht. unfold RedTeam._calc_threat_level. cbv zeta.
  rewrite !count_high_is_high_challenges.
  destruct (Nat.leb_spec 2 (high_challenges challenges));
  destruct (Nat.leb_spec 5 (length challenges + length blind_spots));
  destruct (Nat.leb_spec 1 (high_challenges challenges));
  destruct (Nat.leb_spec 3 (length challenges + length blind_spots));
  destruct (Nat.leb_spec 2 (high_challenges challenges'));
  destruct (Nat.leb_spec 5 (length challenges' + length blind_spots'));
  destruct (Nat.leb_spec 1 (high_challenges challenges'));
  destruct (Nat.leb_spec 3 (length challenges' + length blind_spots'));
  cbn [orb threat_rank]; lia.
Qed.

Lemma threat_rank_inj (t t' : ThreatLevel) : threat_rank t = threat_rank t' -> t = t'.
Proof. destruct t, t'; cbn; intro H; try reflexivity; discriminate. Qed.

(** C7: with the high-severity challenges counted as the challenges whose
    severity is "high", the threat level is high when there are at least 2
    of them or at least 5 challenges and blind spots together; medium when
    there is at least 1 or the total is at least 3; low otherwise.  The
    level depends on the challenges and blind spots through these two
    counts only, and it does not decrease when neither count decreases. *)
Theorem C7_threat_level :
  (forall challenges blind_spots,
     let h := high_challenges challenges in
     let total := (length challenges + length blind_spots)%nat in
     let level := RedTeam._calc_threat_level challenges blind_spots in
     let high_rule := (2 <= h \/ 5 <= total)%nat in
     let medium_rule := (1 <= h \/ 3 <= total)%nat in
     (high_rule -> level = high)
     /\ (~ high_rule -> medium_rule -> level = medium)
     /\ (~ high_rule -> ~ medium_rule -> level = low))
  /\ (forall challenges challenges' blind_spots blind_spots',
        high_challenges challenges = high_challenges challenges' ->
        (length challenges + length blind_spots
         = length challenges' + length blind_spots')%nat ->
        RedTeam._calc_threat_level challenges blind_spots
        = RedTeam._calc_threat_level challenges' blind_spots')
  /\ (forall challenges challenges' blind_spots blind_spots',
        (high_challenges challenges <= high_challenges challenges')%nat ->
        (length challenges + length blind_spots
         <= length challenges' + length blind_spots')%nat ->
        (threat_rank (RedTeam._calc_threat_level challenges blind_spots)
         <= threat_rank (RedTeam._calc_threat_level challenges' blind_spots'))%nat).
Proof.
  split; [|split].
  - apply calc_threat_level_rule.
  - intros challenges challenges' blind_spots blind_spots' Hh Ht.
    apply threat_rank_inj, Nat.le_antisymm; apply calc_threat_level_monotone; lia.
  - intros. now apply calc_threat_level_monotone.
Qed.

Lemma C7_threat_level_witness :
  RedTeam._calc_threat_level
    [plain_challenge "low_resolution" "high"; plain_challenge "consistency_gap" "high"] []
  = high
  /\ (threat_rank (RedTeam._calc_threat_level [plain_challenge "grayscale" "medium"] [])
      <= threat_rank
           (RedTeam._calc_threat_level
              [plain_challenge "grayscale" "medium"; plain_challenge "low_resolution" "high"]
              []))%nat.
Proof.
  destruct C7_threat_level as (Hrule & _ & Hmono). split.
  - apply (Hrule [plain_challenge "low_resolution" "high";
                  plain_challenge "consistency_gap" "high"] []).
    left. vm_compute. lia.
  - apply Hmono; vm_compute; lia.
Defined.

Lemma false_positives_adjustment (pil : Pillow) (results : list AgentResult) (file_bytes : bytes) :
  snd (RedTeam._check_false_positives pil results file_bytes) = None
  \/ snd (RedTeam._check_false_positives pil results file_bytes) = Some 0.05.
Proof.
  unfold RedTeam._check_false_positives.
  destruct (find _ results) as [forensic|]; [|now left].
  destruct (filter _ (anomalies forensic)) as [|a0 l0]; [now left|].
  destruct (Image_open pil file_bytes) as [img|e]; [|now left].
  destruct (format_is img "JPEG"); [|now left].
  destruct (Py.ltb _ 0.3); [now right | now left].
Qed.

Lemma cross_consistency_adjustment (results : list AgentResult) :
  snd (RedTeam._check_cross_consistency results) = None
  \/ snd (RedTeam._check_cross_consistency results) = Some (-0.03).
Proof.
  unfold RedTeam._check_cross_consistency.
  destruct (map snd (RedTeam.build_scores results)) as [|v [|v' vs]]; [now left | now left |].
  destruct (Py.ltb 0.3 _); [now right | now left].
Qed.

Lemma challenge_adjustment (host : Host) (now : string) (cls : RedTeamAgent_class)
      (self : RedTeamAgent) (file_bytes : bytes) (filename : string)
      (agent_results : list AgentResult) (cross_reference : CrossReferenceResult) :
  confidence_adjustment
    (fst (RedTeam.challenge host now cls self file_bytes filename agent_results cross_reference))
  = let l :=
        RedTeam.proposed
          (snd (RedTeam._check_false_positives (pillow host) agent_results file_bytes))
        ++ RedTeam.proposed (snd (RedTeam._check_cross_consistency agent_results)) in
    Py.round (match l with
              | [] => 0
              | _ :: _ => Py.sum l / inject_Z (Z.of_nat (length l))
              end) 3.
Proof. reflexivity. Qed.

Lemma adjusted_score_clamped (cross_ref : CrossReferenceResult) (red_team : CritiqueResult) :
  0.05 <= Orchestrator.adjusted_score cross_ref red_team
  /\ Orchestrator.adjusted_score cross_ref red_team <= 0.99.
Proof.
  unfold Orchestrator.adjusted_score. split.
  - apply max_lower.
  - apply max_upper; [discriminate | apply min_upper].
Qed.

(** The clamp of [adjusted_score], case by case on the sum it is applied
    to. *)
Lemma adjusted_score_cases (cross_ref : CrossReferenceResult) (red_team : CritiqueResult) :
  let raw := combined_score cross_ref + confidence_adjustment red_team in
  let score := Orchestrator.adjusted_score cross_ref red_team in
  (raw < 0.05 -> score == 0.05)
  /\ (0.05 <= raw -> raw <= 0.99 -> score == raw)
  /\ (0.99 < raw -> score == 0.99).
Proof.
  cbv zeta. unfold Orchestrator.adjusted_score, Py.max, Py.min.
  set (raw := combined_score cross_ref + confidence_adjustment red_team).
  destruct (Py.ltb raw 0.99) eqn:E1; (apply ltb_lt in E1 || apply ltb_ge in E1).
  - destruct (Py.ltb 0.05 raw) eqn:E2; (apply ltb_lt in E2 || apply ltb_ge in E2);
      repeat split; intros; lra.
  - assert (E2 : Py.ltb 0.05 0.99 = true) by reflexivity. rewrite E2.
    repeat split; intros; lra.
Qed.

(** C6: the returned confidence adjustment is the mean of the adjustments
    that modules proposed, and 0 when none did.  The orchestrator's adjusted
    score is the preliminary score plus the critique's adjustment, clamped:
    0.05 when the sum is below 0.05, 0.99 when it is above 0.99, and the sum
    itself in between; so it lies in [0.05, 0.99], and so does the
    confidence reported, which is the adjusted score rounded to three
    places. *)
Theorem C6_adjustment_mean_and_clamp :
  (forall host now cls self file_bytes filename agent_results cross_reference,
     confidence_adjustment
       (fst (RedTeam.challenge host now cls self file_bytes filename
                               agent_results cross_reference))
     == match module_proposals host agent_results file_bytes with
        | [] => 0
        | (_ :: _) as l => Py.sum l / inject_Z (Z.of_nat (length l))
        end)
  /\ (forall cross_ref red_team,
        let raw := combined_score cross_ref + confidence_adjustment red_team in
        let score := Orchestrator.adjusted_score cross_ref red_team in
        (raw < 0.05 -> score == 0.05)
        /\ (0.05 <= raw -> raw <= 0.99 -> score == raw)
        /\ (0.99 < raw -> score == 0.99)
        /\ 0.05 <= score
        /\ score <= 0.99
        /\ confidence (Orchestrator._final_verdict cross_ref red_team) = Py.round score 3
        /\ 0.05 <= confidence (Orchestrator._final_verdict cross_ref red_team)
        /\ confidence (Orchestrator._final_verdict cross_ref red_team) <= 0.99).
Proof.
  split.
  - intros. rewrite challenge_adjustment. unfold module_proposals. cbn [flat_map app].
    destruct (false_positives_adjustment (pillow host) agent_results file_bytes) as [-> | ->];
    destruct (cross_consistency_adjustment agent_results) as [-> | ->];
    vm_compute; reflexivity.
  - intros cross_ref red_team. cbv zeta.
    destruct (adjusted_score_cases cross_ref red_team) as (Hlow & Hmid & Hhigh).
    destruct (adjusted_score_clamped cross_ref red_team) as [H1 H2].
    split; [exact Hlow|]. split; [exact Hmid|]. split; [exact Hhigh|].
    split; [exact H1|]. split; [exact H2|].
    split; [reflexivity|].
    cbn [confidence Orchestrator._final_verdict].
    destruct (round_between (Orchestrator.adjusted_score cross_ref red_team) 3 50 990)
      as [R1 R2].
    + eapply Qle_trans; [|exact H1]. discriminate.
    + eapply Qle_trans; [exact H2|]. discriminate.
    + split.
      * eapply Qle_trans; [|exact R1]. discriminate.
      * eapply Qle_trans; [exact R2|]. discriminate.
Qed.

(** Over any sequence of calls, through whichever instances, the log only
    grows at its end, by one entry per call. *)
Lemma run_calls_appends (calls : list Call) :
  forall cls,
  exists entries,
    learning_log (run_calls cls calls) = learning_log cls ++ entries
    /\ length entries = length calls.
Proof.
  induction calls as [|c rest IH]; intro cls; cbn [run_calls].
  - exists []. split; [symmetry; apply app_nil_r | reflexivity].
  - destruct (IH (snd (RedTeam.challenge (call_host c) (call_now c) cls (call_self c)
                                         (call_file_bytes c) (call_filename c)
                                         (call_agent_results c) (call_cross_reference c))))
      as (entries & Hlog & Hlen).
    cbn [RedTeam.challenge snd RedTeam.append_learning_log learning_log] in Hlog.
    rewrite <- app_assoc in Hlog.
    eexists. split; [exact Hlog|]. cbn [app length]. now rewrite Hlen.
Qed.

(** C10: a call of [challenge] leaves the log as it was with one entry
    appended, and reports the new length; the log is the one list of the
    class, so a call through one instance is seen through every other; and
    over any sequence of calls the log keeps every entry and gains one per
    call. *)
Theorem C10_learning_log_append :
  (forall host now cls self file_bytes filename agent_results cross_reference,
     let out := RedTeam.challenge host now cls self file_bytes filename
                                  agent_results cross_reference in
     (exists entry, learning_log (snd out) = learning_log cls ++ [entry])
     /\ firstn (length (learning_log cls)) (learning_log (snd out)) = learning_log cls
     /\ length (learning_log (snd out)) = S (length (learning_log cls))
     /\ learning_log_size (fst out) = length (learning_log (snd out))
     /\ (forall other, RedTeam.get_learning_log (snd out) other = learning_log (snd out))
     /\ (forall host' now' other file_bytes' filename' agent_results' cross_reference',
           let out' := RedTeam.challenge host' now' (snd out) other file_bytes' filename'
                                         agent_results' cross_reference' in
           learning_log_size (fst out') = S (S (length (learning_log cls)))
           /\ firstn (S (length (learning_log cls))) (learning_log (snd out'))
              = learning_log (snd out)))
  /\ (forall cls calls,
        exists entries,
          learning_log (run_calls cls calls) = learning_log cls ++ entries
          /\ length entries = length calls).
Proof.
  split; [|intros cls calls; apply run_calls_appends].
  intros. subst out. cbn [RedTeam.challenge fst snd learning_log learning_log_size
                          RedTeam.append_learning_log RedTeam.get_learning_log].
  split; [eexists; reflexivity|].
  split; [rewrite firstn_app, Nat.sub_diag, firstn_all; cbn; apply app_nil_r|].
  split; [rewrite length_app; cbn; lia|].
  split; [reflexivity|].
  split; [reflexivity|].
  intros. cbn [RedTeam.challenge fst snd learning_log learning_log_size
               RedTeam.append_learning_log RedTeam.get_learning_log].
  split.
  - rewrite !length_app. cbn. lia.
  - set (l1 := learning_log cls ++ _).
    assert (Hl : length l1 = S (length (learning_log cls))).
    { subst l1. rewrite length_app. cbn. lia. }
    rewrite <- Hl, firstn_app, Nat.sub_diag, firstn_all. cbn. apply app_nil_r.
Qed.

(** ** The final verdict *)

Lemma filter_nonempty {A} (f : A -> bool) (l : list A) (x : A) :
  In x l -> f x = true -> RedTeam.is_empty (filter f l) = false.
Proof.
  intros Hin Hf.
  assert (H : In x (filter f l)) by (apply filter_In; split; assumption).
  destruct (filter f l); [destruct H | reflexivity].
Qed.

Lemma final_verdict_overridden (cross_ref : CrossReferenceResult) (red_team : CritiqueResult) :
  has_verdict_challenge red_team ->
  final_verdict cross_ref = authentic \/ final_verdict cross_ref = forged ->
  verdict (Orchestrator._final_verdict cross_ref red_team) = inconclusive
  /\ hitl_required (Orchestrator._final_verdict cross_ref red_team) = true.
Proof.
  intros (c & Hin & Hc) Hv.
  unfold Orchestrator._final_verdict. cbn [verdict hitl_required].
  rewrite (filter_nonempty Orchestrator.is_verdict_challenge _ c Hin)
    by (unfold Orchestrator.is_verdict_challenge; rewrite Hc; reflexivity).
  destruct Hv as [-> | ->]; split; reflexivity.
Qed.

Lemma total_high_pos (agent_results : list AgentResult) :
  has_high_anomaly agent_results -> (0 < RedTeam.total_high agent_results)%nat.
Proof.
  intros (r & a & Hr & Ha & Hs). unfold RedTeam.total_high.
  assert (H : In a (flat_map (fun r => filter (fun a => String.eqb (a_severity a) "high")
                                              (anomalies r)) agent_results)).
  { apply in_flat_map. exists r. split; [exact Hr|].
    apply filter_In. split; [exact Ha|]. rewrite Hs. reflexivity. }
  destruct (flat_map _ agent_results); [destruct H | cbn; lia].
Qed.

Lemma challenge_emits_verdict_challenge (host : Host) (now : string)
      (cls : RedTeamAgent_class) (self : RedTeamAgent) (file_bytes : bytes)
      (filename : string) (agent_results : list AgentResult)
      (cross_reference : CrossReferenceResult) :
  final_verdict cross_reference = authentic ->
  has_high_anomaly agent_results ->
  In (plain_challenge "verdict_challenge" "high")
     (challenges (fst (RedTeam.challenge host now cls self file_bytes filename
                                         agent_results cross_reference))).
Proof.
  intros Hv Hh. cbn [RedTeam.challenge fst challenges].
  apply in_or_app. right. apply in_or_app. right. apply in_or_app. right.
  unfold RedTeam._challenge_verdict. rewrite Hv.
  apply total_high_pos, Nat.ltb_lt in Hh. rewrite Hh.
  left. reflexivity.
Qed.

(** Inside one run the second case of C2 cannot arise from the aggregator's
    own result: it calls no opinion set authentic that carries a
    high-severity anomaly. *)
Lemma aggregated_authentic_has_no_high (agent_results : list AgentResult)
      (r : CrossReferenceResult) :
  CrossReference.analyze CrossReference.engine agent_results = Py.Ok r ->
  final_verdict r = authentic ->
  high_count_of agent_results = 0%nat.
Proof.
  intros Hr Hv. destruct agent_results as [|r0 rest].
  - cbn in Hr. injection Hr as <-. discriminate.
  - pose proof (combined_of_engine (r0 :: rest) ltac:(discriminate)) as Hc.
    pose proof (analyze_nonempty CrossReference.engine (r0 :: rest) ltac:(discriminate))
      as Ha.
    destruct (CrossReference.accumulate CrossReference.engine (r0 :: rest) 0 0) as [ws tw].
    destruct Hc as [_ Hc]. destruct (Ha _ Hc) as (r' & Hr' & _ & Hv').
    rewrite Hr in Hr'. injection Hr' as <-.
    rewrite high_count_collect, Hv in Hv'.
    unfold CrossReference.decide_verdict in Hv'.
    destruct ((3 <=? _)%nat || _); [discriminate|].
    destruct (Nat.eqb_spec (high_count_of (r0 :: rest)) 0) as [E|E]; [exact E|].
    rewrite andb_false_r in Hv'. discriminate.
Qed.

(** C2: a verdict challenge turns a preliminary authentic or forged into
    inconclusive; and when the preliminary verdict is authentic while some
    opinion carries a high-severity anomaly, the critique engine emits a
    verdict challenge, so the final verdict is inconclusive and human review
    is required. *)
Theorem C2_verdict_challenge_overrides :
  (forall cross_ref red_team,
     has_verdict_challenge red_team ->
     final_verdict cross_ref = authentic \/ final_verdict cross_ref = forged ->
     verdict (Orchestrator._final_verdict cross_ref red_team) = inconclusive)
  /\ (forall host now cls self file_bytes filename agent_results cross_reference,
        final_verdict cross_reference = authentic ->
        has_high_anomaly agent_results ->
        let red_team := fst (RedTeam.challenge host now cls self file_bytes filename
                                               agent_results cross_reference) in
        has_verdict_challenge red_team
        /\ verdict (Orchestrator._final_verdict cross_reference red_team) = inconclusive
        /\ hitl_required (Orchestrator._final_verdict cross_reference red_team) = true).
Proof.
  split.
  - intros cross_ref red_team Hc Hv. now apply final_verdict_overridden.
  - intros host now cls self file_bytes filename agent_results cross_reference Hv Hh red_team.
    assert (Hc : has_verdict_challenge red_team).
    { exists (plain_challenge "verdict_challenge" "high"). split; [|reflexivity].
      now apply challenge_emits_verdict_challenge. }
    split; [exact Hc|]. apply final_verdict_overridden; [exact Hc | now left].
Qed.

Lemma C2_verdict_challenge_overrides_witness :
  has_verdict_challenge
    (fst (RedTeam.challenge (host_opening square_jpeg) "2024-01-01T00:00:00"
                            no_log (RedTeamAgent_instance 0) [] "photo.jpg"
                            one_high_opinion authentic_cross))
  /\ verdict (Orchestrator._final_verdict authentic_cross
                (fst (RedTeam.challenge (host_opening square_jpeg) "2024-01-01T00:00:00"
                                        no_log (RedTeamAgent_instance 0) [] "photo.jpg"
                                        one_high_opinion authentic_cross)))
     = inconclusive
  /\ hitl_required (Orchestrator._final_verdict authentic_cross
                      (fst (RedTeam.challenge (host_opening square_jpeg)
                                              "2024-01-01T00:00:00"
                                              no_log (RedTeamAgent_instance 0) [] "photo.jpg"
                                              one_high_opinion authentic_cross)))
     = true.
Proof.
  apply (proj2 C2_verdict_challenge_overrides
               (host_opening square_jpeg) "2024-01-01T00:00:00" no_log
               (RedTeamAgent_instance 0) [] "photo.jpg" one_high_opinion authentic_cross).
  - reflexivity.
  - exists forensic_with_dates, dates_anomaly.
    split; [left; reflexivity|]. split; [left; reflexivity | reflexivity].
Defined.

Lemma max_ge_r (a b : Q) : b <= Py.max a b.
Proof.
  unfold Py.max. destruct (Py.ltb a b) eqn:E.
  - apply Qle_refl.
  - apply ltb_ge in E. exact E.
Qed.

Lemma no_verdict_challenge_filter (red_team : CritiqueResult) :
  ~ has_verdict_challenge red_team ->
  filter Orchestrator.is_verdict_challenge (challenges red_team) = [].
Proof.
  intro H. destruct (filter _ (challenges red_team)) as [|c l] eqn:E; [reflexivity|].
  exfalso. apply H. exists c.
  assert (Hin : In c (filter Orchestrator.is_verdict_challenge (challenges red_team)))
    by (rewrite E; now left).
  apply filter_In in Hin. destruct Hin as [Hin Hc].
  split; [exact Hin|]. now apply String.eqb_eq.
Qed.

(** The final rule on a preliminary authentic at 0.95 that no verdict
    challenge disputes. *)
Lemma final_verdict_undisputed (cross : CrossReferenceResult) (red_team : CritiqueResult) :
  combined_score cross == 0.95 ->
  final_verdict cross = authentic ->
  ~ has_verdict_challenge red_team ->
  0.75 <= 0.95 + confidence_adjustment red_team ->
  verdict (Orchestrator._final_verdict cross red_team) = authentic
  /\ (hitl_required (Orchestrator._final_verdict cross red_team) = false
      <-> threat_level red_team = low /\ (length (blind_spots red_team) < 2)%nat).
Proof.
  intros Hs Hv Hc Hadj.
  unfold Orchestrator._final_verdict. cbn [verdict hitl_required].
  rewrite (no_verdict_challenge_filter red_team Hc), Hv.
  cbn [RedTeam.is_empty negb andb Verdict_eqb].
  assert (E : Py.leb 0.75 (Orchestrator.adjusted_score cross red_team) = true).
  { apply leb_le. unfold Orchestrator.adjusted_score.
    eapply Qle_trans; [|apply max_ge_r].
    apply min_lower; [discriminate | rewrite Hs; exact Hadj]. }
  rewrite E. cbn [andb Verdict_eqb orb]. split; [reflexivity|].
  destruct (threat_level red_team);
    destruct (Nat.leb_spec 2 (length (blind_spots red_team)));
    cbn [orb]; split; try discriminate; try (intros [? ?]; try discriminate; lia);
    intros _; split; [reflexivity | lia].
Qed.

Lemma lone_forensic_aggregated :
  CrossReference.analyze CrossReference.engine (lone_forensic 0.95)
  = Py.Ok lone_forensic_cross.
Proof. vm_compute. reflexivity. Qed.

Lemma lone_forensic_false_positives (pil : Pillow) (file_bytes : bytes) :
  RedTeam._check_false_positives pil (lone_forensic 0.95) file_bytes = ([], None).
Proof. reflexivity. Qed.

Lemma lone_forensic_blind_spots_eq (file_bytes : bytes) :
  RedTeam._check_false_negatives (lone_forensic 0.95) file_bytes = lone_forensic_blind_spots.
Proof. vm_compute. reflexivity. Qed.

Lemma lone_forensic_consistency :
  RedTeam._check_cross_consistency (lone_forensic 0.95)
  = ([plain_challenge "cross_disagreement" "medium"], None).
Proof. vm_compute. reflexivity. Qed.

Lemma lone_forensic_meta :
  RedTeam._challenge_verdict lone_forensic_cross (lone_forensic 0.95) = [].
Proof. vm_compute. reflexivity. Qed.

(** The edge-case module never emits a verdict challenge. *)
Lemma edge_cases_shape (pil : Pillow) (file_bytes : bytes) (results : list AgentResult) :
  let edge := fst (RedTeam._check_edge_cases pil file_bytes results) in
  Forall (fun c => c_type c <> "verdict_challenge") edge.
Proof.
  unfold RedTeam._check_edge_cases.
  destruct (Image_open pil file_bytes) as [img|e]; cbn [fst].
  - destruct ((width img <? 200)%Z || (height img <? 200)%Z);
    destruct (Py.mem (mode img) ["L"; "LA"]); cbn [app];
    repeat constructor; discriminate.
  - repeat constructor; discriminate.
Qed.

Lemma lone_forensic_critique (host : Host) (now : string) (cls : RedTeamAgent_class)
      (self : RedTeamAgent) (file_bytes : bytes) (filename : string) :
  let red_team := fst (RedTeam.challenge host now cls self file_bytes filename
                                         (lone_forensic 0.95) lone_forensic_cross) in
  ~ has_verdict_challenge red_team
  /\ confidence_adjustment red_team == 0
  /\ blind_spots red_team = lone_forensic_blind_spots
  /\ threat_level red_team <> low.
Proof.
  cbv zeta.
  cbn [RedTeam.challenge fst challenges confidence_adjustment blind_spots threat_level].
  rewrite lone_forensic_false_positives, lone_forensic_consistency, lone_forensic_meta,
    lone_forensic_blind_spots_eq.
  cbn [fst snd app RedTeam.proposed].
  pose proof (edge_cases_shape (pillow host) file_bytes (lone_forensic 0.95)) as He.
  cbv zeta in He.
  set (edge := fst (RedTeam._check_edge_cases (pillow host) file_bytes (lone_forensic 0.95)))
    in *.
  rewrite app_nil_r.
  split; [|split; [|split]].
  - intros (c & [<- | Hin] & Hc); [discriminate|].
    rewrite Forall_forall in He. exact (He c Hin Hc).
  - reflexivity.
  - reflexivity.
  - unfold RedTeam._calc_threat_level.
    destruct (2 <=? RedTeam.count_high _)%nat; cbn [orb]; [discriminate|].
    destruct (5 <=? _)%nat; cbn [orb]; [discriminate|].
    destruct (1 <=? RedTeam.count_high _)%nat; cbn [orb]; [discriminate|].
    destruct (Nat.leb_spec 3 (length (plain_challenge "cross_disagreement" "medium" :: edge)
                              + length lone_forensic_blind_spots)) as [_|H];
      [discriminate|].
    cbn [length lone_forensic_blind_spots] in H. lia.
Qed.

(** C1, as the sources decide it: on the lone forensic opinion of confidence
    0.95 without anomalies the aggregator returns the score 0.95 and the
    verdict authentic.  With no verdict challenge, and an adjustment that
    keeps the score at 0.75 or more, the final verdict is authentic, and
    human review is waived exactly when the threat level is low and fewer
    than two blind spots were reported.  On this very run the critique
    engine raises no verdict challenge and proposes no adjustment but
    reports three blind spots, so its threat level is never low: the run
    ends authentic with human review required. *)
Theorem C1_lone_forensic_run :
  (exists cross,
     CrossReference.analyze CrossReference.engine (lone_forensic 0.95) = Py.Ok cross
     /\ combined_score cross == 0.95
     /\ final_verdict cross = authentic)
  /\ (forall cross red_team,
        combined_score cross == 0.95 ->
        final_verdict cross = authentic ->
        ~ has_verdict_challenge red_team ->
        0.75 <= 0.95 + confidence_adjustment red_team ->
        verdict (Orchestrator._final_verdict cross red_team) = authentic
        /\ (hitl_required (Orchestrator._final_verdict cross red_team) = false
            <-> threat_level red_team = low /\ (length (blind_spots red_team) < 2)%nat))
  /\ (forall host now cls self file_bytes filename,
        exists out cls',
          Orchestrator.adjudicate host now cls self file_bytes filename (lone_forensic 0.95)
          = Py.Ok (out, cls')
          /\ ~ has_verdict_challenge (out_red_team out)
          /\ confidence_adjustment (out_red_team out) == 0
          /\ length (blind_spots (out_red_team out)) = 3%nat
          /\ threat_level (out_red_team out) <> low
          /\ out_verdict out = authentic
          /\ out_hitl_required out = true).
Proof.
  split; [|split].
  - exists lone_forensic_cross. split; [apply lone_forensic_aggregated|].
    split; reflexivity.
  - intros. now apply final_verdict_undisputed.
  - intros host now cls self file_bytes filename.
    unfold Orchestrator.adjudicate. rewrite lone_forensic_aggregated. cbn [Py.bind].
    pose proof (lone_forensic_critique host now cls self file_bytes filename) as Hc.
    cbv zeta in Hc.
    destruct (RedTeam.challenge host now cls self file_bytes filename
                                (lone_forensic 0.95) lone_forensic_cross) as [rt cls'].
    cbn [fst] in Hc. destruct Hc as (Hvc & Hadj & Hbs & Hthreat).
    eexists. exists cls'. split; [reflexivity|].
    cbn [out_red_team out_verdict out_hitl_required].
    split; [exact Hvc|]. split; [exact Hadj|].
    split; [rewrite Hbs; reflexivity|]. split; [exact Hthreat|].
    destruct (final_verdict_undisputed lone_forensic_cross rt) as [Hv Hh].
    + reflexivity.
    + reflexivity.
    + exact Hvc.
    + rewrite Hadj. discriminate.
    + split; [exact Hv|].
      destruct (hitl_required (Orchestrator._final_verdict lone_forensic_cross rt));
        [reflexivity|].
      destruct (proj1 Hh eq_refl) as [Hlow _]. contradiction.
Qed.

Lemma C1_lone_forensic_run_witness :
  verdict (Orchestrator._final_verdict lone_forensic_cross two_blind_spots_critique)
  = authentic
  /\ (hitl_required (Orchestrator._final_verdict lone_forensic_cross two_blind_spots_critique)
      = false
      <-> threat_level two_blind_spots_critique = low
          /\ (length (blind_spots two_blind_spots_critique) < 2)%nat).
Proof.
  apply (proj1 (proj2 C1_lone_forensic_run) lone_forensic_cross two_blind_spots_critique).
  - reflexivity.
  - reflexivity.
  - intros (c & Hin & _). destruct Hin.
  - vm_compute. discriminate.
Defined.

(** The claim as the specification words it fails on the final rule: the
    aggregator's result for the lone forensic opinion, met by a critique
    with no verdict challenge and threat level low but two blind spots,
    still requires human review. *)
Lemma C1_counterexample :
  CrossReference.analyze CrossReference.engine (lone_forensic 0.95)
  = Py.Ok lone_forensic_cross
  /\ challenges two_blind_spots_critique = []
  /\ threat_level two_blind_spots_critique = low
  /\ RedTeam._calc_threat_level (challenges two_blind_spots_critique)
                                (blind_spots two_blind_spots_critique) = low
  /\ verdict (Orchestrator._final_verdict lone_forensic_cross two_blind_spots_critique)
     = authentic
  /\ hitl_required (Orchestrator._final_verdict lone_forensic_cross two_blind_spots_critique)
     = true.
Proof.
  split; [apply lone_forensic_aggregated|].
  repeat split; vm_compute; reflexivity.
Qed.

(** A whole run on a file that Pillow rejects, with the vision providers
    down: the degraded forensic opinion alone, an inconclusive verdict and
    human review. *)
Example undecodable_image_run :
  exists out cls',
    Orchestrator.analyze host_rejecting vision_down "2024-01-01T00:00:00" no_log
                         (RedTeamAgent_instance 0) [] "noise.bin" "image"
    = Py.Ok (out, cls')
    /\ map agent_type (out_agent_results out) = ["forensic_technical"]
    /\ combined_score (out_cross_reference out) == 0.5
    /\ out_verdict out = inconclusive
    /\ out_hitl_required out = true
    /\ length (learning_log cls') = 1%nat.
Proof.
  eexists. eexists. split; [vm_compute; reflexivity|].
  repeat split.
Qed.

(** * Further properties of the sources *)

(** ** cross_reference.py *)

Lemma Ok_inj {A} (a b : A) : Py.Ok a = Py.Ok b -> a = b.
Proof. now intros [= ->]. Qed.

Lemma collect_anomalies_flat (agent_results : list AgentResult) :
  forall acc,
  CrossReference.collect_anomalies agent_results acc
  = acc ++ flat_map anomalies agent_results.
Proof.
  induction agent_results as [|r rest IH]; intro acc; cbn.
  - now rewrite app_nil_r.
  - now rewrite IH, app_assoc.
Qed.

Lemma analyze_from_ok (agent_results : list AgentResult) (r : CrossReferenceResult) :
  agent_results <> [] ->
  CrossReference.analyze CrossReference.engine agent_results = Py.Ok r ->
  final_verdict r
  = CrossReference.decide_verdict CrossReference.engine (high_count_of agent_results)
                                  (combined_score r).
Proof.
  intros Hne Hr.
  pose proof (combined_of_engine agent_results Hne) as Hc.
  pose proof (analyze_nonempty CrossReference.engine agent_results Hne) as Ha.
  destruct (CrossReference.accumulate CrossReference.engine agent_results 0 0) as [ws tw].
  destruct Hc as [_ Hc]. destruct (Ha _ Hc) as (r' & Hr' & Hs & Hv).
  rewrite Hr in Hr'. injection Hr' as <-.
  rewrite high_count_collect in Hv. now rewrite Hv, Hs.
Qed.

Lemma verdict_requirements_fact (agent_results : list AgentResult) (r : CrossReferenceResult) :
  CrossReference.analyze CrossReference.engine agent_results = Py.Ok r ->
  (final_verdict r = authentic ->
   high_count_of agent_results = 0%nat /\ 0.75 <= combined_score r)
  /\ (final_verdict r = forged -> (2 <= high_count_of agent_results)%nat).
Proof.
  intro Hr. destruct agent_results as [|r0 rest].
  - cbn in Hr. injection Hr as <-. split; discriminate.
  - pose proof (analyze_from_ok (r0 :: rest) r ltac:(discriminate) Hr) as Hv.
    destruct (decide_verdict_rule (high_count_of (r0 :: rest)) (combined_score r))
      as (F & A & I).
    cbv zeta in F, A, I. rewrite <- Hv in F, A, I.
    set (h := high_count_of (r0 :: rest)) in *.
    split; intro Hx.
    + assert (Hnf : ~ ((3 <= h)%nat \/ (2 <= h)%nat /\ combined_score r < 0.5)).
      { intro Hf. specialize (F Hf). congruence. }
      destruct (Nat.eq_dec h 0) as [E0|E0];
        destruct (Qlt_le_dec (combined_score r) 0.75) as [Hs|Hs].
      * exfalso. assert (Hi : final_verdict r = inconclusive).
        { apply I; [exact Hnf|]. intros [Hge _]. lra. }
        congruence.
      * split; assumption.
      * exfalso. assert (Hi : final_verdict r = inconclusive).
        { apply I; [exact Hnf|]. intros [_ He]. contradiction. }
        congruence.
      * exfalso. assert (Hi : final_verdict r = inconclusive).
        { apply I; [exact Hnf|]. intros [_ He]. contradiction. }
        congruence.
    + destruct (le_lt_dec 2 h) as [H2|H2]; [exact H2|]. exfalso.
      assert (Hnf : ~ ((3 <= h)%nat \/ (2 <= h)%nat /\ combined_score r < 0.5)).
      { intros [H3 | [H2' _]]; lia. }
      destruct (Nat.eq_dec h 0) as [E0|E0];
        destruct (Qlt_le_dec (combined_score r) 0.75) as [Hs|Hs].
      * assert (Hi : final_verdict r = inconclusive).
        { apply I; [exact Hnf|]. intros [Hge _]. lra. }
        congruence.
      * assert (Hi : final_verdict r = authentic) by (apply A; [exact Hnf | now split]).
        congruence.
      * assert (Hi : final_verdict r = inconclusive).
        { apply I; [exact Hnf|]. intros [_ He]. contradiction. }
        congruence.
      * assert (Hi : final_verdict r = inconclusive).
        { apply I; [exact Hnf|]. intros [_ He]. contradiction. }
        congruence.
Qed.

(** The aggregator calls a set authentic only without any high-severity
    anomaly and with a score of at least 0.75, and forged only with at least
    two high-severity anomalies. *)
Theorem verdict_requirements (agent_results : list AgentResult) (r : CrossReferenceResult) :
  CrossReference.analyze CrossReference.engine agent_results = Py.Ok r ->
  (final_verdict r = authentic ->
   high_count_of agent_results = 0%nat /\ 0.75 <= combined_score r)
  /\ (final_verdict r = forged -> (2 <= high_count_of agent_results)%nat).
Proof. exact (verdict_requirements_fact agent_results r). Qed.

Lemma verdict_requirements_witness :
  (final_verdict lone_forensic_cross = authentic ->
   high_count_of (lone_forensic 0.95) = 0%nat /\ 0.75 <= combined_score lone_forensic_cross)
  /\ (final_verdict lone_forensic_cross = forged ->
      (2 <= high_count_of (lone_forensic 0.95))%nat).
Proof.
  apply (verdict_requirements (lone_forensic 0.95) lone_forensic_cross).
  vm_compute. reflexivity.
Defined.

Lemma severity_partition (l : list Anomaly) :
  length l
  = (CrossReference.count_severity "high" l + CrossReference.count_severity "medium" l
     + other_count l)%nat.
Proof.
  unfold CrossReference.count_severity, other_count.
  induction l as [|a l IH]; [reflexivity|]. cbn [filter length].
  destruct (String.eqb_spec (a_severity a) "high") as [Eh|Eh].
  - rewrite Eh. cbn. lia.
  - destruct (String.eqb_spec (a_severity a) "medium") as [Em|Em]; cbn [negb andb length]; lia.
Qed.

(** On a non-empty opinion set the result carries the anomaly summary: the
    total is the number of anomalies of all opinions, and the count reported
    as low is the number of anomalies that are neither high nor medium, so
    the three counts add up to the total and none is negative. *)
Theorem anomaly_summary_counts (agent_results : list AgentResult) (r : CrossReferenceResult) :
  agent_results <> [] ->
  CrossReference.analyze CrossReference.engine agent_results = Py.Ok r ->
  exists s,
    anomaly_summary r = Some s
    /\ s_total s = length (flat_map anomalies agent_results)
    /\ s_high s = high_count_of agent_results
    /\ s_medium s = CrossReference.count_severity "medium" (flat_map anomalies agent_results)
    /\ s_low s = Z.of_nat (other_count (flat_map anomalies agent_results))
    /\ (Z.of_nat (s_total s) = Z.of_nat (s_high s) + Z.of_nat (s_medium s) + s_low s)%Z.
Proof.
  intros Hne Hr.
  pose proof (combined_of_engine agent_results Hne) as Hc.
  destruct agent_results as [|r0 rest]; [congruence|].
  unfold CrossReference.analyze in Hr.
  destruct (CrossReference.accumulate CrossReference.engine (r0 :: rest) 0 0) as [ws tw].
  destruct Hc as [_ Hc]. rewrite Hc in Hr. cbn [Py.bind] in Hr.
  injection Hr as <-. cbn [anomaly_summary].
  rewrite !collect_anomalies_flat. cbn [app].
  change (anomalies r0 ++ flat_map anomalies rest) with (flat_map anomalies (r0 :: rest)).
  set (all := flat_map anomalies (r0 :: rest)).
  eexists. split; [reflexivity|]. cbn [s_total s_high s_medium s_low].
  assert (Hh : CrossReference.count_severity "high" all = high_count_of (r0 :: rest)).
  { rewrite <- high_count_collect, collect_anomalies_flat. reflexivity. }
  pose proof (severity_partition all) as Hp.
  repeat split; try assumption; try reflexivity; lia.
Qed.

Lemma anomaly_summary_counts_witness :
  exists s,
    anomaly_summary lone_forensic_cross = Some s
    /\ s_total s = length (flat_map anomalies (lone_forensic 0.95))
    /\ s_high s = high_count_of (lone_forensic 0.95)
    /\ s_medium s
       = CrossReference.count_severity "medium" (flat_map anomalies (lone_forensic 0.95))
    /\ s_low s = Z.of_nat (other_count (flat_map anomalies (lone_forensic 0.95)))
    /\ (Z.of_nat (s_total s) = Z.of_nat (s_high s) + Z.of_nat (s_medium s) + s_low s)%Z.
Proof.
  apply (anomaly_summary_counts (lone_forensic 0.95) lone_forensic_cross).
  - discriminate.
  - vm_compute. reflexivity.
Defined.




(** ** forensic_agent.py *)

Lemma sum_app (l1 l2 : list Q) : Py.sum (l1 ++ l2) == Py.sum l1 + Py.sum l2.
Proof.
  induction l1 as [|x l1 IH]; cbn [app].
  - unfold Py.sum at 2. cbn. ring.
  - rewrite !sum_cons, IH. ring.
Qed.

Lemma severity_score_hundredths (sev : string) :
  exists k : Z, (0 <= k)%Z
    /\ Py.dict_get ForensicTechnicalAgent.severity_scores sev 0 == k # 100.
Proof.
  unfold ForensicTechnicalAgent.severity_scores. cbn [Py.dict_get].
  destruct (String.eqb "high" sev); [exists 15%Z; split; [lia | reflexivity]|].
  destruct (String.eqb "medium" sev); [exists 8%Z; split; [lia | reflexivity]|].
  destruct (String.eqb "low" sev); [exists 3%Z; split; [lia | reflexivity]|].
  exists 0%Z. split; [lia | reflexivity].
Qed.

Lemma total_penalty_hundredths (l : list Anomaly) :
  exists k : Z, (0 <= k)%Z /\ total_penalty l == k # 100.
Proof.
  unfold total_penalty. induction l as [|a l (k & Hk & IH)]; cbn [map].
  - exists 0%Z. split; [lia | reflexivity].
  - destruct (severity_score_hundredths (a_severity a)) as (k0 & Hk0 & E0).
    exists (k0 + k)%Z. split; [lia|].
    rewrite sum_cons, IH, E0. unfold Qeq, Qplus. cbn [Qnum Qden]. lia.
Qed.

Lemma total_penalty_nonneg (l : list Anomaly) : 0 <= total_penalty l.
Proof.
  destruct (total_penalty_hundredths l) as (k & Hk & E). rewrite E.
  unfold Qle. cbn [Qnum Qden]. lia.
Qed.

Lemma max_compat (a x y : Q) : x == y -> Py.max a x == Py.max a y.
Proof.
  intro E. unfold Py.max.
  destruct (Py.ltb a x) eqn:Ex; destruct (Py.ltb a y) eqn:Ey;
    try (apply ltb_lt in Ex); try (apply ltb_ge in Ex);
    try (apply ltb_lt in Ey); try (apply ltb_ge in Ey).
  - exact E.
  - rewrite E in Ex. lra.
  - rewrite E in Ex. lra.
  - reflexivity.
Qed.

Lemma max_monotone (a x y : Q) : x <= y -> Py.max a x <= Py.max a y.
Proof.
  intro H. unfold Py.max.
  destruct (Py.ltb a x) eqn:Ex; destruct (Py.ltb a y) eqn:Ey;
    try (apply ltb_lt in Ex); try (apply ltb_ge in Ex);
    try (apply ltb_lt in Ey); try (apply ltb_ge in Ey); lra.
Qed.

(** The confidence of a non-empty list in closed form, whatever the
    severities: rounding to two digits changes nothing. *)
Lemma calculate_confidence_closed (l : list Anomaly) :
  l <> [] ->
  ForensicTechnicalAgent._calculate_confidence l == Py.max 0.15 (0.92 - total_penalty l).
Proof.
  intro Hne. destruct l as [|a l]; [congruence|].
  unfold ForensicTechnicalAgent._calculate_confidence.
  fold (total_penalty (a :: l)).
  destruct (total_penalty_hundredths (a :: l)) as (k & _ & E).
  apply max_compat.
  assert (E2 : 0.92 - total_penalty (a :: l) == (92 - k) # Py.pow10 2).
  { rewrite E. change (Py.pow10 2) with 100%positive.
    unfold Qeq, Qminus, Qplus, Qopp. cbn [Qnum Qden]. lia. }
  rewrite (round_exact _ 2 (92 - k) E2). symmetry. exact E2.
Qed.

Lemma calculate_confidence_range (l : list Anomaly) :
  0.15 <= ForensicTechnicalAgent._calculate_confidence l
  /\ ForensicTechnicalAgent._calculate_confidence l <= 0.92.
Proof.
  destruct l as [|a l].
  - cbn. split; discriminate.
  - rewrite (calculate_confidence_closed (a :: l)) by discriminate. split.
    + apply max_lower.
    + apply max_upper; [discriminate|].
      pose proof (total_penalty_nonneg (a :: l)). lra.
Qed.

(** The scoring law keeps every confidence in [0.15, 0.92], whatever the
    severities, and further anomalies never raise it. *)
Theorem confidence_bounded_and_antitone (l extra : list Anomaly) :
  0.15 <= ForensicTechnicalAgent._calculate_confidence l
  /\ ForensicTechnicalAgent._calculate_confidence l <= 0.92
  /\ ForensicTechnicalAgent._calculate_confidence (l ++ extra)
     <= ForensicTechnicalAgent._calculate_confidence l.
Proof.
  destruct (calculate_confidence_range l) as [H1 H2].
  split; [exact H1|]. split; [exact H2|].
  destruct extra as [|e extra]; [rewrite app_nil_r; apply Qle_refl|].
  destruct l as [|a l].
  - cbn [app]. apply (calculate_confidence_range (e :: extra)).
  - rewrite (calculate_confidence_closed ((a :: l) ++ e :: extra)) by discriminate.
    rewrite (calculate_confidence_closed (a :: l)) by discriminate.
    apply max_monotone.
    assert (E : total_penalty ((a :: l) ++ e :: extra)
                == total_penalty (a :: l) + total_penalty (e :: extra)).
    { unfold total_penalty. rewrite map_app. apply sum_app. }
    rewrite E. pose proof (total_penalty_nonneg (e :: extra)). lra.
Qed.

Lemma known_penalty_at_least (a : Anomaly) :
  known_severity a ->
  0.03 <= Py.dict_get ForensicTechnicalAgent.severity_scores (a_severity a) 0.
Proof.
  intros [H | [H | H]]; rewrite H; cbn; discriminate.
Qed.

Lemma forensic_opinion_shape_fact (pil : Pillow) (file_bytes : bytes) (filename : string)
        (r : AgentResult) :
  ForensicTechnicalAgent.analyze pil file_bytes filename = Py.Ok r ->
  agent_type r = "forensic_technical"
  /\ 0.15 <= confidence_score r /\ confidence_score r <= 0.92
  /\ Forall known_severity (anomalies r)
  /\ (confidence_score r == 0.92 <-> anomalies r = []).
Proof.
  intro Hr. destruct (Image_open pil file_bytes) as [img|e] eqn:Ho.
  - destruct (analyze_scores_by_law pil file_bytes filename img r Ho Hr) as [Hk Hc].
    assert (Ht : agent_type r = "forensic_technical").
    { unfold ForensicTechnicalAgent.analyze in Hr. rewrite Ho in Hr.
      destruct (ForensicTechnicalAgent._analyze_exif img); cbn [Py.bind] in Hr;
        [|discriminate].
      apply Ok_inj in Hr. subst r. reflexivity. }
    split; [exact Ht|]. rewrite Hc.
    destruct (calculate_confidence_range (anomalies r)) as [H1 H2].
    split; [exact H1|]. split; [exact H2|]. split; [exact Hk|].
    split.
    + intro E. destruct (anomalies r) as [|a l] eqn:Ea; [reflexivity|]. exfalso.
      rewrite (calculate_confidence_closed (a :: l)) in E by discriminate.
      assert (Hp : 0.03 <= total_penalty (a :: l)).
      { unfold total_penalty. cbn [map]. rewrite sum_cons.
        pose proof (known_penalty_at_least a (Forall_inv Hk)).
        pose proof (total_penalty_nonneg l) as Hn. unfold total_penalty in Hn. lra. }
      assert (Hm : Py.max 0.15 (0.92 - total_penalty (a :: l)) <= 0.89).
      { apply max_upper; [discriminate | lra]. }
      lra.
    + intros ->. reflexivity.
  - rewrite (analyze_undecodable pil file_bytes filename e Ho) in Hr.
    apply Ok_inj in Hr. subst r. cbn.
    split; [reflexivity|]. split; [discriminate|]. split; [discriminate|].
    split; [repeat constructor; right; left; reflexivity|].
    split; [intro E; discriminate E | discriminate].
Qed.

(** What every opinion of the signal analyzer looks like: its tag, a
    confidence in [0.15, 0.92], the three known severities, and the full
    confidence 0.92 exactly when it reports no anomaly. *)
Theorem forensic_opinion_shape (pil : Pillow) (file_bytes : bytes) (filename : string)
        (r : AgentResult) :
  ForensicTechnicalAgent.analyze pil file_bytes filename = Py.Ok r ->
  agent_type r = "forensic_technical"
  /\ 0.15 <= confidence_score r /\ confidence_score r <= 0.92
  /\ Forall known_severity (anomalies r)
  /\ (confidence_score r == 0.92 <-> anomalies r = []).
Proof. exact (forensic_opinion_shape_fact pil file_bytes filename r). Qed.

Lemma forensic_opinion_shape_witness :
  agent_type (ForensicTechnicalAgent._result 0.5 [ForensicTechnicalAgent._anomaly "format" "medium" None])
  = "forensic_technical"
  /\ 0.15 <= 0.5 /\ 0.5 <= 0.92
  /\ Forall known_severity [ForensicTechnicalAgent._anomaly "format" "medium" None]
  /\ (0.5 == 0.92 <-> [ForensicTechnicalAgent._anomaly "format" "medium" None] = []).
Proof.
  apply (forensic_opinion_shape rejects_all [] "noise.bin"
           (ForensicTechnicalAgent._result 0.5
              [ForensicTechnicalAgent._anomaly "format" "medium" None])).
  reflexivity.
Defined.

(** The table of generative-model sizes is closed under exchanging width
    and height.  An image is therefore flagged by the dimension check
    exactly when the same image turned by a quarter is, and the anomaly
    reported has the same type, severity and location for both.  (The
    description of the anomaly and the findings quote width and height, and
    so differ between the two.) *)
Theorem dimensions_check_symmetric (img img' : Image) :
  width img' = height img -> height img' = width img ->
  (ForensicTechnicalAgent._analyze_dimensions img' = []
   <-> ForensicTechnicalAgent._analyze_dimensions img = [])
  /\ map (fun a => (a_type a, a_severity a, a_location a))
         (ForensicTechnicalAgent._analyze_dimensions img')
     = map (fun a => (a_type a, a_severity a, a_location a))
           (ForensicTechnicalAgent._analyze_dimensions img).
Proof.
  intros Hw Hh.
  assert (E : ForensicTechnicalAgent._analyze_dimensions img'
              = ForensicTechnicalAgent._analyze_dimensions img).
  { unfold ForensicTechnicalAgent._analyze_dimensions. rewrite Hw, Hh.
    unfold ForensicTechnicalAgent.ai_dimensions. cbn [existsb fst snd].
    destruct (512 =? width img)%Z, (768 =? width img)%Z, (1024 =? width img)%Z,
             (1792 =? width img)%Z,
             (512 =? height img)%Z, (768 =? height img)%Z, (1024 =? height img)%Z,
             (1792 =? height img)%Z; reflexivity. }
  rewrite E. split; [tauto | reflexivity].
Qed.

Lemma dimensions_check_symmetric_witness :
  width landscape_image = height portrait_image
  /\ map (fun a => (a_type a, a_severity a, a_location a))
         (ForensicTechnicalAgent._analyze_dimensions landscape_image)
     = map (fun a => (a_type a, a_severity a, a_location a))
           (ForensicTechnicalAgent._analyze_dimensions portrait_image).
Proof.
  split; [reflexivity|].
  apply (dimensions_check_symmetric portrait_image landscape_image); reflexivity.
Defined.

Lemma region_anomalies_inside (means : list Q) :
  (length means <= 16)%nat ->
  Forall located_inside (ForensicTechnicalAgent.region_anomalies means).
Proof.
  intro Hlen. unfold ForensicTechnicalAgent.region_anomalies.
  apply Forall_forall. intros a Ha.
  apply in_flat_map in Ha. destruct Ha as ([i m] & Hin & Ha).
  apply in_combine_l in Hin. apply in_seq in Hin.
  destruct (Py.ltb _ m && Py.ltb 15 m); [|destruct Ha].
  destruct Ha as [<- | []].
  unfold located_inside, percent. cbn [a_location ForensicTechnicalAgent._anomaly].
  assert (Hr : (i / 4 < 4)%nat).
  { apply Nat.Div0.div_lt_upper_bound. lia. }
  assert (Hc : (i mod 4 < 4)%nat) by (apply Nat.mod_upper_bound; lia).
  lia.
Qed.

Ltac inside_now :=
  repeat first [ apply Forall_nil
               | apply Forall_cons; [unfold located_inside, percent; cbn; lia|] ].

(** Every location that the signal analyzer reports lies inside the image,
    in percent of its width and height, given the sixteen region means of
    the 4x4 grid. *)
Theorem forensic_locations_inside (pil : Pillow) (file_bytes : bytes) (filename : string)
        (r : AgentResult) :
  (forall img stats means,
     Image_open pil file_bytes = Py.Ok img -> ela img = Some stats ->
     region_means stats = Some means -> length means = 16%nat) ->
  ForensicTechnicalAgent.analyze pil file_bytes filename = Py.Ok r ->
  Forall located_inside (anomalies r).
Proof.
  intros Hgrid Hr. unfold ForensicTechnicalAgent.analyze in Hr.
  destruct (Image_open pil file_bytes) as [img|e] eqn:Ho.
  - destruct (ForensicTechnicalAgent._analyze_exif img) as [exif_anomalies|e] eqn:He;
      cbn [Py.bind] in Hr; [|discriminate].
    apply Ok_inj in Hr. subst r. cbn [anomalies ForensicTechnicalAgent._result].
    apply Forall_app. split; [|apply Forall_app; split; [|apply Forall_app; split]].
    + unfold ForensicTechnicalAgent._analyze_exif in He.
      destruct (if has_getexif img then _ else _) as [exif_data|e]; cbn [Py.bind] in He;
        [|discriminate].
      destruct exif_data as [|kv rest]; apply Ok_inj in He; subst exif_anomalies.
      * inside_now.
      * apply Forall_app. split;
          match goal with
          | |- context [if ?b then _ else _] => destruct b
          end; inside_now.
    + unfold ForensicTechnicalAgent._analyze_ela.
      destruct (ela img) as [stats|] eqn:Hs; [|constructor].
      apply Forall_app. split.
      * destruct (region_means stats) as [means|] eqn:Hm; [|constructor].
        apply region_anomalies_inside.
        rewrite (Hgrid img stats means eq_refl Hs Hm). lia.
      * destruct (Py.ltb 20 (std_error stats)); inside_now.
    + unfold ForensicTechnicalAgent._analyze_compression. apply Forall_app. split.
      * destruct (format_is img "JPEG"); [|constructor].
        destruct (quantization img) as [|t ts]; [constructor|].
        destruct (ForensicTechnicalAgent.q_std_exceeds_25 t); inside_now.
      * destruct (0 <? width img * height img)%Z; [|constructor].
        destruct (Py.ltb _ 0.1 && format_is img "JPEG"); inside_now.
    + unfold ForensicTechnicalAgent._analyze_dimensions.
      destruct (existsb _ _); inside_now.
  - apply Ok_inj in Hr. subst r. cbn. constructor; [exact I | constructor].
Qed.

Lemma forensic_locations_inside_witness :
  Forall located_inside
         (ForensicTechnicalAgent.region_anomalies six_hot_regions
          ++ [ForensicTechnicalAgent._anomaly "ELA כללי" "medium" (Some (50, 50)%Z)]).
Proof.
  assert (H : Forall located_inside
                (anomalies
                   (ForensicTechnicalAgent._result
                      (ForensicTechnicalAgent._calculate_confidence
                         ([ForensicTechnicalAgent._anomaly "מטאדטה" "medium" (Some (90, 10)%Z)]
                          ++ ForensicTechnicalAgent._analyze_ela hot_regions_image
                          ++ [] ++ []))
                      ([ForensicTechnicalAgent._anomaly "מטאדטה" "medium" (Some (90, 10)%Z)]
                       ++ ForensicTechnicalAgent._analyze_ela hot_regions_image
                       ++ [] ++ [])))).
  { apply (forensic_locations_inside (opens_as hot_regions_image) [] "scan.png").
    - intros img stats means Ho Hs Hm.
      injection Ho as <-. injection Hs as <-. injection Hm as <-. reflexivity.
    - reflexivity. }
  cbn [anomalies ForensicTechnicalAgent._result app] in H.
  apply Forall_inv_tail in H. rewrite app_nil_r in H. exact H.
Defined.

Lemma flagged_regions_length (t : Q) (l : list Q) :
  forall start,
  (length (flat_map (fun im : nat * Q =>
             let '(i, m) := im in
             let row := Z.of_nat (i / 4) in
             let col := Z.of_nat (i mod 4) in
             if Py.ltb t m && Py.ltb 15 m
             then [ForensicTechnicalAgent._anomaly "ELA" "high"
                     (Some (col * 25 + 12, row * 25 + 12)%Z)]
             else []) (combine (seq start (length l)) l))
   <= count_above t l)%nat.
Proof.
  unfold count_above.
  induction l as [|m l IH]; intro start; cbn [length seq combine flat_map filter].
  - lia.
  - specialize (IH (S start)). rewrite length_app.
    destruct (Py.ltb t m); cbn [andb length].
    + destruct (Py.ltb 15 m); cbn [length]; lia.
    + lia.
Qed.

Lemma sum_nonneg (l : list Q) : Forall (fun m => 0 <= m) l -> 0 <= Py.sum l.
Proof.
  induction 1 as [|m l Hm _ IH].
  - discriminate.
  - rewrite sum_cons. lra.
Qed.

(** Entries above a non-negative threshold weigh more than the threshold
    each, so their number times the threshold stays under the sum. *)
Lemma count_above_weight (t : Q) (l : list Q) :
  0 <= t -> Forall (fun m => 0 <= m) l ->
  inject_Z (Z.of_nat (count_above t l)) * t <= Py.sum l
  /\ ((1 <= count_above t l)%nat ->
      inject_Z (Z.of_nat (count_above t l)) * t < Py.sum l).
Proof.
  intros Ht. unfold count_above. induction 1 as [|m l Hm _ [IH1 IH2]]; cbn [filter].
  - split; [change (0 * t <= 0); lra | cbn; lia].
  - rewrite sum_cons. destruct (Py.ltb t m) eqn:E.
    + apply ltb_lt in E. cbn [length].
      rewrite Nat2Z.inj_succ. unfold Z.succ. rewrite inject_Z_plus.
      change (inject_Z 1) with 1.
      split; [|intros _]; lra.
    + split; [lra|]. intro H1. specialize (IH2 H1). lra.
Qed.

Lemma hot_regions_at_most_six (means : list Q) :
  length means = 16%nat -> Forall (fun m => 0 <= m) means ->
  (count_above (ForensicTechnicalAgent.mean means * 2.5) means <= 6)%nat.
Proof.
  intros Hlen Hpos.
  pose proof (sum_nonneg means Hpos) as Hsum.
  unfold ForensicTechnicalAgent.mean. rewrite Hlen.
  set (t := Py.sum means / inject_Z (Z.of_nat 16) * 2.5).
  assert (Et : t == Py.sum means * (5 # 32)).
  { subst t. change (inject_Z (Z.of_nat 16)) with (16 # 1). field. }
  clearbody t.
  assert (Ht : 0 <= t) by (rewrite Et; lra).
  destruct (count_above_weight t means Ht Hpos) as [_ Hstrict].
  destruct (le_lt_dec (count_above t means) 6) as [H6|H7]; [exact H6|]. exfalso.
  specialize (Hstrict ltac:(lia)).
  assert (Hc : 7 <= inject_Z (Z.of_nat (count_above t means))).
  { change 7 with (inject_Z 7). rewrite <- Zle_Qle. lia. }
  assert (H7t : 7 * t <= inject_Z (Z.of_nat (count_above t means)) * t).
  { apply Qmult_le_compat_r; assumption. }
  set (p := inject_Z (Z.of_nat (count_above t means)) * t) in *. clearbody p.
  set (total := Py.sum means) in *. clearbody total.
  lra.
Qed.

(** The error-level pass flags at most six of the sixteen regions, since a
    flagged region must exceed 2.5 times the mean of all of them; with the
    one anomaly for a high overall deviation it emits at most seven. *)
Theorem ela_emits_at_most_seven (img : Image) (stats : ElaStats) (means : list Q) :
  ela img = Some stats -> region_means stats = Some means ->
  length means = 16%nat -> Forall (fun m => 0 <= m) means ->
  (length (ForensicTechnicalAgent.region_anomalies means) <= 6)%nat
  /\ (length (ForensicTechnicalAgent._analyze_ela img) <= 7)%nat.
Proof.
  intros Hs Hm Hlen Hpos.
  assert (H6 : (length (ForensicTechnicalAgent.region_anomalies means) <= 6)%nat).
  { unfold ForensicTechnicalAgent.region_anomalies.
    eapply Nat.le_trans; [apply flagged_regions_length|].
    apply hot_regions_at_most_six; assumption. }
  split; [exact H6|].
  unfold ForensicTechnicalAgent._analyze_ela. rewrite Hs, Hm, length_app.
  destruct (Py.ltb 20 (std_error stats)); cbn [length]; lia.
Qed.

Lemma ela_emits_at_most_seven_witness :
  (length (ForensicTechnicalAgent.region_anomalies six_hot_regions) <= 6)%nat
  /\ (length (ForensicTechnicalAgent._analyze_ela hot_regions_image) <= 7)%nat.
Proof.
  apply (ela_emits_at_most_seven hot_regions_image
           {| std_error := 30; region_means := Some six_hot_regions |} six_hot_regions).
  - reflexivity.
  - reflexivity.
  - reflexivity.
  - unfold six_hot_regions. repeat constructor; discriminate.
Defined.

Example six_regions_can_be_flagged :
  length (ForensicTechnicalAgent.region_anomalies six_hot_regions) = 6%nat
  /\ length (ForensicTechnicalAgent._analyze_ela hot_regions_image) = 7%nat.
Proof. split; vm_compute; reflexivity. Qed.

(** ** red_team_agent.py *)

Lemma proposed_values (host : Host) (agent_results : list AgentResult) (file_bytes : bytes) :
  let l := RedTeam.proposed
             (snd (RedTeam._check_false_positives (pillow host) agent_results file_bytes))
           ++ RedTeam.proposed (snd (RedTeam._check_cross_consistency agent_results)) in
  l = [] \/ l = [0.05] \/ l = [-0.03] \/ l = [0.05; -0.03].
Proof.
  cbv zeta.
  destruct (false_positives_adjustment (pillow host) agent_results file_bytes) as [-> | ->];
  destruct (cross_consistency_adjustment agent_results) as [-> | ->]; cbn; tauto.
Qed.

Lemma adjustment_values_fact (host : Host) (now : string) (cls : RedTeamAgent_class)
        (self : RedTeamAgent) (file_bytes : bytes) (filename : string)
        (agent_results : list AgentResult) (cross_reference : CrossReferenceResult) :
  let adj := confidence_adjustment
               (fst (RedTeam.challenge host now cls self file_bytes filename
                                       agent_results cross_reference)) in
  (adj == 0 \/ adj == 0.05 \/ adj == -0.03 \/ adj == 0.01)
  /\ -0.03 <= adj /\ adj <= 0.05.
Proof.
  cbv zeta. rewrite challenge_adjustment. cbv zeta.
  destruct (proposed_values host agent_results file_bytes) as [E | [E | [E | E]]];
    cbv zeta in E; rewrite E.
  - split; [left; reflexivity | split; discriminate].
  - split; [right; left; reflexivity | split; discriminate].
  - split; [right; right; left; reflexivity | split; discriminate].
  - split; [right; right; right; reflexivity | split; discriminate].
Qed.

(** The critique moves the score by one of four values only: 0, +0.05,
    -0.03, or their mean +0.01; so never by more than 0.05 up or 0.03
    down. *)
Theorem adjustment_values (host : Host) (now : string) (cls : RedTeamAgent_class)
        (self : RedTeamAgent) (file_bytes : bytes) (filename : string)
        (agent_results : list AgentResult) (cross_reference : CrossReferenceResult) :
  let adj := confidence_adjustment
               (fst (RedTeam.challenge host now cls self file_bytes filename
                                       agent_results cross_reference)) in
  (adj == 0 \/ adj == 0.05 \/ adj == -0.03 \/ adj == 0.01)
  /\ -0.03 <= adj /\ adj <= 0.05.
Proof. exact (adjustment_values_fact host now cls self file_bytes filename agent_results cross_reference). Qed.

(** The confidence that the route stores with the critique of a run,
    one minus the size of the adjustment, lies between 0.95 and 1. *)
Theorem stored_critique_confidence (host : Host) (now : string) (cls : RedTeamAgent_class)
        (self : RedTeamAgent) (file_bytes : bytes) (filename : string)
        (agent_results : list AgentResult) (cross_reference : CrossReferenceResult) :
  let rt := fst (RedTeam.challenge host now cls self file_bytes filename
                                   agent_results cross_reference) in
  0.95 <= Routes.red_team_confidence rt /\ Routes.red_team_confidence rt <= 1.
Proof.
  cbv zeta. unfold Routes.red_team_confidence.
  destruct (adjustment_values_fact host now cls self file_bytes filename
                              agent_results cross_reference) as (_ & Hlo & Hhi).
  cbv zeta in Hlo, Hhi.
  set (adj := confidence_adjustment _) in *. clearbody adj.
  pose proof (Qabs_nonneg adj) as H0.
  assert (H1 : Qabs adj <= 0.05) by (apply Qabs_Qle_condition; split; lra).
  lra.
Qed.

Lemma is_empty_false_iff {A} (l : list A) : RedTeam.is_empty l = false <-> l <> [].
Proof. destruct l; cbn; split; congruence. Qed.

Lemma filter_empty_iff (red_team : CritiqueResult) :
  filter Orchestrator.is_verdict_challenge (challenges red_team) = []
  <-> ~ has_verdict_challenge red_team.
Proof.
  split; [|apply no_verdict_challenge_filter].
  intros E (c & Hin & Hc).
  assert (H : In c (filter Orchestrator.is_verdict_challenge (challenges red_team))).
  { apply filter_In. split; [exact Hin|].
    unfold Orchestrator.is_verdict_challenge. rewrite Hc. reflexivity. }
  rewrite E in H. destruct H.
Qed.

Lemma classic_vc (red_team : CritiqueResult) :
  has_verdict_challenge red_team \/ ~ has_verdict_challenge red_team.
Proof.
  destruct (filter Orchestrator.is_verdict_challenge (challenges red_team)) as [|c l] eqn:E.
  - right. now apply filter_empty_iff.
  - left. exists c.
    assert (H : In c (filter Orchestrator.is_verdict_challenge (challenges red_team)))
      by (rewrite E; now left).
    apply filter_In in H. destruct H as [Hin Hc].
    split; [exact Hin | now apply String.eqb_eq].
Qed.

Lemma final_verdict_only_downgrades_fact (cross_ref : CrossReferenceResult)
        (red_team : CritiqueResult) :
  let final := Orchestrator._final_verdict cross_ref red_team in
  (verdict final = final_verdict cross_ref \/ verdict final = inconclusive)
  /\ (verdict final = authentic <->
      final_verdict cross_ref = authentic
      /\ 0.75 <= Orchestrator.adjusted_score cross_ref red_team
      /\ ~ has_verdict_challenge red_team)
  /\ (verdict final = forged <->
      final_verdict cross_ref = forged /\ ~ has_verdict_challenge red_team)
  /\ (hitl_required final = false <->
      verdict final <> inconclusive
      /\ threat_level red_team = low
      /\ (length (blind_spots red_team) < 2)%nat).
Proof.
  cbv zeta. unfold Orchestrator._final_verdict. cbn [verdict hitl_required].
  pose proof (filter_empty_iff red_team) as Hf.
  destruct (filter Orchestrator.is_verdict_challenge (challenges red_team)) as [|c l] eqn:Ef.
  - assert (Hno : ~ has_verdict_challenge red_team) by (now apply Hf).
    cbn [RedTeam.is_empty negb andb].
    destruct (Py.leb 0.75 (Orchestrator.adjusted_score cross_ref red_team)) eqn:Es;
      [apply leb_le in Es | apply leb_nle in Es];
      destruct (final_verdict cross_ref); cbn [andb Verdict_eqb orb];
      destruct (threat_level red_team);
      destruct (Nat.leb_spec 2 (length (blind_spots red_team)));
      cbn [orb];
      repeat split; intros; try discriminate; try tauto; try lia;
      try (match goal with H : _ /\ _ |- _ => destruct H as (? & ? & ?) end;
           try discriminate; try congruence; try tauto; try lia);
      try (match goal with H : _ /\ _ |- _ => destruct H as (? & ?) end;
           try discriminate; try congruence; try tauto).
  - assert (Hyes : has_verdict_challenge red_team).
    { destruct (classic_vc red_team) as [H|H]; [exact H|].
      apply Hf in H. discriminate. }
    cbn [RedTeam.is_empty negb andb].
    destruct (Py.leb 0.75 (Orchestrator.adjusted_score cross_ref red_team)) eqn:Es;
      [apply leb_le in Es | apply leb_nle in Es];
      destruct (final_verdict cross_ref); cbn [andb Verdict_eqb orb];
      destruct (threat_level red_team);
      destruct (Nat.leb_spec 2 (length (blind_spots red_team)));
      cbn [orb];
      repeat split; intros; try discriminate; try tauto; try lia;
      try (match goal with H : _ /\ _ |- _ => destruct H as (? & ? & ?) end;
           try discriminate; try congruence; try tauto; try lia);
      try (match goal with H : _ /\ _ |- _ => destruct H as (? & ?) end;
           try discriminate; try congruence; try tauto).
Qed.

(** The final rule can keep the aggregator's verdict or replace it by
    inconclusive, never turn authentic into forged or back.  It keeps
    authentic only without a verdict challenge and with an adjusted score of
    at least 0.75, keeps forged only without a verdict challenge, and waives
    human review only for a kept verdict under a low threat level with fewer
    than two blind spots. *)
Theorem final_verdict_only_downgrades (cross_ref : CrossReferenceResult)
        (red_team : CritiqueResult) :
  let final := Orchestrator._final_verdict cross_ref red_team in
  (verdict final = final_verdict cross_ref \/ verdict final = inconclusive)
  /\ (verdict final = authentic <->
      final_verdict cross_ref = authentic
      /\ 0.75 <= Orchestrator.adjusted_score cross_ref red_team
      /\ ~ has_verdict_challenge red_team)
  /\ (verdict final = forged <->
      final_verdict cross_ref = forged /\ ~ has_verdict_challenge red_team)
  /\ (hitl_required final = false <->
      verdict final <> inconclusive
      /\ threat_level red_team = low
      /\ (length (blind_spots red_team) < 2)%nat).
Proof. exact (final_verdict_only_downgrades_fact cross_ref red_team). Qed.

Lemma false_positives_types (pil : Pillow) (results : list AgentResult) (file_bytes : bytes) :
  Forall (fun c => c_type c = "false_positive_risk")
         (fst (RedTeam._check_false_positives pil results file_bytes)).
Proof.
  unfold RedTeam._check_false_positives.
  destruct (find _ results) as [forensic|]; [|constructor].
  destruct (filter (fun a => Py.contains "ELA" (a_type a)) (anomalies forensic)) as [|a0 l0].
  - destruct (filter _ (anomalies forensic)); cbn [fst app]; repeat constructor.
  - destruct (Image_open pil file_bytes) as [img|e];
      [destruct (format_is img "JPEG"); [destruct (Py.ltb _ 0.3)|]|];
      destruct (filter _ (anomalies forensic)); cbn [fst app]; repeat constructor.
Qed.

Lemma cross_consistency_types (results : list AgentResult) :
  Forall (fun c => c_type c = "consistency_gap" \/ c_type c = "cross_disagreement")
         (fst (RedTeam._check_cross_consistency results)).
Proof.
  unfold RedTeam._check_cross_consistency.
  destruct (map snd (RedTeam.build_scores results)) as [|v [|v' vs]];
    try destruct (Py.ltb 0.3 _);
    destruct (Py.ltb 0.25 _); cbn [fst app];
    repeat first [ apply Forall_nil
                 | apply Forall_cons; [first [left; reflexivity | right; reflexivity]|] ].
Qed.

Lemma challenge_verdict_types (cross_ref : CrossReferenceResult) (results : list AgentResult) :
  Forall (fun c => c_type c = "verdict_challenge")
         (RedTeam._challenge_verdict cross_ref results).
Proof.
  unfold RedTeam._challenge_verdict.
  destruct (Verdict_eqb _ authentic && _); destruct (Verdict_eqb _ forged && _);
    cbn [app]; repeat constructor.
Qed.

(** A verdict challenge among the challenges of a critique can only come
    from the verdict module. *)
Lemma verdict_challenge_origin (host : Host) (now : string) (cls : RedTeamAgent_class)
      (self : RedTeamAgent) (file_bytes : bytes) (filename : string)
      (agent_results : list AgentResult) (cross_reference : CrossReferenceResult)
      (c : Challenge) :
  In c (challenges (fst (RedTeam.challenge host now cls self file_bytes filename
                                           agent_results cross_reference))) ->
  c_type c = "verdict_challenge" ->
  In c (RedTeam._challenge_verdict cross_reference agent_results).
Proof.
  cbn [RedTeam.challenge fst challenges]. rewrite !in_app_iff.
  intros [H | [H | [H | H]]] Hc; [exfalso .. | exact H].
  - pose proof (false_positives_types (pillow host) agent_results file_bytes) as F.
    rewrite Forall_forall in F. specialize (F c H). congruence.
  - pose proof (cross_consistency_types agent_results) as F.
    rewrite Forall_forall in F. destruct (F c H); congruence.
  - pose proof (edge_cases_shape (pillow host) file_bytes agent_results) as F.
    cbv zeta in F. rewrite Forall_forall in F. exact (F c H Hc).
Qed.

Lemma substring_length (n : nat) (s : string) :
  String.length (String.substring 0 n s) = Nat.min n (String.length s).
Proof.
  revert s. induction n as [|n IH]; intros [|c s]; cbn; try reflexivity.
  now rewrite IH.
Qed.

(** The entry that a call appends describes that call: its time stamp, the
    first sixteen characters of the file's digest, the numbers of challenges
    and blind spots it returned, the adjustment it returned, and a flag that
    is set exactly when the returned challenges hold a verdict challenge,
    the test by which the orchestrator overrides the verdict. *)
Theorem log_entry_describes_call (host : Host) (now : string) (cls : RedTeamAgent_class)
        (self : RedTeamAgent) (file_bytes : bytes) (filename : string)
        (agent_results : list AgentResult) (cross_reference : CrossReferenceResult) :
  String.length (sha256_hexdigest host file_bytes) = 64%nat ->
  let out := RedTeam.challenge host now cls self file_bytes filename
                               agent_results cross_reference in
  exists entry,
    learning_log (snd out) = learning_log cls ++ [entry]
    /\ timestamp entry = now
    /\ String.length (file_hash entry) = 16%nat
    /\ String.prefix (file_hash entry) (sha256_hexdigest host file_bytes) = true
    /\ challenges_count entry = length (challenges (fst out))
    /\ blind_spots_count entry = length (blind_spots (fst out))
    /\ e_confidence_adjustment entry = confidence_adjustment (fst out)
    /\ (verdict_challenged entry = true <-> has_verdict_challenge (fst out)).
Proof.
  intros Hlen out. eexists. split; [reflexivity|].
  cbn [timestamp file_hash challenges_count blind_spots_count e_confidence_adjustment
       verdict_challenged].
  split; [reflexivity|].
  split; [rewrite substring_length, Hlen; reflexivity|].
  split.
  { generalize (sha256_hexdigest host file_bytes). generalize 16%nat.
    induction n as [|n IH]; intros [|c s]; cbn; try reflexivity.
    destruct (ascii_dec c c) as [_|Hc]; [apply IH | now destruct Hc]. }
  split; [reflexivity|]. split; [reflexivity|]. split; [reflexivity|].
  pose proof (challenge_verdict_types cross_reference agent_results) as Ht.
  rewrite Forall_forall in Ht.
  split.
  - intro Hv. apply negb_true_iff, is_empty_false_iff in Hv.
    destruct (RedTeam._challenge_verdict cross_reference agent_results) as [|c l] eqn:E;
      [congruence|].
    exists c. split.
    + subst out. cbn [RedTeam.challenge fst challenges]. rewrite E, !in_app_iff.
      right. right. right. now left.
    + apply Ht. now left.
  - intros (c & Hin & Hc). apply negb_true_iff, is_empty_false_iff.
    pose proof (verdict_challenge_origin host now cls self file_bytes filename
                  agent_results cross_reference c Hin Hc) as Hm.
    intro E. rewrite E in Hm. destruct Hm.
Qed.

Lemma log_entry_describes_call_witness :
  exists entry,
    learning_log
      (snd (RedTeam.challenge (host_opening square_jpeg) "2024-01-01T00:00:00" no_log
                              (RedTeamAgent_instance 0) [] "photo.jpg"
                              one_high_opinion authentic_cross))
    = learning_log no_log ++ [entry]
    /\ timestamp entry = "2024-01-01T00:00:00"
    /\ String.length (file_hash entry) = 16%nat
    /\ String.prefix (file_hash entry) (sha256_hexdigest (host_opening square_jpeg) []) = true
    /\ challenges_count entry
       = length (challenges
                   (fst (RedTeam.challenge (host_opening square_jpeg) "2024-01-01T00:00:00"
                                           no_log (RedTeamAgent_instance 0) [] "photo.jpg"
                                           one_high_opinion authentic_cross)))
    /\ blind_spots_count entry
       = length (blind_spots
                   (fst (RedTeam.challenge (host_opening square_jpeg) "2024-01-01T00:00:00"
                                           no_log (RedTeamAgent_instance 0) [] "photo.jpg"
                                           one_high_opinion authentic_cross)))
    /\ e_confidence_adjustment entry
       = confidence_adjustment
           (fst (RedTeam.challenge (host_opening square_jpeg) "2024-01-01T00:00:00"
                                   no_log (RedTeamAgent_instance 0) [] "photo.jpg"
                                   one_high_opinion authentic_cross))
    /\ (verdict_challenged entry = true
        <-> has_verdict_challenge
              (fst (RedTeam.challenge (host_opening square_jpeg) "2024-01-01T00:00:00"
                                      no_log (RedTeamAgent_instance 0) [] "photo.jpg"
                                      one_high_opinion authentic_cross))).
Proof.
  apply (log_entry_describes_call (host_opening square_jpeg) "2024-01-01T00:00:00" no_log
           (RedTeamAgent_instance 0) [] "photo.jpg" one_high_opinion authentic_cross).
  reflexivity.
Defined.

Lemma last5_app (prefix recent : list LogEntry) :
  length recent = 5%nat -> RedTeam.last5 (prefix ++ recent) = recent.
Proof.
  intro H. unfold RedTeam.last5. rewrite length_app, H.
  replace (length prefix + 5 - 5)%nat with (length prefix) by lia.
  rewrite skipn_app, skipn_all, Nat.sub_diag. reflexivity.
Qed.

(** The recommendations read the log only through its five most recent
    entries: logs that end in the same five entries give the same
    recommendations, and a log of fewer than five entries gives those of an
    empty log. *)
Theorem recommendations_read_last_five
        (self self' : RedTeamAgent) (challenges : list Challenge)
        (blind_spots : list BlindSpot) (results : list AgentResult) :
  (forall prefix prefix' recent,
     length recent = 5%nat ->
     RedTeam._generate_recommendations {| learning_log := prefix ++ recent |} self
                                       challenges blind_spots results
     = RedTeam._generate_recommendations {| learning_log := prefix' ++ recent |} self'
                                         challenges blind_spots results)
  /\ (forall log,
        (length log < 5)%nat ->
        RedTeam._generate_recommendations {| learning_log := log |} self
                                          challenges blind_spots results
        = RedTeam._generate_recommendations {| learning_log := [] |} self'
                                            challenges blind_spots results).
Proof.
  split.
  - intros prefix prefix' recent H5.
    unfold RedTeam._generate_recommendations, RedTeam.get_learning_log. cbn [learning_log].
    rewrite !last5_app by exact H5.
    rewrite !length_app, H5.
    replace (5 <=? length prefix + 5)%nat with true by (symmetry; apply Nat.leb_le; lia).
    replace (5 <=? length prefix' + 5)%nat with true by (symmetry; apply Nat.leb_le; lia).
    reflexivity.
  - intros log Hlen.
    unfold RedTeam._generate_recommendations, RedTeam.get_learning_log. cbn [learning_log].
    replace (5 <=? length log)%nat with false by (symmetry; apply Nat.leb_gt; lia).
    reflexivity.
Qed.

Lemma recommendations_read_last_five_witness :
  RedTeam._generate_recommendations
    {| learning_log := [entry_with 0] ++ busy_history |} (RedTeamAgent_instance 0) [] [] []
  = RedTeam._generate_recommendations
      {| learning_log := [] ++ busy_history |} (RedTeamAgent_instance 1) [] [] []
  /\ RedTeam._generate_recommendations
       {| learning_log := [entry_with 9] |} (RedTeamAgent_instance 0) [] [] []
     = RedTeam._generate_recommendations
         {| learning_log := [] |} (RedTeamAgent_instance 1) [] [] [].
Proof.
  destruct (recommendations_read_last_five (RedTeamAgent_instance 0) (RedTeamAgent_instance 1)
                                           [] [] []) as [H5 Hshort].
  split.
  - apply H5. reflexivity.
  - apply Hshort. cbn. lia.
Defined.



(** ** orchestrator.py *)

Lemma total_high_is_high_count (agent_results : list AgentResult) :
  RedTeam.total_high agent_results = high_count_of agent_results.
Proof.
  rewrite high_count_of_sum.
  unfold RedTeam.total_high, CrossReference.count_severity.
  induction agent_results as [|r rest IH]; [reflexivity|].
  cbn [flat_map map list_sum]. now rewrite length_app, IH.
Qed.

(** What a completed run is made of. *)
Lemma adjudicate_inv (host : Host) (now : string) (cls cls' : RedTeamAgent_class)
      (self : RedTeamAgent) (file_bytes : bytes) (filename : string)
      (agent_results : list AgentResult) (out : Analysis) :
  Orchestrator.adjudicate host now cls self file_bytes filename agent_results
  = Py.Ok (out, cls') ->
  exists cross,
    CrossReference.analyze CrossReference.engine agent_results = Py.Ok cross
    /\ out_agent_results out = agent_results
    /\ out_cross_reference out = cross
    /\ out_red_team out
       = fst (RedTeam.challenge host now cls self file_bytes filename agent_results cross)
    /\ cls' = snd (RedTeam.challenge host now cls self file_bytes filename agent_results cross)
    /\ out_verdict out = verdict (Orchestrator._final_verdict cross (out_red_team out))
    /\ out_confidence_score out
       = confidence (Orchestrator._final_verdict cross (out_red_team out))
    /\ out_hitl_required out
       = hitl_required (Orchestrator._final_verdict cross (out_red_team out)).
Proof.
  unfold Orchestrator.adjudicate.
  destruct (CrossReference.analyze CrossReference.engine agent_results) as [cross|e];
    cbn [Py.bind]; [|discriminate].
  destruct (RedTeam.challenge host now cls self file_bytes filename agent_results cross)
    as [rt cls0] eqn:E.
  intro H. apply Ok_inj in H. injection H as <- <-.
  exists cross. rewrite E.
  cbn [out_agent_results out_cross_reference out_red_team out_verdict
       out_confidence_score out_hitl_required fst snd].
  repeat split.
Qed.

Lemma adjudicate_returns (host : Host) (now : string) (cls : RedTeamAgent_class)
      (self : RedTeamAgent) (file_bytes : bytes) (filename : string)
      (agent_results : list AgentResult) :
  exists out cls',
    Orchestrator.adjudicate host now cls self file_bytes filename agent_results
    = Py.Ok (out, cls').
Proof.
  unfold Orchestrator.adjudicate.
  destruct (analyze_returns CrossReference.engine agent_results) as (cross & Hc & _).
  rewrite Hc. cbn [Py.bind].
  destruct (RedTeam.challenge host now cls self file_bytes filename agent_results cross)
    as [rt cls0].
  eexists. eexists. reflexivity.
Qed.

(** An opinion of the embedding is well formed by its type, so on the
    opinions kept stages 2 to 4 return. *)
Lemma analyze_returns_always (host : Host) (vision : VisionAgents) (now : string)
      (cls : RedTeamAgent_class) (self : RedTeamAgent)
      (file_bytes : bytes) (filename media_type : string) :
  exists out cls',
    Orchestrator.analyze host vision now cls self file_bytes filename media_type
    = Py.Ok (out, cls').
Proof. unfold Orchestrator.analyze. apply adjudicate_returns. Qed.

Lemma run_verdict_challenge_is_forged_side_fact
        (host : Host) (now : string) (cls cls' : RedTeamAgent_class) (self : RedTeamAgent)
        (file_bytes : bytes) (filename : string) (agent_results : list AgentResult)
        (out : Analysis) (c : Challenge) :
  Orchestrator.adjudicate host now cls self file_bytes filename agent_results
  = Py.Ok (out, cls') ->
  In c (challenges (out_red_team out)) ->
  c_type c = "verdict_challenge" ->
  c_severity c = "medium"
  /\ final_verdict (out_cross_reference out) = forged
  /\ 0.7 < combined_score (out_cross_reference out)
  /\ out_verdict out = inconclusive.
Proof.
  intros Hrun Hin Hc.
  destruct (adjudicate_inv _ _ _ _ _ _ _ _ _ Hrun)
    as (cross & Hcross & _ & Hx & Hrt & _ & Hv & _).
  rewrite Hx. rewrite Hrt in Hin.
  pose proof (verdict_challenge_origin _ _ _ _ _ _ _ _ c Hin Hc) as Hm.
  unfold RedTeam._challenge_verdict in Hm.
  assert (Hfirst : Verdict_eqb (final_verdict cross) authentic
                   && (0 <? RedTeam.total_high agent_results)%nat = false).
  { destruct (final_verdict cross) eqn:Ev; try reflexivity. cbn [Verdict_eqb andb].
    rewrite total_high_is_high_count.
    destruct (verdict_requirements_fact agent_results cross Hcross) as [Ha _].
    destruct (Ha Ev) as [H0 _]. rewrite H0. reflexivity. }
  rewrite Hfirst in Hm. cbn [app] in Hm.
  destruct (final_verdict cross) eqn:Ev; cbn [Verdict_eqb andb] in Hm; try destruct Hm.
  destruct (Py.ltb 0.7 (combined_score cross)) eqn:Es; [|destruct Hm].
  destruct Hm as [<- | []]. apply ltb_lt in Es.
  split; [reflexivity|]. split; [reflexivity|]. split; [exact Es|].
  rewrite Hv.
  assert (Hvc : has_verdict_challenge (out_red_team out)).
  { exists (plain_challenge "verdict_challenge" "medium"). rewrite Hrt. split; [exact Hin|].
    reflexivity. }
  apply (final_verdict_overridden cross (out_red_team out) Hvc). right. exact Ev.
Qed.

(** Within a run, the verdict challenge against an authentic verdict never
    fires, because the aggregator calls nothing authentic that carries a
    high-severity anomaly; a verdict challenge, when there is one, is the
    medium one against a forged verdict with a combined score above 0.7, and
    the run ends inconclusive. *)
Theorem run_verdict_challenge_is_forged_side
        (host : Host) (now : string) (cls cls' : RedTeamAgent_class) (self : RedTeamAgent)
        (file_bytes : bytes) (filename : string) (agent_results : list AgentResult)
        (out : Analysis) (c : Challenge) :
  Orchestrator.adjudicate host now cls self file_bytes filename agent_results
  = Py.Ok (out, cls') ->
  In c (challenges (out_red_team out)) ->
  c_type c = "verdict_challenge" ->
  c_severity c = "medium"
  /\ final_verdict (out_cross_reference out) = forged
  /\ 0.7 < combined_score (out_cross_reference out)
  /\ out_verdict out = inconclusive.
Proof. exact (run_verdict_challenge_is_forged_side_fact host now cls cls' self file_bytes filename agent_results out c). Qed.



Lemma adjusted_at_least (cross_ref : CrossReferenceResult) (red_team : CritiqueResult) :
  0.75 <= Orchestrator.adjusted_score cross_ref red_team
  <-> 0.75 <= combined_score cross_ref + confidence_adjustment red_team.
Proof.
  unfold Orchestrator.adjusted_score, Py.max, Py.min.
  set (s := combined_score cross_ref + confidence_adjustment red_team).
  destruct (Py.ltb s 0.99) eqn:E1; [apply ltb_lt in E1 | apply ltb_ge in E1].
  - destruct (Py.ltb 0.05 s) eqn:E2; [apply ltb_lt in E2 | apply ltb_ge in E2];
      split; intro H; lra.
  - destruct (Py.ltb 0.05 0.99) eqn:E2; [|discriminate]. split; intro H; lra.
Qed.

(** How a run ends, by the aggregator's verdict: a forged verdict stands
    when the combined score is at most 0.7 and becomes inconclusive above
    it; an authentic verdict stands when the score plus the critique's
    adjustment is at least 0.75 and becomes inconclusive below; an
    inconclusive verdict stays. *)
Theorem run_final_verdict
        (host : Host) (now : string) (cls cls' : RedTeamAgent_class) (self : RedTeamAgent)
        (file_bytes : bytes) (filename : string) (agent_results : list AgentResult)
        (out : Analysis) :
  Orchestrator.adjudicate host now cls self file_bytes filename agent_results
  = Py.Ok (out, cls') ->
  let cross := out_cross_reference out in
  let adjusted := combined_score cross + confidence_adjustment (out_red_team out) in
  (final_verdict cross = forged ->
   (combined_score cross <= 0.7 -> out_verdict out = forged)
   /\ (0.7 < combined_score cross -> out_verdict out = inconclusive))
  /\ (final_verdict cross = authentic ->
      (0.75 <= adjusted -> out_verdict out = authentic)
      /\ (adjusted < 0.75 -> out_verdict out = inconclusive))
  /\ (final_verdict cross = inconclusive -> out_verdict out = inconclusive).
Proof.
  intros Hrun. cbv zeta.
  destruct (adjudicate_inv _ _ _ _ _ _ _ _ _ Hrun)
    as (cross & Hcross & _ & Hx & Hrt & _ & Hv & _).
  rewrite Hx, Hv.
  destruct (final_verdict_only_downgrades_fact cross (out_red_team out))
    as (Hkeep & Hauth & Hforg & _).
  cbv zeta in Hkeep, Hauth, Hforg.
  assert (Hside : forall c, In c (challenges (out_red_team out)) ->
                            c_type c = "verdict_challenge" ->
                            final_verdict cross = forged /\ 0.7 < combined_score cross).
  { intros c Hin Hc.
    destruct (run_verdict_challenge_is_forged_side_fact _ _ _ _ _ _ _ _ _ c Hrun Hin Hc)
      as (_ & Hf & Hs & _).
    rewrite Hx in Hf, Hs. split; assumption. }
  split; [|split].
  - intro Ef. split; intro Hs.
    + apply Hforg. split; [exact Ef|]. intros (c & Hin & Hc).
      destruct (Hside c Hin Hc) as [_ H7]. lra.
    + assert (Hvc : has_verdict_challenge (out_red_team out)).
      { exists (plain_challenge "verdict_challenge" "medium"). split; [|reflexivity].
        rewrite Hrt. cbn [RedTeam.challenge fst challenges]. rewrite !in_app_iff.
        right. right. right. unfold RedTeam._challenge_verdict.
        rewrite Ef. cbn [Verdict_eqb andb app].
        apply ltb_lt in Hs. rewrite Hs. now left. }
      apply (final_verdict_overridden cross (out_red_team out) Hvc). now right.
  - intro Ea.
    assert (Hno : ~ has_verdict_challenge (out_red_team out)).
    { intros (c & Hin & Hc). destruct (Hside c Hin Hc) as [Hf _]. congruence. }
    split; intro Hs.
    + apply Hauth. split; [exact Ea|]. split; [|exact Hno].
      apply adjusted_at_least. exact Hs.
    + destruct Hkeep as [Hk | Hk]; [|exact Hk]. exfalso.
      rewrite Ea in Hk. apply Hauth in Hk. destruct Hk as (_ & Hge & _).
      apply adjusted_at_least in Hge. lra.
  - intro Ei. destruct Hkeep as [Hk | Hk]; [rewrite Hk; exact Ei | exact Hk].
Qed.

(** The history never reaches a decision: two runs on the same file and
    opinions, at any times, through any instances and over any logs, return
    the same challenges, blind spots, adjustment and threat level, and end
    with the same verdict, confidence and review flag. *)
Theorem history_does_not_influence_verdict
        (host : Host) (now now' : string) (cls cls' after after' : RedTeamAgent_class)
        (self self' : RedTeamAgent) (file_bytes : bytes) (filename : string)
        (agent_results : list AgentResult) (out out' : Analysis) :
  Orchestrator.adjudicate host now cls self file_bytes filename agent_results
  = Py.Ok (out, after) ->
  Orchestrator.adjudicate host now' cls' self' file_bytes filename agent_results
  = Py.Ok (out', after') ->
  out_cross_reference out = out_cross_reference out'
  /\ challenges (out_red_team out) = challenges (out_red_team out')
  /\ blind_spots (out_red_team out) = blind_spots (out_red_team out')
  /\ confidence_adjustment (out_red_team out) = confidence_adjustment (out_red_team out')
  /\ threat_level (out_red_team out) = threat_level (out_red_team out')
  /\ out_verdict out = out_verdict out'
  /\ out_confidence_score out = out_confidence_score out'
  /\ out_hitl_required out = out_hitl_required out'.
Proof.
  intros H H'.
  destruct (adjudicate_inv _ _ _ _ _ _ _ _ _ H)
    as (cross & Hc & _ & Hx & Hrt & _ & Hv & Hs & Hh).
  destruct (adjudicate_inv _ _ _ _ _ _ _ _ _ H')
    as (cross' & Hc' & _ & Hx' & Hrt' & _ & Hv' & Hs' & Hh').
  rewrite Hc in Hc'. apply Ok_inj in Hc'. subst cross'.
  rewrite Hv, Hs, Hh, Hv', Hs', Hh', Hx, Hx', Hrt, Hrt'.
  repeat split.
Qed.

Lemma history_does_not_influence_verdict_witness :
  exists out out' after after',
    Orchestrator.adjudicate (host_opening square_jpeg) "2024-01-01T00:00:00" no_log
                            (RedTeamAgent_instance 0) [] "photo.jpg" one_high_opinion
    = Py.Ok (out, after)
    /\ Orchestrator.adjudicate (host_opening square_jpeg) "2024-06-30T12:00:00"
                               {| learning_log := busy_history |}
                               (RedTeamAgent_instance 1) [] "photo.jpg" one_high_opinion
       = Py.Ok (out', after')
    /\ out_verdict out = out_verdict out'
    /\ out_hitl_required out = out_hitl_required out'.
Proof.
  destruct (adjudicate_returns (host_opening square_jpeg) "2024-01-01T00:00:00" no_log
                               (RedTeamAgent_instance 0) [] "photo.jpg" one_high_opinion)
    as (out & after & H).
  destruct (adjudicate_returns (host_opening square_jpeg) "2024-06-30T12:00:00"
                               {| learning_log := busy_history |}
                               (RedTeamAgent_instance 1) [] "photo.jpg" one_high_opinion)
    as (out' & after' & H').
  exists out, out', after, after'. split; [exact H|]. split; [exact H'|].
  destruct (history_does_not_influence_verdict _ _ _ _ _ _ _ _ _ _ _ _ _ _ H H')
    as (_ & _ & _ & _ & _ & Hv & _ & Hh).
  split; assumption.
Defined.

(** ** The consistency check and missing opinions *)

Lemma dict_get_set {V} (d : list (string * V)) (k k' : string) (v dflt : V) :
  Py.dict_get (Py.dict_set d k v) k' dflt
  = if String.eqb k k' then v else Py.dict_get d k' dflt.
Proof.
  induction d as [|[k0 v0] d IH]; cbn [Py.dict_set Py.dict_get].
  - reflexivity.
  - destruct (String.eqb_spec k0 k) as [->|Hne]; cbn [Py.dict_get].
    + destruct (String.eqb k k'); reflexivity.
    + destruct (String.eqb_spec k0 k') as [->|Hne'].
      * destruct (String.eqb_spec k k') as [->|_]; [congruence | reflexivity].
      * exact IH.
Qed.

Lemma scores_hold_last (results : list AgentResult) (kind : string) (dflt : Q) :
  forall init,
  Py.dict_get (fold_left (fun d r => Py.dict_set d (agent_type r) (confidence_score r))
                         results init) kind dflt
  = match last_score kind results with
    | Some s => s
    | None => Py.dict_get init kind dflt
    end.
Proof.
  induction results as [|r rest IH]; intro init; cbn [fold_left last_score].
  - reflexivity.
  - rewrite IH. destruct (last_score kind rest); [reflexivity|].
    rewrite dict_get_set. destruct (String.eqb (agent_type r) kind); reflexivity.
Qed.

(** On exact scores the disagreement challenge is raised exactly when the
    two scores compared differ by more than 0.25. *)
Lemma disagreement_on_exact_scores (results : list AgentResult) :
  In (plain_challenge "cross_disagreement" "medium")
     (fst (RedTeam._check_cross_consistency results))
  <-> 0.25 < Qabs (score_or_default "forensic_technical" results
                   - score_or_default "contextual" results).
Proof.
  unfold RedTeam._check_cross_consistency, RedTeam.build_scores, score_or_default.
  rewrite !scores_hold_last. cbn [Py.dict_get].
  set (f := match last_score "forensic_technical" results with Some s => s | None => 0.5 end).
  set (c := match last_score "contextual" results with Some s => s | None => 0.5 end).
  rewrite <- ltb_lt.
  destruct (map snd _) as [|v [|v' vs]]; try destruct (Py.ltb 0.3 _);
    destruct (Py.ltb 0.25 (Qabs (f - c))); cbn [fst app In];
    split; intro H; try reflexivity; try discriminate; try tauto;
    try (destruct H as [H | H]; [discriminate | tauto]);
    try (destruct H as [H | [H | H]]; try discriminate; tauto).
Qed.

Lemma far_from_half (c : Q) : 0.25 < Qabs (c - 0.5) <-> 0.75 < c \/ c < 0.25.
Proof.
  destruct (Qlt_le_dec c 0.5) as [Hlt | Hge].
  - rewrite (Qabs_neg (c - 0.5)) by lra. split; [intro H; right; lra | intros [H | H]; lra].
  - rewrite (Qabs_pos (c - 0.5)) by lra. split; [intro H; left; lra | intros [H | H]; lra].
Qed.

(** The forensic agent states its confidence in hundredths. *)
Lemma forensic_confidence_hundredths (pil : Pillow) (file_bytes : bytes) (filename : string)
      (r : AgentResult) :
  ForensicTechnicalAgent.analyze pil file_bytes filename = Py.Ok r ->
  exists n : Z, confidence_score r == n # 100.
Proof.
  intro Hr. destruct (Image_open pil file_bytes) as [img|e] eqn:Ho.
  - destruct (analyze_scores_by_law pil file_bytes filename img r Ho Hr) as [_ Hc].
    rewrite Hc. destruct (anomalies r) as [|a l]; [exists 92%Z; reflexivity|].
    pose proof (calculate_confidence_closed (a :: l) ltac:(discriminate)) as E0.
    destruct (total_penalty_hundredths (a :: l)) as (k & _ & E).
    unfold Py.max in E0.
    destruct (Py.ltb 0.15 (0.92 - total_penalty (a :: l))).
    + exists (92 - k)%Z. rewrite E0, E.
      unfold Qeq, Qminus, Qplus, Qopp. cbn [Qnum Qden]. lia.
    + exists 15%Z. rewrite E0. reflexivity.
  - unfold ForensicTechnicalAgent.analyze in Hr. rewrite Ho in Hr.
    apply Ok_inj in Hr. subst r. exists 50%Z. reflexivity.
Qed.

(** The consistency check compares two scores only: the confidence of the
    last forensic opinion and that of the last contextual opinion, with 0.5
    standing in for a kind that has no opinion.  Opinion sets that agree on
    these two scores get the disagreement challenge alike.  So an opinion of
    the forensic agent that stands alone is measured against a contextual
    score of 0.5 that no provider gave: the challenge is raised exactly when
    its confidence, which the agent states in hundredths, is above 0.75 or
    below 0.25. *)
Theorem disagreement_uses_default :
  (forall results results' : list AgentResult,
     score_or_default "forensic_technical" results
     = score_or_default "forensic_technical" results' ->
     score_or_default "contextual" results = score_or_default "contextual" results' ->
     (In (plain_challenge "cross_disagreement" "medium")
         (fst (RedTeam._check_cross_consistency results))
      <-> In (plain_challenge "cross_disagreement" "medium")
             (fst (RedTeam._check_cross_consistency results'))))
  /\ (forall (pil : Pillow) (file_bytes : bytes) (filename : string) (r : AgentResult),
        ForensicTechnicalAgent.analyze pil file_bytes filename = Py.Ok r ->
        (exists n : Z, confidence_score r == n # 100)
        /\ (In (plain_challenge "cross_disagreement" "medium")
               (fst (RedTeam._check_cross_consistency [r]))
            <-> 0.75 < confidence_score r \/ confidence_score r < 0.25)).
Proof.
  split.
  - intros results results' Hf Hc. rewrite !disagreement_on_exact_scores, Hf, Hc. tauto.
  - intros pil file_bytes filename r Hr.
    split; [exact (forensic_confidence_hundredths pil file_bytes filename r Hr)|].
    destruct (forensic_opinion_shape_fact pil file_bytes filename r Hr) as [Ht _].
    rewrite disagreement_on_exact_scores.
    unfold score_or_default. cbn [last_score]. rewrite Ht. cbn [String.eqb Ascii.eqb Bool.eqb].
    apply far_from_half.
Qed.

Lemma disagreement_uses_default_witness :
  exists r,
    ForensicTechnicalAgent.analyze (opens_as square_jpeg) square_jpeg_bytes "photo.jpg"
    = Py.Ok r
    /\ In (plain_challenge "cross_disagreement" "medium")
          (fst (RedTeam._check_cross_consistency [r])).
Proof.
  eexists. split; [vm_compute; reflexivity|].
  apply (proj2 (proj2 disagreement_uses_default (opens_as square_jpeg) square_jpeg_bytes
                      "photo.jpg" _ ltac:(vm_compute; reflexivity))).
  left. vm_compute. reflexivity.
Defined.

(** ** Runs on the opinions of the signal analyzer alone *)

Lemma prefix_has_char (c : ascii) (n : string) :
  forall h, String.prefix n h = true -> has_char c n = true -> has_char c h = true.
Proof.
  induction n as [|a n IH]; intros h Hp Hc; [discriminate|].
  destruct h as [|b h]; [discriminate|]. cbn [String.prefix] in Hp.
  destruct (ascii_dec a b) as [->|_]; [|discriminate].
  cbn [has_char] in *. destruct (Ascii.eqb b c); [reflexivity|]. cbn [orb] in *.
  now apply IH.
Qed.

Lemma contains_has_char (c : ascii) (n h : string) :
  Py.contains n h = true -> has_char c n = true -> has_char c h = true.
Proof.
  intros Hc Hn. induction h as [|b h IH]; cbn [Py.contains] in Hc.
  - destruct (String.prefix n "") eqn:E; [|discriminate].
    exact (prefix_has_char c n "" E Hn).
  - destruct (String.prefix n (String b h)) eqn:E.
    + exact (prefix_has_char c n _ E Hn).
    + cbn [has_char]. rewrite (IH Hc). apply orb_true_r.
Qed.

Lemma has_char_app (c : ascii) (s1 s2 : string) :
  has_char c (s1 ++ s2) = has_char c s1 || has_char c s2.
Proof.
  induction s1 as [|a s1 IH]; cbn [String.append has_char]; [reflexivity|].
  now rewrite IH, orb_assoc.
Qed.

Lemma lower_keeps_underscore (s : string) :
  has_char "_" (Py.lower s) = has_char "_" s.
Proof.
  induction s as [|a s IH]; [reflexivity|]. cbn [Py.lower has_char]. rewrite IH.
  f_equal. destruct a as [[] [] [] [] [] [] [] []]; reflexivity.
Qed.

Lemma join_without_underscore (types : list string) :
  Forall (fun t => has_char "_" t = false) types ->
  has_char "_" (Py.join " " types) = false.
Proof.
  induction 1 as [|t l Ht Hl IH]; [reflexivity|].
  destruct l as [|t' l]; cbn [Py.join]; [exact Ht|].
  rewrite !has_char_app, Ht. cbn [has_char orb Ascii.eqb Bool.eqb]. exact IH.
Qed.

(** No anomaly type without an underscore mentions clone detection. *)
Lemma clone_detection_unmentioned (types : list string) :
  Forall (fun t => has_char "_" t = false) types ->
  Py.contains "clone_detection" (Py.lower (Py.join " " types)) = false.
Proof.
  intro H. destruct (Py.contains _ _) eqn:E; [|reflexivity].
  apply (contains_has_char "_") in E; [|reflexivity].
  rewrite lower_keeps_underscore, (join_without_underscore types H) in E. discriminate.
Qed.

Ltac plain_types :=
  repeat first [ apply Forall_nil
               | apply Forall_cons; [reflexivity|] ].

Lemma forensic_types_plain (pil : Pillow) (file_bytes : bytes) (filename : string)
      (r : AgentResult) :
  ForensicTechnicalAgent.analyze pil file_bytes filename = Py.Ok r ->
  Forall (fun a => has_char "_" (a_type a) = false) (anomalies r).
Proof.
  intro Hr. unfold ForensicTechnicalAgent.analyze in Hr.
  destruct (Image_open pil file_bytes) as [img|e].
  - destruct (ForensicTechnicalAgent._analyze_exif img) as [exif_anomalies|e] eqn:He;
      cbn [Py.bind] in Hr; [|discriminate].
    apply Ok_inj in Hr. subst r. cbn [anomalies ForensicTechnicalAgent._result].
    apply Forall_app. split; [|apply Forall_app; split; [|apply Forall_app; split]].
    + unfold ForensicTechnicalAgent._analyze_exif in He.
      destruct (if has_getexif img then _ else _) as [exif_data|e]; cbn [Py.bind] in He;
        [|discriminate].
      destruct exif_data as [|kv rest]; apply Ok_inj in He; subst exif_anomalies.
      * plain_types.
      * apply Forall_app. split;
          match goal with
          | |- context [if ?b then _ else _] => destruct b
          end; plain_types.
    + unfold ForensicTechnicalAgent._analyze_ela.
      destruct (ela img) as [stats|]; [|constructor].
      apply Forall_app. split.
      * destruct (region_means stats) as [means|]; [|constructor].
        unfold ForensicTechnicalAgent.region_anomalies.
        apply Forall_forall. intros a Ha.
        apply in_flat_map in Ha. destruct Ha as ([i m] & _ & Ha).
        destruct (Py.ltb _ m && Py.ltb 15 m); [|destruct Ha].
        destruct Ha as [<- | []]. reflexivity.
      * destruct (Py.ltb 20 (std_error stats)); plain_types.
    + unfold ForensicTechnicalAgent._analyze_compression. apply Forall_app. split.
      * destruct (format_is img "JPEG"); [|constructor].
        destruct (quantization img) as [|t ts]; [constructor|].
        destruct (ForensicTechnicalAgent.q_std_exceeds_25 t); plain_types.
      * destruct (0 <? width img * height img)%Z; [|constructor].
        destruct (Py.ltb _ 0.1 && format_is img "JPEG"); plain_types.
    + unfold ForensicTechnicalAgent._analyze_dimensions.
      destruct (existsb _ _); plain_types.
  - apply Ok_inj in Hr. subst r. cbn. plain_types.
Qed.

(** The critique of a run on the signal analyzer's opinion alone, or on no
    opinion at all, always reports the two system blind spots. *)
Lemma forensic_only_blind_spots (pil : Pillow) (file_bytes : bytes) (filename : string)
      (agent_results : list AgentResult) :
  agent_results
  = Orchestrator.keep_dicts [ForensicTechnicalAgent.analyze pil file_bytes filename] ->
  exists quiet,
    RedTeam._check_false_negatives agent_results file_bytes
    = quiet ++ [missing_capability_spot; missing_agent_spot].
Proof.
  intro E. unfold Orchestrator.keep_dicts in E. cbn [flat_map] in E.
  destruct (ForensicTechnicalAgent.analyze pil file_bytes filename) as [r|e] eqn:Hr;
    cbn [app] in E; subst agent_results.
  - pose proof (forensic_types_plain pil file_bytes filename r Hr) as Hp.
    destruct (forensic_opinion_shape_fact pil file_bytes filename r Hr) as (Ht & _).
    unfold RedTeam._check_false_negatives. cbn [flat_map map].
    rewrite !app_nil_r.
    rewrite clone_detection_unmentioned
      by (apply Forall_map; exact Hp).
    rewrite Ht. cbn [negb Py.mem existsb String.eqb Ascii.eqb Bool.eqb orb].
    eexists. reflexivity.
  - exists []. reflexivity.
Qed.

(** A run for which only the signal analyzer is selected, which is every
    media type other than image, video and document, always requires human
    review: its critique reports at least the two system blind spots. *)
Theorem forensic_only_run_requires_review
        (host : Host) (vision : VisionAgents) (now : string)
        (cls : RedTeamAgent_class) (self : RedTeamAgent)
        (file_bytes : bytes) (filename media_type : string) :
  media_type <> "image" -> media_type <> "video" -> media_type <> "document" ->
  exists out cls',
    Orchestrator.analyze host vision now cls self file_bytes filename media_type
    = Py.Ok (out, cls')
    /\ (2 <= length (blind_spots (out_red_team out)))%nat
    /\ out_hitl_required out = true.
Proof.
  intros Hi Hv Hd.
  assert (Hsel : Orchestrator._select_agents media_type = [the_forensic]).
  { unfold Orchestrator._select_agents.
    destruct (String.eqb_spec media_type "image"); [contradiction|].
    destruct (String.eqb_spec media_type "video"); [contradiction|].
    destruct (String.eqb media_type "audio"); [reflexivity|].
    destruct (String.eqb_spec media_type "document"); [contradiction | reflexivity]. }
  unfold Orchestrator.analyze. rewrite Hsel. cbn [map Orchestrator.run_agent].
  set (kept := Orchestrator.keep_dicts _).
  destruct (adjudicate_returns host now cls self file_bytes filename kept) as (out & cls' & H).
  exists out, cls'. split; [exact H|].
  destruct (adjudicate_inv _ _ _ _ _ _ _ _ _ H)
    as (cross & _ & _ & _ & Hrt & _ & _ & _ & Hh).
  destruct (forensic_only_blind_spots (pillow host) file_bytes filename kept eq_refl)
    as (quiet & Hq).
  assert (Hbs : (2 <= length (blind_spots (out_red_team out)))%nat).
  { rewrite Hrt. cbn [RedTeam.challenge fst blind_spots]. rewrite Hq, length_app. cbn. lia. }
  split; [exact Hbs|].
  rewrite Hh. unfold Orchestrator._final_verdict. cbn [hitl_required].
  apply Nat.leb_le in Hbs. rewrite Hbs. apply orb_true_r.
Qed.

Lemma forensic_only_run_requires_review_witness :
  exists out cls',
    Orchestrator.analyze (host_opening square_jpeg) vision_down "2024-01-01T00:00:00"
                         no_log (RedTeamAgent_instance 0) square_jpeg_bytes "voice.mp3" "audio"
    = Py.Ok (out, cls')
    /\ (2 <= length (blind_spots (out_red_team out)))%nat
    /\ out_hitl_required out = true.
Proof.
  apply (forensic_only_run_requires_review
           (host_opening square_jpeg) vision_down "2024-01-01T00:00:00" no_log
           (RedTeamAgent_instance 0) square_jpeg_bytes "voice.mp3" "audio");
    discriminate.
Defined.

(** ** vision_agents.py and the runs it feeds *)

Lemma high_count_pos (agent_results : list AgentResult) :
  has_high_anomaly agent_results -> (1 <= high_count_of agent_results)%nat.
Proof.
  intro H. apply total_high_pos in H. rewrite total_high_is_high_count in H. lia.
Qed.

Lemma run_with_high_anomaly
      (host : Host) (now : string) (cls cls' : RedTeamAgent_class) (self : RedTeamAgent)
      (file_bytes : bytes) (filename : string) (agent_results : list AgentResult)
      (out : Analysis) :
  Orchestrator.adjudicate host now cls self file_bytes filename agent_results
  = Py.Ok (out, cls') ->
  has_high_anomaly agent_results ->
  final_verdict (out_cross_reference out) <> authentic
  /\ out_verdict out <> authentic.
Proof.
  intros Hrun Hh.
  destruct (adjudicate_inv _ _ _ _ _ _ _ _ _ Hrun)
    as (cross & Hcross & _ & Hx & _ & _ & Hv & _).
  rewrite Hx, Hv.
  assert (Hna : final_verdict cross <> authentic).
  { intro Ea. destruct (verdict_requirements_fact agent_results cross Hcross) as [Ha _].
    destruct (Ha Ea) as [H0 _]. apply high_count_pos in Hh. lia. }
  split; [exact Hna|]. intro Ef.
  apply (final_verdict_only_downgrades_fact cross (out_red_team out)) in Ef.
  destruct Ef as [Ea _]. contradiction.
Qed.

(** A run whose opinions carry a high-severity anomaly, from whichever
    source, never ends authentic, whatever the scores. *)
Theorem high_anomaly_bars_authentic
        (host : Host) (now : string) (cls cls' : RedTeamAgent_class) (self : RedTeamAgent)
        (file_bytes : bytes) (filename : string) (agent_results : list AgentResult)
        (out : Analysis) :
  Orchestrator.adjudicate host now cls self file_bytes filename agent_results
  = Py.Ok (out, cls') ->
  has_high_anomaly agent_results ->
  final_verdict (out_cross_reference out) <> authentic
  /\ out_verdict out <> authentic.
Proof. apply run_with_high_anomaly. Qed.

Lemma kept_in {A} (x : A) (raw : list (Py.result A)) :
  In (Py.Ok x) raw ->
  In x (flat_map (fun r => match r with Py.Ok d => [d] | Py.Raise _ => [] end) raw).
Proof.
  intro H. apply in_flat_map. exists (Py.Ok x). split; [exact H | now left].
Qed.

(** Without API keys every vision provider answers with its fixed fallback
    opinion, and the fallback of the physical provider carries a
    high-severity anomaly: no image is ever found authentic. *)
Theorem no_api_keys_never_authentic
        (host : Host) (now : string) (cls : RedTeamAgent_class) (self : RedTeamAgent)
        (file_bytes : bytes) (filename : string) :
  exists out cls',
    Orchestrator.analyze host (Vision.agents no_api_keys) now cls self
                         file_bytes filename "image"
    = Py.Ok (out, cls')
    /\ In Vision.physical_mock (out_agent_results out)
    /\ In Vision.contextual_mock (out_agent_results out)
    /\ In Vision.ai_generation_mock (out_agent_results out)
    /\ out_verdict out <> authentic.
Proof.
  unfold Orchestrator.analyze.
  set (kept := Orchestrator.keep_dicts _).
  destruct (adjudicate_returns host now cls self file_bytes filename kept) as (out & cls' & H).
  exists out, cls'. split; [exact H|].
  destruct (adjudicate_inv _ _ _ _ _ _ _ _ _ H) as (cross & _ & Hres & _).
  assert (Hp : In Vision.physical_mock kept).
  { subst kept. apply kept_in. right. left. reflexivity. }
  assert (Hc : In Vision.contextual_mock kept).
  { subst kept. apply kept_in. right. right. left. reflexivity. }
  assert (Ha : In Vision.ai_generation_mock kept).
  { subst kept. apply kept_in. right. right. right. left. reflexivity. }
  rewrite Hres. split; [exact Hp|]. split; [exact Hc|]. split; [exact Ha|].
  apply (run_with_high_anomaly _ _ _ _ _ _ _ _ _ H).
  exists Vision.physical_mock, (hd Vision.ai_generated_anomaly (anomalies Vision.physical_mock)).
  split; [exact Hp|]. split; [left; reflexivity | reflexivity].
Qed.

Lemma vision_kinds (api : VisionApi) (file_bytes : bytes) (filename : string)
      (agent : Agent) (host : Host) (r : AgentResult) :
  Orchestrator.run_agent host (Vision.agents api) agent file_bytes filename = Py.Ok r ->
  agent_type r = match agent with
                 | the_forensic => "forensic_technical"
                 | the_physical => "physical"
                 | the_contextual => "contextual"
                 | the_ai_gen => "ai_generation"
                 end.
Proof.
  destruct agent; cbn [Orchestrator.run_agent Vision.agents physical_analyze
                       contextual_analyze ai_gen_analyze]; intro H.
  - now destruct (forensic_opinion_shape_fact (pillow host) file_bytes filename r H).
  - unfold Vision.physical_analyze in H.
    destruct (vision_reply api the_physical file_bytes) as [[p|]|e]; cbn [Py.bind] in H;
      try discriminate; apply Ok_inj in H; subst r; reflexivity.
  - unfold Vision.contextual_analyze in H.
    destruct (vision_reply api the_contextual file_bytes) as [[p|]|e]; cbn [Py.bind] in H;
      try discriminate; apply Ok_inj in H; subst r; reflexivity.
  - unfold Vision.ai_gen_analyze in H.
    destruct (vision_reply api the_ai_gen file_bytes) as [[p|]|e]; cbn [Py.bind] in H;
      try discriminate; apply Ok_inj in H; subst r; reflexivity.
Qed.

Lemma kept_origin {A} (x : A) (raw : list (Py.result A)) :
  In x (flat_map (fun r => match r with Py.Ok d => [d] | Py.Raise _ => [] end) raw) ->
  In (Py.Ok x) raw.
Proof.
  intro H. apply in_flat_map in H. destruct H as ([d|e] & Hin & Hx).
  - destruct Hx as [<- | []]. exact Hin.
  - destruct Hx.
Qed.

Lemma kept_from_selected (host : Host) (vision : VisionAgents)
      (file_bytes : bytes) (filename media_type : string) (r : AgentResult) :
  In r (Orchestrator.keep_dicts
          (map (fun agent => Orchestrator.run_agent host vision agent file_bytes filename)
               (Orchestrator._select_agents media_type))) ->
  exists agent, In agent (Orchestrator._select_agents media_type)
    /\ Orchestrator.run_agent host vision agent file_bytes filename = Py.Ok r.
Proof.
  intro Hin. apply kept_origin in Hin. apply in_map_iff in Hin.
  destruct Hin as (agent & E & Hsel). now exists agent.
Qed.

(** What the AI-generation provider returns when it says that the image is
    AI-generated: the opinion opens with the high-severity anomaly that the
    provider inserts. *)
Lemma declared_opinion_opens_high (api : VisionApi) (file_bytes : bytes) (filename : string)
      (r : AgentResult) :
  Vision.ai_gen_analyze api file_bytes filename = Py.Ok r ->
  is_ai_generated (findings r) = true ->
  hd_error (anomalies r) = Some Vision.ai_generated_anomaly.
Proof.
  unfold Vision.ai_gen_analyze.
  destruct (vision_reply api the_ai_gen file_bytes) as [[parsed|]|e]; cbn [Py.bind];
    intros H Hai; try discriminate; apply Ok_inj in H; subst r.
  - cbn [findings is_ai_generated] in Hai. cbn [anomalies]. rewrite Hai. reflexivity.
  - discriminate.
Qed.

(** A run in which the AI-generation provider's opinion says that the image
    is AI-generated never ends authentic: that opinion opens with the
    high-severity anomaly that the provider inserts before it returns,
    whatever confidence the reply or any other opinion states. *)
Theorem declared_synthetic_never_authentic
        (host : Host) (api : VisionApi) (now : string)
        (cls cls' : RedTeamAgent_class) (self : RedTeamAgent)
        (file_bytes : bytes) (filename media_type : string)
        (out : Analysis) (r : AgentResult) :
  Orchestrator.analyze host (Vision.agents api) now cls self file_bytes filename media_type
  = Py.Ok (out, cls') ->
  In r (out_agent_results out) ->
  agent_type r = "ai_generation" ->
  is_ai_generated (findings r) = true ->
  hd_error (anomalies r) = Some Vision.ai_generated_anomaly
  /\ final_verdict (out_cross_reference out) <> authentic
  /\ out_verdict out <> authentic.
Proof.
  intros Hrun Hin Ht Hai. unfold Orchestrator.analyze in Hrun.
  destruct (adjudicate_inv _ _ _ _ _ _ _ _ _ Hrun) as (cross & _ & Hres & _).
  rewrite Hres in Hin.
  destruct (kept_from_selected _ _ _ _ _ _ Hin) as (agent & _ & Hagent).
  pose proof (vision_kinds _ _ _ _ _ _ Hagent) as Hk. rewrite Ht in Hk.
  destruct agent; try discriminate.
  cbn [Orchestrator.run_agent Vision.agents ai_gen_analyze] in Hagent.
  pose proof (declared_opinion_opens_high api file_bytes filename r Hagent Hai) as Hhd.
  split; [exact Hhd|].
  apply (run_with_high_anomaly _ _ _ _ _ _ _ _ _ Hrun).
  exists r, Vision.ai_generated_anomaly.
  split; [exact Hin|]. split; [|reflexivity].
  destruct (anomalies r) as [|a l]; [discriminate|].
  cbn [hd_error] in Hhd. injection Hhd as ->. now left.
Qed.


Lemma mem_false_iff (x : string) (l : list string) : Py.mem x l = false <-> ~ In x l.
Proof.
  unfold Py.mem. induction l as [|y l IH]; cbn [existsb In].
  - split; [intros _ [] | reflexivity].
  - rewrite orb_false_iff, IH. destruct (String.eqb_spec x y) as [->|Hne]; split.
    + intros [H _]. discriminate.
    + intro H. exfalso. apply H. now left.
    + intros [_ H] [E | Hin]; [congruence | contradiction].
    + intro H. split; [reflexivity|]. intro Hin. apply H. now right.
Qed.

(** The critique reports the missing-agent blind spot on every run of a
    media type other than image, for which the AI-generation provider is
    never selected, and on no image run in which that provider returned an
    opinion. *)
Theorem missing_agent_blind_spot
        (host : Host) (api : VisionApi) (now : string)
        (cls cls' : RedTeamAgent_class) (self : RedTeamAgent)
        (file_bytes : bytes) (filename media_type : string) (out : Analysis) :
  Orchestrator.analyze host (Vision.agents api) now cls self file_bytes filename media_type
  = Py.Ok (out, cls') ->
  (media_type <> "image" -> In missing_agent_spot (blind_spots (out_red_team out)))
  /\ (media_type = "image" ->
      (In missing_agent_spot (blind_spots (out_red_team out))
       <-> exists e, Vision.ai_gen_analyze api file_bytes filename = Py.Raise e)).
Proof.
  intro Hrun. unfold Orchestrator.analyze in Hrun.
  set (kept := Orchestrator.keep_dicts _) in Hrun.
  destruct (adjudicate_inv _ _ _ _ _ _ _ _ _ Hrun) as (cross & _ & _ & _ & Hrt & _).
  rewrite Hrt. cbn [RedTeam.challenge fst blind_spots].
  unfold RedTeam._check_false_negatives.
  assert (Hkinds : forall r, In r kept ->
            exists agent, In agent (Orchestrator._select_agents media_type)
              /\ Orchestrator.run_agent host (Vision.agents api) agent file_bytes filename
                 = Py.Ok r).
  { intros r Hin. subst kept. apply kept_origin in Hin.
    apply in_map_iff in Hin. destruct Hin as (agent & E & Hsel). now exists agent. }
  assert (Hspot : forall l1 l2 (b : bool),
            In missing_agent_spot
               (l1 ++ l2 ++ (if b then [missing_agent_spot] else [])) -> 
            Forall (fun s => b_risk s <> "missing_agent") l1 ->
            Forall (fun s => b_risk s <> "missing_agent") l2 -> b = true).
  { intros l1 l2 b Hin F1 F2. rewrite !in_app_iff in Hin.
    rewrite Forall_forall in F1, F2.
    destruct Hin as [H | [H | H]].
    - exfalso. exact (F1 _ H eq_refl).
    - exfalso. exact (F2 _ H eq_refl).
    - destruct b; [reflexivity | destruct H]. }
  split.
  - intro Hni. rewrite !in_app_iff. right. right.
    assert (Hmem : Py.mem "ai_generation" (map agent_type kept) = false).
    { apply mem_false_iff. intro Hin. apply in_map_iff in Hin.
      destruct Hin as (r & Ht & Hr). destruct (Hkinds r Hr) as (agent & Hsel & Hrun').
      rewrite (vision_kinds _ _ _ _ _ _ Hrun') in Ht.
      unfold Orchestrator._select_agents in Hsel.
      destruct (String.eqb_spec media_type "image"); [contradiction|].
      destruct (String.eqb media_type "video"); [|destruct (String.eqb media_type "audio");
        [|destruct (String.eqb media_type "document")]];
        cbn [In] in Hsel; intuition (subst; discriminate). }
    rewrite Hmem. now left.
  - intros ->. split.
    + intro Hin.
      assert (Hb : negb (Py.mem "ai_generation" (map agent_type kept)) = true).
      { apply (Hspot _ _ _ Hin).
        - apply Forall_forall. intros s Hs. apply in_flat_map in Hs.
          destruct Hs as (r & _ & Hs).
          destruct (RedTeam.is_empty (anomalies r) && _); [|destruct Hs].
          destruct Hs as [<- | []]. discriminate.
        - destruct (negb (Py.contains _ _)); repeat constructor. discriminate. }
      apply negb_true_iff, mem_false_iff in Hb.
      destruct (Vision.ai_gen_analyze api file_bytes filename) as [r|e] eqn:E;
        [|now exists e].
      exfalso. apply Hb. apply in_map_iff. exists r. split.
      * apply (vision_kinds api file_bytes filename the_ai_gen host r). exact E.
      * subst kept. apply kept_in. right. right. right. left. exact E.
    + intros (e & He). rewrite !in_app_iff. right. right.
      assert (Hmem : Py.mem "ai_generation" (map agent_type kept) = false).
      { apply mem_false_iff. intro Hin. apply in_map_iff in Hin.
        destruct Hin as (r & Ht & Hr). destruct (Hkinds r Hr) as (agent & Hsel & Hrun').
        rewrite (vision_kinds _ _ _ _ _ _ Hrun') in Ht.
        destruct agent; try discriminate.
        cbn [Orchestrator.run_agent Vision.agents ai_gen_analyze] in Hrun'. congruence. }
      rewrite Hmem. now left.
Qed.

(** ** Concrete runs *)

Lemma run_verdict_challenge_is_forged_side_witness :
  exists out cls',
    Orchestrator.adjudicate (host_opening square_jpeg) "2024-01-01T00:00:00" no_log
                            (RedTeamAgent_instance 0) [] "photo.jpg" three_high_opinions
    = Py.Ok (out, cls')
    /\ (c_severity (plain_challenge "verdict_challenge" "medium") = "medium"
        /\ final_verdict (out_cross_reference out) = forged
        /\ 0.7 < combined_score (out_cross_reference out)
        /\ out_verdict out = inconclusive).
Proof.
  eexists. eexists. split; [vm_compute; reflexivity|].
  eapply (run_verdict_challenge_is_forged_side
            (host_opening square_jpeg) "2024-01-01T00:00:00" no_log _
            (RedTeamAgent_instance 0) [] "photo.jpg" three_high_opinions).
  - vm_compute. reflexivity.
  - vm_compute. tauto.
  - reflexivity.
Defined.


Lemma run_final_verdict_witness :
  exists out cls',
    Orchestrator.adjudicate (host_opening square_jpeg) "2024-01-01T00:00:00" no_log
                            (RedTeamAgent_instance 0) [] "photo.jpg" three_high_opinions
    = Py.Ok (out, cls')
    /\ out_verdict out = inconclusive.
Proof.
  destruct (adjudicate_returns (host_opening square_jpeg) "2024-01-01T00:00:00" no_log
                               (RedTeamAgent_instance 0) [] "photo.jpg" three_high_opinions)
    as (out & cls' & Hrun).
  exists out, cls'. split; [exact Hrun|].
  destruct (run_final_verdict _ _ _ _ _ _ _ _ _ Hrun) as (Hf & _ & _). cbv zeta in Hf.
  destruct (adjudicate_inv _ _ _ _ _ _ _ _ _ Hrun) as (cross & Hcross & _ & Hx & _).
  vm_compute in Hcross. apply Ok_inj in Hcross. rewrite Hx in Hf. subst cross.
  apply Hf; [reflexivity | reflexivity].
Defined.

Lemma high_anomaly_bars_authentic_witness :
  exists out cls',
    Orchestrator.adjudicate (host_opening square_jpeg) "2024-01-01T00:00:00" no_log
                            (RedTeamAgent_instance 0) [] "photo.jpg" one_high_opinion
    = Py.Ok (out, cls')
    /\ (final_verdict (out_cross_reference out) <> authentic
        /\ out_verdict out <> authentic).
Proof.
  eexists. eexists. split; [vm_compute; reflexivity|].
  eapply (high_anomaly_bars_authentic
            (host_opening square_jpeg) "2024-01-01T00:00:00" no_log _
            (RedTeamAgent_instance 0) [] "photo.jpg" one_high_opinion).
  - vm_compute. reflexivity.
  - exists forensic_with_dates, dates_anomaly.
    split; [left; reflexivity|]. split; [left; reflexivity | reflexivity].
Defined.

Lemma declared_synthetic_never_authentic_witness :
  exists out cls',
    Orchestrator.analyze (host_opening square_jpeg) (Vision.agents api_declaring_synthetic)
                         "2024-01-01T00:00:00" no_log (RedTeamAgent_instance 0)
                         [] "photo.jpg" "image"
    = Py.Ok (out, cls')
    /\ In declared_synthetic_opinion (out_agent_results out)
    /\ (hd_error (anomalies declared_synthetic_opinion) = Some Vision.ai_generated_anomaly
        /\ final_verdict (out_cross_reference out) <> authentic
        /\ out_verdict out <> authentic).
Proof.
  eexists. eexists. split; [vm_compute; reflexivity|].
  split; [do 3 right; left; reflexivity|].
  eapply (declared_synthetic_never_authentic
            (host_opening square_jpeg) api_declaring_synthetic "2024-01-01T00:00:00"
            no_log _ (RedTeamAgent_instance 0) [] "photo.jpg" "image" _
            declared_synthetic_opinion).
  - vm_compute. reflexivity.
  - do 3 right. left. reflexivity.
  - reflexivity.
  - reflexivity.
Defined.


Lemma missing_agent_blind_spot_witness :
  exists out cls',
    Orchestrator.analyze (host_opening square_jpeg) (Vision.agents no_api_keys)
                         "2024-01-01T00:00:00" no_log (RedTeamAgent_instance 0)
                         [] "clip.mp4" "video"
    = Py.Ok (out, cls')
    /\ In missing_agent_spot (blind_spots (out_red_team out)).
Proof.
  destruct (analyze_returns_always (host_opening square_jpeg) (Vision.agents no_api_keys)
              "2024-01-01T00:00:00" no_log (RedTeamAgent_instance 0) [] "clip.mp4" "video")
    as (out & cls' & Hrun).
  exists out, cls'. split; [exact Hrun|].
  apply (proj1 (missing_agent_blind_spot _ _ _ _ _ _ _ _ _ _ Hrun)).
  discriminate.
Defined.
